(** * Research-paper summarization pipeline: agents, coordinator, registry

    A shallow embedding of the Python sources
    - [src/agents/summarization_agent.py], [src/agents/synthesis_agent.py],
      [src/agents/extraction_agent.py], [src/agents/audio_agent.py],
    - [src/services/orchestrator.py] and [src/api/routes.py].

    Conventions.
    - A Python [str] is a [string]; a character is a code point below 256 and
      the character classes ([str.isspace], [str.isupper], the regex classes
      [\s], [\d], [\w]) are the ones CPython gives on that range.
    - Third-party calls ([re.findall] with the insight patterns, NLTK's
      [sent_tokenize], the transformers pipeline, gTTS, PyMuPDF, file input
      and output, [uuid.uuid4]) are section variables; a call that can raise
      returns [option] or [result].
    - [print] is not modelled. *)

From Stdlib Require Import ZArith QArith List Bool Ascii String Lia.
From Stdlib Require Import DecimalString Floats Uint63.
From stdpp Require Import base strings gmap.
Import ListNotations.

Local Open Scope string_scope.
Local Open Scope Z_scope.

(** ** Python string primitives *)

Module Py.

Definition chars (s : string) : list ascii := list_ascii_of_string s.
Definition str (l : list ascii) : string := string_of_list_ascii l.

Definition len (s : string) : Z := Z.of_nat (String.length s).

Definition code (c : ascii) : N := N_of_ascii c.

Definition between (lo hi n : N) : bool := ((lo <=? n) && (n <=? hi))%N.

(** [str.isspace] on one character, which is also the regex class [\s]. *)
Definition isspace_char (c : ascii) : bool :=
  let n := code c in
  between 9 13 n || between 28 32 n || (n =? 133)%N || (n =? 160)%N.

(** The regex class [\d]. *)
Definition isdigit_char (c : ascii) : bool := between 48 57 (code c).

Definition isupper_char (c : ascii) : bool :=
  let n := code c in
  between 65 90 n || between 192 214 n || between 216 222 n.

Definition islower_char (c : ascii) : bool :=
  let n := code c in
  between 97 122 n || (n =? 170)%N || (n =? 181)%N || (n =? 186)%N
  || between 223 246 n || between 248 255 n.

(** The regex class [\w]. *)
Definition isword_char (c : ascii) : bool :=
  let n := code c in
  between 48 57 n || between 65 90 n || (n =? 95)%N || between 97 122 n
  || (n =? 170)%N || between 178 179 n || (n =? 181)%N || between 185 186 n
  || between 188 190 n || between 192 214 n || between 216 246 n
  || between 248 255 n.

(** The regex class [[A-Z]]. *)
Definition isAZ_char (c : ascii) : bool := between 65 90 (code c).

(** [s.isupper()]: some cased character, and no lowercase one. *)
Definition isupper (s : string) : bool :=
  existsb isupper_char (chars s) && negb (existsb islower_char (chars s)).

Fixpoint lstrip_chars (l : list ascii) : list ascii :=
  match l with
  | c :: l' => if isspace_char c then lstrip_chars l' else l
  | [] => []
  end.

Definition rstrip_chars (l : list ascii) : list ascii :=
  rev (lstrip_chars (rev l)).

(** [s.strip()] *)
Definition strip (s : string) : string :=
  str (rstrip_chars (lstrip_chars (chars s))).

(** [s.split()]: the maximal runs of non-whitespace characters. [cur] is the
    run being read, reversed. *)
Fixpoint split_ws_aux (cur : list ascii) (l : list ascii) : list string :=
  match l with
  | [] => match cur with [] => [] | _ => [str (rev cur)] end
  | c :: l' =>
      if isspace_char c
      then match cur with
           | [] => split_ws_aux [] l'
           | _ => str (rev cur) :: split_ws_aux [] l'
           end
      else split_ws_aux (c :: cur) l'
  end.

Definition split (s : string) : list string := split_ws_aux [] (chars s).

(** [s.split(sep)] for a one-character separator: never the empty list. *)
Fixpoint split_on_aux (sep : ascii) (cur : list ascii) (l : list ascii)
  : list string :=
  match l with
  | [] => [str (rev cur)]
  | c :: l' =>
      if Ascii.eqb c sep
      then str (rev cur) :: split_on_aux sep [] l'
      else split_on_aux sep (c :: cur) l'
  end.

Definition split_on (sep : ascii) (s : string) : list string :=
  split_on_aux sep [] (chars s).

(** [sep.join(parts)] *)
Definition join (sep : string) (parts : list string) : string :=
  String.concat sep parts.

(** [s[:n]], with Python's reading of a negative bound. *)
Definition slice_to (s : string) (n : Z) : string :=
  if n <? 0
  then String.substring 0 (Z.to_nat (len s + n)) s
  else String.substring 0 (Z.to_nat n) s.

(** [s.rfind(c)] for a one-character needle: the last index, or -1. *)
Fixpoint rfind_aux (c : ascii) (l : list ascii) (i : Z) (last : Z) : Z :=
  match l with
  | [] => last
  | x :: l' => rfind_aux c l' (i + 1) (if Ascii.eqb x c then i else last)
  end.

Definition rfind (s : string) (c : ascii) : Z := rfind_aux c (chars s) 0 (-1).

Definition startswith (s p : string) : bool := String.prefix p s.

(** [s.startswith((p1, p2, ...))] *)
Definition startswith_any (s : string) (ps : list string) : bool :=
  existsb (startswith s) ps.

Definition endswith (s p : string) : bool :=
  let n := String.length s in
  let m := String.length p in
  (m <=? n)%nat && String.eqb (String.substring (n - m) m s) p.

(** A Python string is false exactly when it is empty. *)
Definition truthy (s : string) : bool := negb (String.eqb s "").

(** [re.sub(r'\s+', ' ', s)]: every maximal whitespace run becomes one
    space. *)
Fixpoint collapse_ws (in_run : bool) (l : list ascii) : list ascii :=
  match l with
  | [] => []
  | c :: l' =>
      if isspace_char c
      then (if in_run then collapse_ws true l'
            else " "%char :: collapse_ws true l')
      else c :: collapse_ws false l'
  end.

Definition re_sub_whitespace (s : string) : string :=
  str (collapse_ws false (chars s)).

(** [re.sub(r'[^\w\s.,;:!?\'-]', '', s)] *)
Definition kept_char (c : ascii) : bool :=
  isword_char c || isspace_char c
  || existsb (Ascii.eqb c) (chars ".,;:!?'-").

Definition re_sub_special (s : string) : string :=
  str (List.filter (fun c => kept_char c) (chars s)).

(** [re.match(r'^[\d\.\s]+$', s)] and, with [dash], the variants
    [r'^[\d\.\s\-]+$'] and [r'^[\d\s\.\-]+$']: a non-empty string of
    characters of the class. *)
Definition numeric_char (dash : bool) (c : ascii) : bool :=
  isdigit_char c || Ascii.eqb c "."%char || isspace_char c
  || (dash && Ascii.eqb c "-"%char).

Definition re_match_numeric (dash : bool) (s : string) : bool :=
  match chars s with
  | [] => false
  | l => forallb (numeric_char dash) l
  end.

(** [re.split(r'(?<=[.!?])\s+(?=[A-Z])', s)]: a cut is a maximal whitespace
    run that follows one of [.!?] and is followed by a capital letter.
    [prev] tells whether the character before is one of [.!?], [skip]
    whether a cut is being passed over; [cur] is the piece being read,
    reversed. *)
Definition is_stop_char (c : ascii) : bool :=
  existsb (Ascii.eqb c) (chars ".!?").

Definition starts_upper (l : list ascii) : bool :=
  match l with c :: _ => isAZ_char c | [] => false end.

Fixpoint re_split_aux (skip prev : bool) (cur l : list ascii)
  : list string :=
  match l with
  | [] => [str (rev cur)]
  | c :: l' =>
      if skip && isspace_char c
      then re_split_aux true false cur l'
      else if prev && isspace_char c && starts_upper (lstrip_chars l)
      then str (rev cur) :: re_split_aux true false [] l'
      else re_split_aux false (is_stop_char c) (c :: cur) l'
  end.

Definition re_split_sentences (s : string) : list string :=
  re_split_aux false false [] (chars s).

(** [s.lower()] *)
Definition lower_char (c : ascii) : ascii :=
  if isupper_char c then ascii_of_N (code c + 32) else c.

Definition lower (s : string) : string := str (map lower_char (chars s)).

(** [os.path.basename(path)] on POSIX: what follows the last slash. *)
Definition basename (path : string) : string :=
  List.last (split_on "/"%char path) "".

(** [s.replace(old, new)]; [skip] counts the characters of a match still
    to be dropped. *)
Fixpoint prefix_chars (p l : list ascii) : bool :=
  match p, l with
  | [], _ => true
  | a :: p', b :: l' => Ascii.eqb a b && prefix_chars p' l'
  | _ :: _, [] => false
  end.

Fixpoint replace_aux (old new : list ascii) (skip : nat) (l : list ascii)
  : list ascii :=
  match l with
  | [] => []
  | c :: l' =>
      match skip with
      | S k => replace_aux old new k l'
      | O =>
          if prefix_chars old l
          then (new ++ replace_aux old new (List.length old - 1) l')%list
          else c :: replace_aux old new O l'
      end
  end.

(** For a non-empty [old], which is the only use in the source. *)
Definition replace (s old new : string) : string :=
  str (replace_aux (chars old) (chars new) O (chars s)).

(** [sorted(xs, key=..., reverse=...)] and [list.sort] are stable:
    [insert_by] puts an element before the first one that does not strictly
    precede it. *)
Fixpoint insert_by {A} (precedes : A -> A -> bool) (x : A) (l : list A)
  : list A :=
  match l with
  | [] => [x]
  | y :: l' =>
      if precedes y x then y :: insert_by precedes x l' else x :: l
  end.

Definition sort_by {A} (precedes : A -> A -> bool) (l : list A) : list A :=
  fold_right (insert_by precedes) [] l.

(** [str(n)] for a natural number. *)
Definition str_of_nat (n : nat) : string :=
  NilEmpty.string_of_uint (Nat.to_uint n).

End Py.

Example strip_ex : Py.strip "  a b  " = "a b".
Proof. reflexivity. Qed.
Example split_ex : Py.split " we  found that " = ["we"; "found"; "that"].
Proof. reflexivity. Qed.
Example split_on_ex : Py.split_on "/" "a//b" = ["a"; ""; "b"].
Proof. reflexivity. Qed.
Example rfind_ex : Py.rfind "a.b.c" "." = 3.
Proof. reflexivity. Qed.
Example rfind_none : Py.rfind "abc" "." = -1.
Proof. reflexivity. Qed.
Example slice_ex : Py.slice_to "abcdef" 4 = "abcd".
Proof. reflexivity. Qed.
Example slice_neg_ex : Py.slice_to "abcdef" (-2) = "abcd".
Proof. reflexivity. Qed.
Example re_split_ex :
  Py.re_split_sentences "One two.  Three four! five. Six"
  = ["One two."; "Three four! five."; "Six"].
Proof. reflexivity. Qed.
Example collapse_ex : Py.re_sub_whitespace " a   b " = " a b ".
Proof. reflexivity. Qed.
Example sort_stable_ex :
  Py.sort_by (fun y x => (snd x <? snd y)%nat)
             [("a", 1%nat); ("b", 2%nat); ("c", 1%nat); ("d", 2%nat)]
  = [("b", 2%nat); ("d", 2%nat); ("a", 1%nat); ("c", 1%nat)].
Proof. reflexivity. Qed.
Example str_of_nat_ex : Py.str_of_nat 12 = "12" /\ Py.str_of_nat 0 = "0".
Proof. split; reflexivity. Qed.
Example replace_ex :
  Py.replace "audio/synthesis_ab.mp3" ".mp3" "_part1.mp3"
  = "audio/synthesis_ab_part1.mp3".
Proof. reflexivity. Qed.
Example basename_ex :
  Py.basename "uploads/My Paper.PDF" = "My Paper.PDF"
  /\ Py.basename "plain.txt" = "plain.txt"
  /\ Py.lower "My Paper.PDF" = "my paper.pdf".
Proof. repeat split; reflexivity. Qed.
Example isupper_ex : Py.isupper "ABC 1." = true /\ Py.isupper "12" = false.
Proof. split; reflexivity. Qed.

(** ** Data model ([src/models/data_models.py]) *)

(** [ResearchPaper] *)
Record ResearchPaper := mkPaper {
  p_id : string;
  p_title : string;
  p_authors : list string;
  p_abstract : string;
  p_content : string;
  p_doi : string;
  p_url : string;
  p_topics : list string
}.

(** [paper.topics = classification] *)
Definition set_topics (p : ResearchPaper) (ts : list string) : ResearchPaper :=
  mkPaper (p_id p) (p_title p) (p_authors p) (p_abstract p) (p_content p)
          (p_doi p) (p_url p) ts.

(** The dict a summarizer returns: keys [summary], [paper_id], [length],
    [method], [key_insights], [topics], [title]. *)
Record Summary := mkSummary {
  sum_summary : string;
  sum_paper_id : string;
  sum_length : Z;
  sum_method : string;
  sum_key_insights : list string;
  sum_topics : list string;
  sum_title : string
}.

(** ** Summarizer ([src/agents/summarization_agent.py]) *)

Module SummarizationAgent.

(** [settings.max_chunk_length] *)
Definition max_chunk_length : Z := 1024.

(** The block written three times in the source (lines 166-178, 225-237 and
    484-496): [max_length = 150], cut at the last full stop or the last
    space of the first 150 characters when it is near the end. *)
Definition max_length : Z := 150.

Definition shorten_for_ui (summary : string) : string :=
  if Py.len summary >? max_length then
    let truncated := Py.slice_to summary max_length in
    let last_period := Py.rfind truncated "."%char in
    let last_space := Py.rfind truncated " "%char in
    if last_period >? max_length - 50
    then Py.slice_to truncated (last_period + 1)
    else if last_space >? max_length - 20
    then Py.slice_to truncated last_space ++ "..."
    else truncated ++ "..."
  else summary.

(** The lines of [paper.content] kept by [_prepare_text_for_summarization]:
    the loop stops once their join is longer than 1500. *)
Definition prepare_line_ok (line : string) : bool :=
  (Py.len line >? 50)
  && negb (Py.isupper line)
  && negb (Py.startswith_any line
             ["http"; "doi:"; "DOI:"; "References"; "Bibliography"])
  && negb (Py.re_match_numeric false line).

Fixpoint prepare_lines (lines : list string) (meaningful : list string)
  : list string :=
  match lines with
  | [] => meaningful
  | raw :: rest =>
      let line := Py.strip raw in
      let meaningful' :=
        if prepare_line_ok line then (meaningful ++ [line])%list
        else meaningful in
      if Py.len (Py.join " " meaningful') >? 1500
      then meaningful'
      else prepare_lines rest meaningful'
  end.

Definition _prepare_text_for_summarization (paper : ResearchPaper) : string :=
  let base_text :=
    if Py.truthy (p_abstract paper)
       && (Py.len (Py.strip (p_abstract paper)) >? 100)
    then Py.strip (p_abstract paper)
    else if Py.truthy (p_content paper) then
      let meaningful_lines :=
        prepare_lines (Py.split_on "010"%char (p_content paper)) [] in
      match meaningful_lines with
      | [] => Py.slice_to (p_content paper) 1000
      | _ => Py.join " " (firstn 5 meaningful_lines)
      end
    else "" in
  let text :=
    if Py.truthy (p_title paper)
    then p_title paper ++ ". " ++ base_text
    else base_text in
  Py.strip (Py.re_sub_special (Py.re_sub_whitespace text)).

(** [_chunk_text] *)
Fixpoint chunk_words (max_len : Z) (words : list string)
  (current_chunk : list string) (current_length : Z) : list string :=
  match words with
  | [] => match current_chunk with
          | [] => []
          | _ => [Py.join " " current_chunk]
          end
  | word :: rest =>
      if (current_length + Py.len word + 1 >? max_len)
         && negb (match current_chunk with [] => true | _ => false end)
      then Py.join " " current_chunk
           :: chunk_words max_len rest [word] (Py.len word)
      else chunk_words max_len rest (current_chunk ++ [word])%list
             (current_length + Py.len word + 1)
  end.

Definition _chunk_text (text : string) (max_len : Z) : list string :=
  chunk_words max_len (Py.split text) [] 0.

(** The two [insight_patterns] of [_extract_key_insights]. *)
Definition insight_patterns : list string :=
  [ "(?:we|the study|research|results?) (?:found|shows?|demonstrates?|reveals?|indicates?) (?:that )?([^.]+)";
    "(?:the|our) (?:findings|results|conclusion) (?:suggest|indicate|show) (?:that )?([^.]+)" ].

Section Agent.

(** [self.model_available] and [self.summarizer]: the transformers
    pipeline gives the [summary_text] of its first result, or nothing
    when it raises or returns an empty result. *)
Variable model_available : bool.
Variable summarizer : option (string -> option string).

(** NLTK's [sent_tokenize]; [None] when NLTK or its data is missing, in
    which case the source splits with a regular expression. *)
Variable sent_tokenize : string -> option (list string).

(** [re.findall(pattern, text, re.IGNORECASE)]: the captured groups. *)
Variable re_findall : string -> string -> list string.

(** The score [_score_sentences] gives to the sentence at an index, a
    finite binary64 value read as a rational. *)
Variable final_score : list string -> nat -> string -> Q.

Definition tokenize_keep (s : string) : bool :=
  (Py.len s >? 20)
  && negb (Py.isupper s)
  && negb (Py.re_match_numeric true s)
  && (Z.of_nat (length (Py.split s)) >? 3).

Definition _tokenize_sentences (text : string) : list string :=
  let sentences :=
    match sent_tokenize text with
    | Some l => l
    | None => Py.re_split_sentences text
    end in
  List.filter (fun s => tokenize_keep s) (map Py.strip sentences).

(** [_score_sentences]: triples (sentence, score, index). *)
Definition _score_sentences (sentences : list string)
  : list (string * Q * nat) :=
  imap (fun idx s => (s, final_score sentences idx s, idx)) sentences.

Definition _extract_key_insights (paper : ResearchPaper) (summary : string)
  : list string :=
  let text_to_analyze := summary ++ " " ++ p_abstract paper in
  let insights :=
    flat_map
      (fun pattern =>
         List.filter (fun insight =>
                   (20 <? Py.len insight) && (Py.len insight <? 200))
                (map Py.strip (re_findall pattern text_to_analyze)))
      insight_patterns in
  firstn 3 insights.

Definition score_desc (y x : string * Q * nat) : bool :=
  negb (Qle_bool (snd (fst y)) (snd (fst x))).

Definition index_asc (y x : string * Q * nat) : bool :=
  (snd y <? snd x)%nat.

Definition num_sentences (total_sentences : Z) : Z :=
  if total_sentences <=? 5 then Z.min 2 total_sentences
  else if total_sentences <=? 10 then 3
  else Z.max 3 (Z.min 5 (total_sentences / 4)).

(** The content lines kept by [_generate_fallback_summary] (the caller
    passes [lines[:10]]): the loop stops once the join is longer than
    200. *)
Definition fallback_line_ok (line : string) : bool :=
  (Py.len line >? 30)
  && negb (Py.isupper line)
  && negb (Py.startswith_any line ["http"; "doi:"; "DOI:"])
  && negb (Py.re_match_numeric true line).

Fixpoint fallback_lines (lines : list string) (meaningful : list string)
  : list string :=
  match lines with
  | [] => meaningful
  | raw :: rest =>
      let line := Py.strip raw in
      if fallback_line_ok line then
        let meaningful' := (meaningful ++ [line])%list in
        if Py.len (Py.join " " meaningful') >? 200
        then meaningful'
        else fallback_lines rest meaningful'
      else fallback_lines rest meaningful
  end.

Definition _generate_fallback_summary (paper : ResearchPaper) : Summary :=
  let part_title :=
    if Py.truthy (p_title paper)
    then "This research paper titled '" ++ p_title paper ++ "'"
    else "This research paper" in
  let part_topics :=
    match p_topics paper with
    | [] => []
    | _ => ["focuses on " ++ Py.join ", " (firstn 3 (p_topics paper))]
    end in
  let part_body :=
    if Py.truthy (p_abstract paper)
       && (Py.len (Py.strip (p_abstract paper)) >? 50)
    then
      let clean_abstract :=
        Py.re_sub_whitespace (Py.strip (p_abstract paper)) in
      let clean_abstract :=
        if Py.len clean_abstract >? 300
        then Py.slice_to clean_abstract 300 ++ "..."
        else clean_abstract in
      "Abstract: " ++ clean_abstract
    else if Py.truthy (p_content paper) then
      let lines := Py.split_on "010"%char (p_content paper) in
      match fallback_lines (firstn 10 lines) [] with
      | [] => "presents research findings and analysis"
      | meaningful_content =>
          let content_summary := Py.join " " meaningful_content in
          if Py.len content_summary >? 250
          then Py.slice_to content_summary 250 ++ "..."
          else content_summary
      end
    else "presents research findings and analysis" in
  let summary_parts := ([part_title] ++ part_topics ++ [part_body])%list in
  let summary := Py.join ". " summary_parts in
  let summary :=
    if Py.endswith summary "." then summary else summary ++ "." in
  let summary := shorten_for_ui summary in
  {| sum_summary := summary;
     sum_paper_id := p_id paper;
     sum_length := Py.len summary;
     sum_method := "fallback";
     sum_key_insights := [];
     sum_topics := p_topics paper;
     sum_title := p_title paper |}.

Definition _generate_extractive_summary (paper : ResearchPaper) : Summary :=
  let text_to_summarize := _prepare_text_for_summarization paper in
  if Py.len (Py.strip text_to_summarize) <? 100
  then _generate_fallback_summary paper
  else
    let sentences := _tokenize_sentences text_to_summarize in
    let total_sentences := Z.of_nat (length sentences) in
    if total_sentences =? 0 then _generate_fallback_summary paper
    else
      let summary :=
        if total_sentences <=? 2 then Py.join " " sentences
        else
          let scored_sentences := _score_sentences sentences in
          let top_sentences :=
            firstn (Z.to_nat (num_sentences total_sentences))
                   (Py.sort_by score_desc scored_sentences) in
          let top_sentences := Py.sort_by index_asc top_sentences in
          shorten_for_ui
            (Py.join " " (map (fun sent => fst (fst sent)) top_sentences))
      in
      {| sum_summary := summary;
         sum_paper_id := p_id paper;
         sum_length := Py.len summary;
         sum_method := "extractive";
         sum_key_insights := _extract_key_insights paper summary;
         sum_topics := p_topics paper;
         sum_title := p_title paper |}.

(** [_generate_abstractive_summary]; [run] is [self.summarizer]. *)
Definition _generate_abstractive_summary (run : string -> option string)
  (paper : ResearchPaper) : Summary :=
  let text_to_summarize := _prepare_text_for_summarization paper in
  let chunks := _chunk_text text_to_summarize max_chunk_length in
  let summaries :=
    flat_map (fun chunk => match run chunk with
                           | Some t => [t]
                           | None => []
                           end) chunks in
  let final_summary :=
    match summaries with
    | [] => Py.slice_to (p_abstract paper) 300
    | _ => Py.join " " summaries
    end in
  let final_summary := shorten_for_ui final_summary in
  {| sum_summary := final_summary;
     sum_paper_id := p_id paper;
     sum_length := Py.len final_summary;
     sum_method := "abstractive";
     sum_key_insights := _extract_key_insights paper final_summary;
     sum_topics := p_topics paper;
     sum_title := p_title paper |}.

(** [process]. Every call of the two branches that can raise is handled
    inside them, so the handler of [process] (which returns
    [_generate_fallback_summary paper]) has nothing to catch on
    well-typed papers. *)
Definition process (paper : ResearchPaper) : Summary :=
  match model_available, summarizer with
  | true, Some run => _generate_abstractive_summary run paper
  | _, _ => _generate_extractive_summary paper
  end.

End Agent.

End SummarizationAgent.

(** ** Synthesizer: topic analysis ([src/agents/synthesis_agent.py]) *)

Module SynthesisAgent.

(** A Python dict from strings to counts, in insertion order. *)
Definition Dict : Type := list (string * Z).

Fixpoint dict_get (k : string) (d : Dict) : option Z :=
  match d with
  | [] => None
  | (k', n) :: d' => if String.eqb k' k then Some n else dict_get k d'
  end.

(** [d[k] = d.get(k, 0) + 1] *)
Fixpoint dict_incr (k : string) (d : Dict) : Dict :=
  match d with
  | [] => [(k, 1)]
  | (k', n) :: d' =>
      if String.eqb k' k then (k', n + 1) :: d' else (k', n) :: dict_incr k d'
  end.

(** [Counter(items)] *)
Definition Counter (items : list string) : Dict :=
  fold_left (fun d k => dict_incr k d) items [].

(** [topic_counts.most_common(n)] *)
Definition most_common (n : nat) (d : Dict) : list (string * Z) :=
  firstn n (Py.sort_by (fun y x => snd x <? snd y) d).

(** The keys written for one classification, in the order of the two
    nested loops: [f"{topic1}_{topic2}"] for [topic2] in
    [classification[i+1:]]. *)
Fixpoint pair_keys (classification : list string) : list string :=
  match classification with
  | [] => []
  | topic1 :: rest =>
      (map (fun topic2 => (topic1 ++ "_" ++ topic2)%string) rest
       ++ pair_keys rest)%list
  end.

Record TopicAnalysis := mkTopicAnalysis {
  topic_distribution : Dict;
  total_unique_topics : Z;
  most_common_topics : list (string * Z);
  topic_cooccurrence : Dict
}.

(** [_analyze_topics]; [papers] is not read by the source. *)
Definition _analyze_topics (papers : list ResearchPaper)
  (classifications : list (list string)) : TopicAnalysis :=
  let all_topics := concat classifications in
  let topic_counts := Counter all_topics in
  let topic_cooccurrence :=
    fold_left
      (fun d classification =>
         if Z.of_nat (length classification) >? 1
         then fold_left (fun d' k => dict_incr k d') (pair_keys classification) d
         else d)
      classifications [] in
  {| topic_distribution := topic_counts;
     total_unique_topics := Z.of_nat (length topic_counts);
     most_common_topics := most_common 5 topic_counts;
     topic_cooccurrence := topic_cooccurrence |}.

End SynthesisAgent.

Example analyze_topics_ex :
  SynthesisAgent._analyze_topics []
    [["ML"; "NLP"; "CV"]; ["NLP"; "ML"]; ["ML"]]
  = SynthesisAgent.mkTopicAnalysis
      [("ML", 3); ("NLP", 2); ("CV", 1)] 3
      [("ML", 3); ("NLP", 2); ("CV", 1)]
      [("ML_NLP", 1); ("ML_CV", 1); ("NLP_CV", 1); ("NLP_ML", 1)].
Proof. reflexivity. Qed.

(** ** Outcomes of calls that can raise *)

(** [Raise e] carries [str(e)]. *)
Inductive result (A : Type) : Type :=
| Ok (a : A)
| Raise (e : string).
Arguments Ok {A} a.
Arguments Raise {A} e.

(** ** Extractor ([src/agents/extraction_agent.py]) *)

Module ExtractionAgent.

(** The dict [_extract_metadata_from_text] returns. *)
Record Metadata := mkMetadata {
  md_title : string;
  md_authors : list string;
  md_abstract : string;
  md_doi : string
}.

(** [_create_fallback_paper] *)
Definition _create_fallback_paper (uuid : string) (file_path : string)
  (topics : list string) : ResearchPaper :=
  {| p_id := uuid;
     p_title := "Document: " ++ Py.basename file_path;
     p_authors := ["Unknown Author"];
     p_abstract := "Content extraction failed or unsupported file format";
     p_content := "Content extraction failed";
     p_doi := "";
     p_url := "";
     p_topics := topics |}.

Section Agent.

(** [self.pdf_available]: PyMuPDF could be imported. *)
Variable pdf_available : bool.

(** Reading all pages of a PDF with PyMuPDF, and reading a UTF-8 text
    file: [None] when the call raises (missing, corrupt or unreadable
    file). *)
Variable read_pdf : string -> option string.
Variable read_text : string -> option string.

(** [_extract_metadata_from_text]: the title, author, abstract and DOI
    heuristics of lines 123-250. *)
Variable _extract_metadata_from_text : string -> Metadata.

(** [str(uuid.uuid4())] for the paper made from the file at an index. *)
Variable uuid4 : nat -> string.

Definition paper_of_text (uuid : string) (full_text : string)
  (topics : list string) : ResearchPaper :=
  let metadata := _extract_metadata_from_text full_text in
  {| p_id := uuid;
     p_title := md_title metadata;
     p_authors := md_authors metadata;
     p_abstract := md_abstract metadata;
     p_content := full_text;
     p_doi := md_doi metadata;
     p_url := "";
     p_topics := topics |}.

(** [_extract_from_pdf]: its handler turns every exception into [None]. *)
Definition _extract_from_pdf (uuid : string) (file_path : string)
  (topics : list string) : option ResearchPaper :=
  match read_pdf file_path with
  | Some full_text => Some (paper_of_text uuid full_text topics)
  | None => None
  end.

(** [_extract_from_text_file]: likewise. *)
Definition _extract_from_text_file (uuid : string) (file_path : string)
  (topics : list string) : option ResearchPaper :=
  match read_text file_path with
  | Some full_text => Some (paper_of_text uuid full_text topics)
  | None => None
  end.

(** One turn of the loop of [process]: what is appended to [papers]. The
    three calls of the guarded block do not raise, so the handler of the
    loop (which appends [_create_fallback_paper]) is not entered. *)
Definition process_file (idx : nat) (file_path : string)
  (topics : list string) : list ResearchPaper :=
  let paper :=
    if pdf_available && Py.endswith (Py.lower file_path) ".pdf"
    then _extract_from_pdf (uuid4 idx) file_path topics
    else if Py.endswith (Py.lower file_path) ".txt"
    then _extract_from_text_file (uuid4 idx) file_path topics
    else Some (_create_fallback_paper (uuid4 idx) file_path topics) in
  match paper with
  | Some paper => [paper]
  | None => []
  end.

(** [process], on [paper_input.get('file_paths', [])] and
    [paper_input.get('topics', [])]. *)
Definition process (file_paths : list string) (topics : list string)
  : list ResearchPaper :=
  concat (imap (fun idx file_path => process_file idx file_path topics)
               file_paths).

End Agent.

End ExtractionAgent.

(** ** Narrator ([src/agents/audio_agent.py]) *)

Module AudioAgent.

(** [self.tts_method] *)
Inductive TtsMethod := gtts | pyttsx3.

(** [words[i:i+chunk_size]] for [i] in [range(0, len(words), chunk_size)] *)
Fixpoint chunks_of (fuel : nat) (chunk_size : nat) (words : list string)
  : list (list string) :=
  match fuel, words with
  | _, [] => []
  | O, _ => [words]
  | S fuel', _ =>
      firstn chunk_size words :: chunks_of fuel' chunk_size (skipn chunk_size words)
  end.

Section Agent.

(** [self.tts_available]; [self.tts_method] is set only when it holds. *)
Variable tts_available : bool.
Variable tts_method : TtsMethod.

(** [gTTS(text=..., lang='en', slow=False).save(filename)] and the
    pyttsx3 rendering of a text to a file: [false] when the call
    raises. *)
Variable gtts_save : string -> string -> bool.
Variable pyttsx3_save : string -> string -> bool.

(** [open(filename, "w")] followed by [f.write(text)]: [Some e] when it
    raises, with [e] the text of the exception. *)
Variable write_file : string -> string -> option string.

(** [str(uuid.uuid4())], drawn once per file name. *)
Variable uuid4 : string.

(** [_generate_chunked_gtts_audio]: any failing chunk empties the
    result. *)
Fixpoint save_chunks (base_filename : string) (i : nat)
  (chunks : list string) : option (list string) :=
  match chunks with
  | [] => Some []
  | chunk :: rest =>
      let chunk_filename :=
        Py.replace base_filename ".mp3"
          ("_part" ++ Py.str_of_nat (i + 1) ++ ".mp3") in
      if gtts_save chunk chunk_filename
      then match save_chunks base_filename (i + 1) rest with
           | Some files => Some (chunk_filename :: files)
           | None => None
           end
      else None
  end.

Definition _generate_chunked_gtts_audio (text : string)
  (base_filename : string) : list string :=
  let words := Py.split text in
  let chunks :=
    map (Py.join " ") (chunks_of (length words) 100 words) in
  match save_chunks base_filename 0 chunks with
  | Some audio_files => audio_files
  | None => []
  end.

(** [_generate_gtts_audio]: its handler returns the empty list. *)
Definition _generate_gtts_audio (text : string) (filename : string)
  : list string :=
  if Py.len text >? 5000
  then _generate_chunked_gtts_audio text filename
  else if gtts_save text filename then [filename] else [].

(** [_generate_pyttsx3_audio]: likewise. *)
Definition _generate_pyttsx3_audio (text : string) (filename : string)
  : list string :=
  if pyttsx3_save text filename then [filename] else [].

(** [process], on [synthesis.get('synthesis', '')]. The calls of the
    guarded block do not raise, so its handler (which writes an error
    placeholder) is not entered; the placeholder of the first branch is
    written outside any handler. *)
Definition process (synthesis_text : string) : result (list string) :=
  if negb tts_available then
    let filename := "audio/synthesis_" ++ uuid4 ++ ".txt" in
    match write_file filename
            "Audio generation not available - TTS library not installed" with
    | Some e => Raise e
    | None => Ok [filename]
    end
  else
    if Py.truthy synthesis_text then
      let filename := "audio/synthesis_" ++ uuid4 ++ ".mp3" in
      match tts_method with
      | gtts => Ok (_generate_gtts_audio synthesis_text filename)
      | pyttsx3 => Ok (_generate_pyttsx3_audio synthesis_text filename)
      end
    else Ok [].

End Agent.

End AudioAgent.

Example chunks_of_ex :
  AudioAgent.chunks_of 5 2 ["a"; "b"; "c"; "d"; "e"]
  = [["a"; "b"]; ["c"; "d"]; ["e"]].
Proof. reflexivity. Qed.

(** ** Workflow registry ([WorkflowManager], [src/services/orchestrator.py]) *)

(** The value under ['topic_analysis'] of a synthesis dict: the key is
    missing, or holds [{}], or holds what [_analyze_topics] returns. *)
Inductive TopicAnalysisField :=
| TA_absent
| TA_empty
| TA_full (ta : SynthesisAgent.TopicAnalysis).

(** The dict a synthesizer returns, also written literally by the routes. *)
Record SynthesisDict := mkSynthesis {
  syn_synthesis : string;
  syn_topic_analysis : TopicAnalysisField;
  syn_paper_count : option Z;
  syn_methodology : option string
}.

(** The dict stored under ['results'] on success. A paper of ['papers'] is
    the dict [paper_dict], which has the fields of a paper. *)
Record Results := mkResults {
  res_workflow_id : option string;
  res_papers : list ResearchPaper;
  res_papers_processed : Z;
  res_summaries : list Summary;
  res_classifications : list (list string);
  res_synthesis : SynthesisDict;
  res_audio_files : list string;
  res_status : string
}.

(** ['results']: a success payload, or [error_result]. *)
Inductive ResultsDict :=
| ResultsOk (r : Results)
| ResultsError (workflow_id error status : string).

(** One record of [self.workflows]. Progress is a Python number; every value
    the code writes is integral. *)
Record Workflow := mkWorkflow {
  wf_id : string;
  wf_status : string;
  wf_progress : Z;
  wf_message : string;
  wf_created_at : string;
  wf_results : option ResultsDict
}.

(** The keyword arguments of [update_workflow]. *)
Record Kwargs := mkKwargs {
  kw_status : option string;
  kw_progress : option Z;
  kw_message : option string;
  kw_results : option ResultsDict
}.

(** [record.update(kwargs)] *)
Definition dict_update (w : Workflow) (kw : Kwargs) : Workflow :=
  {| wf_id := wf_id w;
     wf_status := default (wf_status w) (kw_status kw);
     wf_progress := default (wf_progress w) (kw_progress kw);
     wf_message := default (wf_message w) (kw_message kw);
     wf_created_at := wf_created_at w;
     wf_results := match kw_results kw with
                   | Some r => Some r
                   | None => wf_results w
                   end |}.

Module WorkflowManager.

(** [create_workflow]; [now] is [datetime.now().isoformat()]. The database
    mirror is best effort and kept out of the model. *)
Definition create_workflow (now : string) (workflow_id : string)
  (status : string) (workflows : gmap string Workflow)
  : gmap string Workflow :=
  <[workflow_id := {| wf_id := workflow_id;
                      wf_status := status;
                      wf_progress := 0;
                      wf_message := "Workflow created";
                      wf_created_at := now;
                      wf_results := None |}]> workflows.

(** [update_workflow]: merges into an existing record, whatever its
    status; an unknown id changes nothing. *)
Definition update_workflow (workflow_id : string) (kwargs : Kwargs)
  (workflows : gmap string Workflow) : gmap string Workflow :=
  match workflows !! workflow_id with
  | Some w => <[workflow_id := dict_update w kwargs]> workflows
  | None => workflows
  end.


End WorkflowManager.


(** ** Pipeline coordinator ([src/api/routes.py], [AgentOrchestrator]) *)

(** The request dict: the keys the two flows read. *)
Record Request := mkRequest {
  req_search_query : option string;
  req_query : option string;
  req_file_paths : list string;
  req_topics : list string
}.

(** [synthesis_input] *)
Record SynthesisInput := mkSynthesisInput {
  si_papers : list ResearchPaper;
  si_classifications : list (list string);
  si_summaries : list Summary
}.

(** [orchestrator.agents]: one [process] per role. *)
Record Agents := mkAgents {
  discovery : Request -> result (list ResearchPaper);
  extraction : Request -> result (list ResearchPaper);
  classification : ResearchPaper -> result (list string);
  summarization : ResearchPaper -> result Summary;
  synthesis : SynthesisInput -> result SynthesisDict;
  audio : SynthesisDict -> result (list string)
}.

(** What a run does, in order: agent calls with their argument, and registry
    calls. *)
Inductive Event :=
| EvDiscovery (request : Request)
| EvExtraction (request : Request)
| EvClassification (paper : ResearchPaper)
| EvSummarization (paper : ResearchPaper)
| EvSynthesis (input : SynthesisInput)
| EvAudio (synthesis : SynthesisDict)
| EvCreate (workflow_id status : string)
| EvUpdate (workflow_id : string) (kwargs : Kwargs).

(** Coordinator code. A background job writes to the registry and never
    reads it, so a run is the sequence of its calls together with its
    outcome; the registry follows by [apply_events]. *)
Definition M (A : Type) : Type := list Event * result A.

Definition ret {A} (a : A) : M A := ([], Ok a).

Definition bind {A B} (c : M A) (k : A -> M B) : M B :=
  match c with
  | (evs, Ok a) => let (evs', r) := k a in ((evs ++ evs')%list, r)
  | (evs, Raise e) => (evs, Raise e)
  end.

(** [try: body except Exception as e: handler(str(e))] *)
Definition try_except {A} (body : M A) (handler : string -> M A) : M A :=
  match body with
  | (evs, Ok a) => (evs, Ok a)
  | (evs, Raise e) => let (evs', r) := handler e in ((evs ++ evs')%list, r)
  end.

Declare Scope coord_scope.
Delimit Scope coord_scope with coord.
Notation "x <- c ;; k" := (bind c (fun x => k))
  (at level 100, c at next level, right associativity) : coord_scope.
Notation "c ;;; k" := (bind c (fun _ => k))
  (at level 100, right associativity) : coord_scope.

(** An awaited agent call: logged, then its outcome. *)
Definition call {A} (ev : Event) (outcome : result A) : M A := ([ev], outcome).

Definition create_workflow (workflow_id status : string) : M unit :=
  ([EvCreate workflow_id status], Ok tt).

Definition update_workflow (workflow_id : string) (kwargs : Kwargs) : M unit :=
  ([EvUpdate workflow_id kwargs], Ok tt).

(** The registry after one call, and after a sequence of calls; [now] is
    [datetime.now().isoformat()] at creation. *)
Definition apply_event (now : string) (ev : Event)
  (workflows : gmap string Workflow) : gmap string Workflow :=
  match ev with
  | EvCreate workflow_id status =>
      WorkflowManager.create_workflow now workflow_id status workflows
  | EvUpdate workflow_id kwargs =>
      WorkflowManager.update_workflow workflow_id kwargs workflows
  | _ => workflows
  end.

Definition apply_events (now : string) (evs : list Event)
  (workflows : gmap string Workflow) : gmap string Workflow :=
  fold_left (fun ws ev => apply_event now ev ws) evs workflows.

(** [truncate_by_words] *)
Definition truncate_by_words (text : string) (max_words : nat) : string :=
  if negb (Py.truthy text) then ""
  else
    let words := Py.split text in
    if (max_words <? length words)%nat
    then Py.join " " (firstn max_words words) ++ "..."
    else text.

(** [paper_dict] *)
Definition paper_dict (paper : ResearchPaper) : ResearchPaper :=
  {| p_id := p_id paper;
     p_title := p_title paper;
     p_authors := p_authors paper;
     p_abstract := truncate_by_words (p_abstract paper) 100;
     p_content := if Py.len (p_content paper) >? 150
                  then Py.slice_to (p_content paper) 100 ++ "..."
                  else p_content paper;
     p_doi := p_doi paper;
     p_url := p_url paper;
     p_topics := p_topics paper |}.

(** [audio/file.mp3] becomes [/audio/file.mp3];
    [audio_file.split('/', 1)[1]] is what follows ["audio/"]. *)
Definition audio_url (audio_file : string) : string :=
  if Py.startswith audio_file "audio/"
  then "/audio/" ++ String.substring 6 (String.length audio_file - 6) audio_file
  else audio_file.

(** [int(x)] for a binary64 value: truncation toward zero. *)
Definition int_of_float (x : float) : Z :=
  match Prim2SF x with
  | S754_finite s m e =>
      let v := if 0 <=? e then Z.pos m * 2 ^ e else Z.pos m / 2 ^ (- e) in
      if s then - v else v
  | _ => 0
  end.

(** [float(n)], exact below 2^53. *)
Definition float_of_nat (n : nat) : float :=
  PrimFloat.of_uint63 (Uint63.of_Z (Z.of_nat n)).

(** [int((i / total_papers) * 35)] *)
Definition scale35 (i total_papers : nat) : Z :=
  int_of_float
    (PrimFloat.mul (PrimFloat.div (float_of_nat i) (float_of_nat total_papers))
                   (float_of_nat 35)).

Definition kw_progress_message (progress : Z) (message : string) : Kwargs :=
  {| kw_status := None; kw_progress := Some progress;
     kw_message := Some message; kw_results := None |}.

(** What differs between [_process_search_background] and
    [_process_upload_background]: the first agent, the progress values and
    the messages. *)
Record Flow := mkFlow {
  fl_normalize : Request -> Request;
  fl_first_stage : Agents -> Request -> M (list ResearchPaper);
  fl_start : Z * string;
  fl_found_progress : Z;
  fl_found_message : nat -> string;
  fl_empty_message : string;
  fl_empty_synthesis : string;
  fl_analysis_start : Z * string;
  fl_loop_base : Z;
  fl_loop_noun : string;
  fl_synthesis_start : Z * string;
  fl_synthesis_done : Z;
  fl_audio_start : Z;
  fl_done_message : string;
  fl_failed_prefix : string
}.

Section Coordinator.

Variable agents : Agents.

(** The loop over [enumerate(papers)] of the two background jobs: progress,
    Classifier, Summarizer, and only then [paper.topics = classification].
    It returns the papers as the loop leaves them, the classifications and
    the summaries. The papers of a batch are distinct objects, so the
    assignment to one is not seen through another. *)
Fixpoint analysis_loop (flow : Flow) (workflow_id : string)
  (total_papers : nat) (i : nat) (papers : list ResearchPaper)
  : M (list ResearchPaper * list (list string) * list Summary) :=
  match papers with
  | [] => ret ([], [], [])
  | paper :: rest =>
      (update_workflow workflow_id
         (kw_progress_message
            (fl_loop_base flow + scale35 i total_papers)
            ("Analyzing " ++ fl_loop_noun flow ++ " "
               ++ Py.str_of_nat (i + 1) ++ "/" ++ Py.str_of_nat total_papers
               ++ ": " ++ Py.slice_to (p_title paper) 50 ++ "...")) ;;;
       classification <- call (EvClassification paper)
                              (classification agents paper) ;;
       summary <- call (EvSummarization paper) (summarization agents paper) ;;
       r <- analysis_loop flow workflow_id total_papers (S i) rest ;;
       ret (set_topics paper classification :: fst (fst r),
            classification :: snd (fst r),
            summary :: snd r))%coord
  end.

(** The guarded block of a background job. *)
Definition background_body (flow : Flow) (workflow_id : string)
  (request : Request) : M unit :=
  (let request := fl_normalize flow request in
   create_workflow workflow_id "processing" ;;;
   update_workflow workflow_id
     (kw_progress_message (fst (fl_start flow)) (snd (fl_start flow))) ;;;
   papers <- fl_first_stage flow agents request ;;
   update_workflow workflow_id
     (kw_progress_message (fl_found_progress flow)
        (fl_found_message flow (length papers))) ;;;
   match papers with
   | [] =>
       update_workflow workflow_id
         {| kw_status := Some "completed";
            kw_progress := Some 100;
            kw_message := Some (fl_empty_message flow);
            kw_results :=
              Some (ResultsOk
                      {| res_workflow_id := None;
                         res_papers := [];
                         res_papers_processed := 0;
                         res_summaries := [];
                         res_classifications := [];
                         res_synthesis :=
                           {| syn_synthesis := fl_empty_synthesis flow;
                              syn_topic_analysis := TA_absent;
                              syn_paper_count := Some 0;
                              syn_methodology := None |};
                         res_audio_files := [];
                         res_status := "completed" |}) |}
   | _ =>
       update_workflow workflow_id
         (kw_progress_message (fst (fl_analysis_start flow))
                              (snd (fl_analysis_start flow))) ;;;
       r <- analysis_loop flow workflow_id (length papers) 0 papers ;;
       let papers := fst (fst r) in
       let classifications := snd (fst r) in
       let summaries := snd r in
       update_workflow workflow_id
         (kw_progress_message (fst (fl_synthesis_start flow))
                              (snd (fl_synthesis_start flow))) ;;;
       let synthesis_input :=
         {| si_papers := papers;
            si_classifications := classifications;
            si_summaries := summaries |} in
       synthesis <- call (EvSynthesis synthesis_input)
                         (synthesis agents synthesis_input) ;;
       update_workflow workflow_id
         (kw_progress_message (fl_synthesis_done flow) "Synthesis completed") ;;;
       update_workflow workflow_id
         (kw_progress_message (fl_audio_start flow)
                              "Generating audio summary...") ;;;
       audio_files <- call (EvAudio synthesis) (audio agents synthesis) ;;
       update_workflow workflow_id
         (kw_progress_message 95 "Audio generation completed") ;;;
       update_workflow workflow_id
         (kw_progress_message 98 "Finalizing results...") ;;;
       let audio_urls := map audio_url audio_files in
       let papers_data := map paper_dict papers in
       update_workflow workflow_id
         {| kw_status := Some "completed";
            kw_progress := Some 100;
            kw_message := Some (fl_done_message flow);
            kw_results :=
              Some (ResultsOk
                      {| res_workflow_id := Some workflow_id;
                         res_papers := papers_data;
                         res_papers_processed := Z.of_nat (length papers);
                         res_summaries := summaries;
                         res_classifications := classifications;
                         res_synthesis := synthesis;
                         res_audio_files := audio_urls;
                         res_status := "completed" |}) |}
   end)%coord.

(** The handler of a background job: [except Exception as e]. *)
Definition background_handler (flow : Flow) (workflow_id : string)
  (e : string) : M unit :=
  update_workflow workflow_id
    {| kw_status := Some "failed";
       kw_progress := Some 0;
       kw_message := Some (fl_failed_prefix flow ++ e);
       kw_results := Some (ResultsError workflow_id e "failed") |}.

Definition background_job (flow : Flow) (workflow_id : string)
  (request : Request) : M unit :=
  try_except (background_body flow workflow_id request)
             (background_handler flow workflow_id).

End Coordinator.

(** [if 'query' in request and 'search_query' not in request:
    request['search_query'] = request['query']] *)
Definition normalize_search (request : Request) : Request :=
  match req_query request, req_search_query request with
  | Some q, None =>
      {| req_search_query := Some q; req_query := req_query request;
         req_file_paths := req_file_paths request;
         req_topics := req_topics request |}
  | _, _ => request
  end.

(** The constants of [_process_search_background]. *)
Definition search_flow : Flow :=
  {| fl_normalize := normalize_search;
     fl_first_stage :=
       fun agents request => call (EvDiscovery request) (discovery agents request);
     fl_start := (20, "Searching ArXiv database...");
     fl_found_progress := 30;
     fl_found_message := fun n => "Found " ++ Py.str_of_nat n ++ " papers";
     fl_empty_message := "No papers found";
     fl_empty_synthesis := "No papers found for the search query";
     fl_analysis_start := (35, "Starting paper analysis...");
     fl_loop_base := 35;
     fl_loop_noun := "paper";
     fl_synthesis_start := (75, "Synthesizing findings across papers...");
     fl_synthesis_done := 85;
     fl_audio_start := 90;
     fl_done_message := "Processing completed successfully!";
     fl_failed_prefix := "Processing failed: " |}.

(** The constants of [_process_upload_background]. *)
Definition upload_flow : Flow :=
  {| fl_normalize := fun request => request;
     fl_first_stage :=
       fun agents request => call (EvExtraction request) (extraction agents request);
     fl_start := (10, "Processing uploaded files...");
     fl_found_progress := 25;
     fl_found_message :=
       fun n => "Extracted content from " ++ Py.str_of_nat n ++ " files";
     fl_empty_message := "No content could be extracted from uploaded files";
     fl_empty_synthesis := "No content could be extracted from uploaded files";
     fl_analysis_start := (30, "Starting document analysis...");
     fl_loop_base := 30;
     fl_loop_noun := "document";
     fl_synthesis_start := (70, "Synthesizing findings across documents...");
     fl_synthesis_done := 80;
     fl_audio_start := 85;
     fl_done_message := "Upload processing completed successfully!";
     fl_failed_prefix := "Upload processing failed: " |}.

Definition _process_search_background (agents : Agents)
  (workflow_id : string) (request : Request) : M unit :=
  background_job agents search_flow workflow_id request.

Definition _process_upload_background (agents : Agents)
  (workflow_id : string) (request : Request) : M unit :=
  background_job agents upload_flow workflow_id request.

(** *** [AgentOrchestrator._process_search_request_direct] *)

Section Direct.

Variable agents : Agents.

(** Its loop: Classifier, [paper.topics = classification], and only then
    the Summarizer. *)
Fixpoint direct_loop (papers : list ResearchPaper)
  : M (list ResearchPaper * list (list string) * list Summary) :=
  match papers with
  | [] => ret ([], [], [])
  | paper :: rest =>
      (classification <- call (EvClassification paper)
                              (classification agents paper) ;;
       let paper := set_topics paper classification in
       summary <- call (EvSummarization paper) (summarization agents paper) ;;
       r <- direct_loop rest ;;
       ret (paper :: fst (fst r), classification :: snd (fst r),
            summary :: snd r))%coord
  end.

Definition _process_search_request_direct (request : Request) : M Results :=
  (papers <- call (EvDiscovery request) (discovery agents request) ;;
   match papers with
   | [] =>
       ret {| res_workflow_id := None;
              res_papers := [];
              res_papers_processed := 0;
              res_summaries := [];
              res_classifications := [];
              res_synthesis :=
                {| syn_synthesis := "No papers found for the search query";
                   syn_topic_analysis := TA_absent;
                   syn_paper_count := Some 0;
                   syn_methodology := None |};
              res_audio_files := [];
              res_status := "completed" |}
   | _ =>
       r <- direct_loop papers ;;
       let papers := fst (fst r) in
       let synthesis_input :=
         {| si_papers := papers;
            si_classifications := snd (fst r);
            si_summaries := snd r |} in
       synthesis <- call (EvSynthesis synthesis_input)
                         (synthesis agents synthesis_input) ;;
       audio_files <- call (EvAudio synthesis) (audio agents synthesis) ;;
       ret {| res_workflow_id := None;
              res_papers := map paper_dict papers;
              res_papers_processed := Z.of_nat (length papers);
              res_summaries := snd r;
              res_classifications := snd (fst r);
              res_synthesis := synthesis;
              res_audio_files := map audio_url audio_files;
              res_status := "completed" |}
   end)%coord.

End Direct.

(** *** Submission and status read ([src/api/routes.py]) *)

(** A task handed to [background_tasks.add_task]. *)
Inductive Task :=
| SearchTask (workflow_id : string) (request : Request)
| UploadTask (workflow_id : string) (request : Request).

(** The process: the registry, and the background tasks that were added and
    have not started. *)
Record App := mkApp {
  app_workflows : gmap string Workflow;
  app_tasks : list Task
}.

Inductive SubmitResponse :=
| Accepted (workflow_id status message : string)
| SubmitHttpError (status_code : Z).


(** [request.get('search_query') or request.get('query')], when it is a
    non-empty string. *)
Definition submitted_query (request : Request) : option string :=
  match req_search_query request with
  | Some q => if Py.truthy q then Some q
              else match req_query request with
                   | Some q' => if Py.truthy q' then Some q' else None
                   | None => None
                   end
  | None => match req_query request with
            | Some q' => if Py.truthy q' then Some q' else None
            | None => None
            end
  end.

(** [process_search_request]; [uuid] is [str(uuid.uuid4())]. The 400 raised
    for a missing query is caught by the handler of the function, which
    raises a 500. *)
Definition process_search_request (uuid : string) (request : Request)
  (app : App) : SubmitResponse * App :=
  match submitted_query request with
  | None => (SubmitHttpError 500, app)
  | Some _ =>
      (Accepted uuid "processing" "Search request submitted for processing",
       {| app_workflows := app_workflows app;
          app_tasks := (app_tasks app ++ [SearchTask uuid request])%list |})
  end.


(** The event loop starts the oldest background task. A status read served
    while the task is suspended sees the registry after the calls made so
    far, a prefix [done] of the calls of the run. *)
Definition run_task (agents : Agents) (task : Task) : M unit :=
  match task with
  | SearchTask workflow_id request =>
      _process_search_background agents workflow_id request
  | UploadTask workflow_id request =>
      _process_upload_background agents workflow_id request
  end.


(** * Properties *)

(** ** Summarizer *)

(** Reads the fields of a summary record without unfolding the string
    functions inside. *)
Ltac summary_fields :=
  cbv zeta;
  cbn [sum_summary sum_paper_id sum_length sum_method sum_key_insights
       sum_topics sum_title].

Section SummaryShape.

Variable model_available : bool.
Variable summarizer : option (string -> option string).
Variable sent_tokenize : string -> option (list string).
Variable re_findall : string -> string -> list string.
Variable final_score : list string -> nat -> string -> Q.

(** The three fields of a returned dict that are derived from the paper and
    from the summary text. *)
Definition summary_consistent (paper : ResearchPaper) (s : Summary) : Prop :=
  sum_length s = Py.len (sum_summary s)
  /\ sum_paper_id s = p_id paper
  /\ (length (sum_key_insights s) <= 3)%nat.

Lemma key_insights_at_most_3 paper summary :
  (length (SummarizationAgent._extract_key_insights re_findall paper summary)
   <= 3)%nat.
Proof.
  unfold SummarizationAgent._extract_key_insights.
  rewrite length_firstn. lia.
Qed.

Lemma fallback_consistent paper :
  summary_consistent paper (SummarizationAgent._generate_fallback_summary paper).
Proof.
  unfold summary_consistent, SummarizationAgent._generate_fallback_summary.
  summary_fields. repeat split. cbn [length]. lia.
Qed.

Lemma extractive_consistent paper :
  summary_consistent paper
    (SummarizationAgent._generate_extractive_summary
       sent_tokenize re_findall final_score paper).
Proof.
  unfold SummarizationAgent._generate_extractive_summary. cbv zeta.
  destruct (_ <? 100); [apply fallback_consistent|].
  destruct (_ =? 0); [apply fallback_consistent|].
  unfold summary_consistent. summary_fields.
  repeat split. apply key_insights_at_most_3.
Qed.

Lemma abstractive_consistent run paper :
  summary_consistent paper
    (SummarizationAgent._generate_abstractive_summary re_findall run paper).
Proof.
  unfold summary_consistent, SummarizationAgent._generate_abstractive_summary.
  summary_fields. repeat split. apply key_insights_at_most_3.
Qed.

Lemma extractive_method paper :
  let s := SummarizationAgent._generate_extractive_summary
             sent_tokenize re_findall final_score paper in
  sum_method s = "extractive" \/ sum_method s = "fallback".
Proof.
  unfold SummarizationAgent._generate_extractive_summary,
    SummarizationAgent._generate_fallback_summary. cbv zeta.
  destruct (_ <? 100); [right; reflexivity|].
  destruct (_ =? 0); [right | left]; reflexivity.
Qed.

(** The topics of a returned dict are those of the paper as it was
    passed. *)
Lemma process_echoes_topics paper :
  sum_topics (SummarizationAgent.process model_available summarizer
                sent_tokenize re_findall final_score paper)
  = p_topics paper.
Proof.
  unfold SummarizationAgent.process,
    SummarizationAgent._generate_extractive_summary,
    SummarizationAgent._generate_abstractive_summary,
    SummarizationAgent._generate_fallback_summary.
  destruct model_available, summarizer; cbv zeta;
    try (destruct (_ <? 100); [reflexivity|]; destruct (_ =? 0));
    reflexivity.
Qed.

(** C10. Whatever branch produces it (abstractive, extractive, fallback),
    the dict returned by [process] has its ['length'] equal to the length
    of its ['summary'], its ['paper_id'] equal to the id of the paper, and
    at most three ['key_insights']. *)
Theorem process_summary_consistent (paper : ResearchPaper) :
  let s := SummarizationAgent.process model_available summarizer
             sent_tokenize re_findall final_score paper in
  (sum_method s = "abstractive" \/ sum_method s = "extractive"
   \/ sum_method s = "fallback")
  /\ sum_length s = Py.len (sum_summary s)
  /\ sum_paper_id s = p_id paper
  /\ (length (sum_key_insights s) <= 3)%nat.
Proof.
  unfold SummarizationAgent.process.
  destruct model_available, summarizer as [run|]; cbv zeta.
  1: split; [left; reflexivity | apply abstractive_consistent].
  all: split; [right; apply extractive_method | apply extractive_consistent].
Qed.

End SummaryShape.

(** *** Lengths after shortening *)

Lemma substring_prefix_length (n : nat) : forall s,
  String.length (String.substring 0 n s) = Nat.min n (String.length s).
Proof.
  induction n as [|n IH]; intros s.
  - destruct s; reflexivity.
  - destruct s as [|c s]; [reflexivity|]. cbn. rewrite IH. reflexivity.
Qed.

Lemma slice_to_len (s : string) (n : Z) :
  0 <= n -> Py.len (Py.slice_to s n) = Z.min n (Py.len s).
Proof.
  intros Hn. unfold Py.slice_to, Py.len.
  destruct (Z.ltb_spec n 0); [lia|].
  rewrite substring_prefix_length. lia.
Qed.

Lemma rfind_aux_bound c (l : list ascii) : forall i last,
  last < i + Z.of_nat (length l) ->
  Py.rfind_aux c l i last < i + Z.of_nat (length l).
Proof.
  induction l as [|x l IH]; intros i last H; cbn [Py.rfind_aux length].
  - exact H.
  - rewrite Nat2Z.inj_succ.
    replace (i + Z.succ (Z.of_nat (length l))) with ((i + 1) + Z.of_nat (length l)) by lia.
    apply IH. destruct (Ascii.eqb x c); cbn [length] in H; lia.
Qed.

Lemma chars_length s : length (Py.chars s) = String.length s.
Proof. unfold Py.chars. induction s; cbn; congruence. Qed.

Lemma rfind_bound s c : Py.rfind s c < Py.len s.
Proof.
  unfold Py.rfind, Py.len. rewrite <- chars_length.
  pose proof (rfind_aux_bound c (Py.chars s) 0 (-1)) as H. 
  destruct (Py.chars s) eqn:E.
  - cbn. lia.
  - apply H. cbn [length]. lia.
Qed.

Lemma append_len a b : Py.len (a ++ b) = Py.len a + Py.len b.
Proof.
  unfold Py.len. rewrite <- Nat2Z.inj_add. f_equal.
  induction a as [|c a IH]; simpl; [reflexivity | f_equal; exact IH].
Qed.

Lemma shorten_for_ui_bound s :
  Py.len (SummarizationAgent.shorten_for_ui s) <= 153.
Proof.
  unfold SummarizationAgent.shorten_for_ui, SummarizationAgent.max_length.
  destruct (Z.gtb_spec (Py.len s) 150) as [Hlong|Hshort]; [|lia].
  set (truncated := Py.slice_to s 150).
  assert (Ht : Py.len truncated = 150).
  { unfold truncated. rewrite slice_to_len by lia. lia. }
  pose proof (rfind_bound truncated "."%char) as Hp.
  pose proof (rfind_bound truncated " "%char) as Hs.
  destruct (Z.gtb_spec (Py.rfind truncated ".") (150 - 50)).
  - rewrite slice_to_len by lia. lia.
  - destruct (Z.gtb_spec (Py.rfind truncated " ") (150 - 20)).
    + rewrite append_len, slice_to_len by lia.
      change (Py.len "...") with 3. lia.
    + rewrite append_len. change (Py.len "...") with 3. lia.
Qed.

(** The shortening block keeps at most 153 characters: 150, and the dots it
    appends. The branch of [_generate_extractive_summary] for one or two
    sentences does not pass through it. *)
Lemma fallback_length_bound paper :
  Py.len (sum_summary (SummarizationAgent._generate_fallback_summary paper))
  <= 153.
Proof.
  unfold SummarizationAgent._generate_fallback_summary. summary_fields.
  apply shorten_for_ui_bound.
Qed.

Lemma abstractive_length_bound re_findall run paper :
  Py.len (sum_summary (SummarizationAgent._generate_abstractive_summary
                         re_findall run paper))
  <= 153.
Proof.
  unfold SummarizationAgent._generate_abstractive_summary. summary_fields.
  apply shorten_for_ui_bound.
Qed.

(** A paper whose abstract is one long sentence: the prepared text splits
    into the title (dropped, too short) and that sentence. *)
Definition one_sentence_paper : ResearchPaper :=
  {| p_id := "p-1";
     p_title := "Graph Nets";
     p_authors := ["A. Author"];
     p_abstract := "We study message passing on sparse graphs and show that depth limited aggregation preserves the spectral structure of the input while reducing memory traffic by a constant factor on commodity accelerators.";
     p_content := "";
     p_doi := "";
     p_url := "";
     p_topics := [] |}.

(** A paper with nothing but a title of 200 letters and no space. *)
Definition long_title_paper : ResearchPaper :=
  {| p_id := "p-2";
     p_title := "aaaaaaaaaaaaaaaaaaaaaaaaaaaaaaaaaaaaaaaaaaaaaaaaaaaaaaaaaaaaaaaaaaaaaaaaaaaaaaaaaaaaaaaaaaaaaaaaaaaaaaaaaaaaaaaaaaaaaaaaaaaaaaaaaaaaaaaaaaaaaaaaaaaaaaaaaaaaaaaaaaaaaaaaaaaaaaaaaaaaaaaaaaaaaaaaaaaaaaaaaaaa";
     p_authors := [];
     p_abstract := "";
     p_content := "";
     p_doi := "";
     p_url := "";
     p_topics := [] |}.

Example one_sentence_tokens :
  SummarizationAgent._tokenize_sentences (fun _ => None)
    (SummarizationAgent._prepare_text_for_summarization one_sentence_paper)
  = [p_abstract one_sentence_paper].
Proof. vm_compute. reflexivity. Qed.

(** C2, evaluated. Without NLTK (sentences are split by the regular
    expression), [process] returns for [one_sentence_paper] an extractive
    summary of 205 characters: the branch for one or two sentences joins them
    and does not shorten. For [long_title_paper] it returns a fallback
    summary of 153 characters: the 150 kept characters and the dots. Both
    exceed [max_length = 150]. *)
Theorem process_summary_exceeds_cap
  (summarizer : option (string -> option string))
  (re_findall : string -> string -> list string)
  (final_score : list string -> nat -> string -> Q) :
  let process :=
    SummarizationAgent.process false summarizer (fun _ => None) re_findall
      final_score in
  (sum_method (process one_sentence_paper) = "extractive"
   /\ Py.len (sum_summary (process one_sentence_paper)) = 205)
  /\ (sum_method (process long_title_paper) = "fallback"
      /\ Py.len (sum_summary (process long_title_paper)) = 153)
  /\ SummarizationAgent.max_length = 150.
Proof. vm_compute. repeat split. Qed.

(** ** Topic analysis *)

Section TopicAnalysisFacts.

Import SynthesisAgent.

Definition count_of (k : string) (d : Dict) : Z := default 0 (dict_get k d).

Definition keys (d : Dict) : list string := map fst d.

(** How often a key is written by a sequence of increments. *)
Definition occurrences (k : string) (ks : list string) : nat :=
  length (List.filter (fun k' => String.eqb k' k) ks).

Lemma dict_get_incr_same k d :
  dict_get k (dict_incr k d) = Some (count_of k d + 1).
Proof.
  unfold count_of. induction d as [|[k' n] d IH]; cbn.
  - rewrite String.eqb_refl. reflexivity.
  - destruct (String.eqb k' k) eqn:E; cbn; rewrite E; [reflexivity | exact IH].
Qed.

Lemma dict_get_incr_other k k' d :
  k <> k' -> dict_get k' (dict_incr k d) = dict_get k' d.
Proof.
  intros Hne. induction d as [|[k0 n] d IH]; cbn.
  - destruct (String.eqb_spec k k'); [contradiction | reflexivity].
  - destruct (String.eqb_spec k0 k) as [->|Hk]; cbn.
    + destruct (String.eqb_spec k k'); [contradiction | reflexivity].
    + destruct (String.eqb k0 k'); [reflexivity | exact IH].
Qed.

Lemma dict_get_incr_all (ks : list string) : forall k d,
  dict_get k (fold_left (fun d' k' => dict_incr k' d') ks d)
  = if (occurrences k ks =? 0)%nat then dict_get k d
    else Some (count_of k d + Z.of_nat (occurrences k ks)).
Proof.
  unfold occurrences.
  induction ks as [|k0 ks IH]; intros k d; cbn [fold_left List.filter].
  - cbn. reflexivity.
  - rewrite IH. unfold count_of.
    destruct (String.eqb_spec k0 k) as [->|Hne]; cbn [length].
    + rewrite dict_get_incr_same. unfold count_of.
      change (S ?n =? 0)%nat with false. cbv iota.
      destruct (length _ =? 0)%nat eqn:E.
      * apply Nat.eqb_eq in E. rewrite E. reflexivity.
      * rewrite Nat2Z.inj_succ. cbn [from_option]. unfold id.
        f_equal. lia.
    + rewrite dict_get_incr_other by assumption. reflexivity.
Qed.

Lemma keys_incr k d :
  keys (dict_incr k d)
  = if decide (k ∈ keys d) then keys d else (keys d ++ [k])%list.
Proof.
  unfold keys. induction d as [|[k' n] d IH]; cbn.
  - destruct (decide (k ∈ [])) as [H|_]; [inversion H | reflexivity].
  - destruct (String.eqb_spec k' k) as [->|Hne]; cbn.
    + destruct (decide (k ∈ k :: map fst d)) as [_|H]; [reflexivity|].
      exfalso. apply H. constructor.
    + rewrite IH.
      destruct (decide (k ∈ map fst d)) as [Hin|Hnin];
        destruct (decide (k ∈ k' :: map fst d)) as [Hin'|Hnin'];
        try reflexivity.
      * exfalso. apply Hnin'. constructor. exact Hin.
      * exfalso. apply elem_of_cons in Hin' as [?|?]; [congruence|tauto].
Qed.

Lemma keys_counter_spec (items : list string) : forall d,
  NoDup (keys d) ->
  NoDup (keys (fold_left (fun d' k => dict_incr k d') items d))
  /\ forall x, x ∈ keys (fold_left (fun d' k => dict_incr k d') items d)
               <-> x ∈ keys d \/ x ∈ items.
Proof.
  induction items as [|k items IH]; intros d Hd; cbn [fold_left].
  - split; [exact Hd|]. intros x. rewrite elem_of_nil. tauto.
  - assert (Hd' : NoDup (keys (dict_incr k d))).
    { rewrite keys_incr. destruct (decide (k ∈ keys d)); [exact Hd|].
      apply NoDup_app. repeat split; [exact Hd| |apply NoDup_singleton].
      intros x Hx Hx'. apply list_elem_of_singleton in Hx'. congruence. }
    destruct (IH _ Hd') as [Hnd Hin]. split; [exact Hnd|].
    intros x. rewrite Hin, keys_incr, elem_of_cons.
    destruct (decide (k ∈ keys d)) as [Hk|Hk].
    + split; [tauto|]. intros [?|[->|?]]; tauto.
    + rewrite elem_of_app, list_elem_of_singleton. tauto.
Qed.

(** The number of keys of [Counter(items)] is the number of distinct
    items. *)
Lemma counter_length (items : list string) :
  length (Counter items) = length (remove_dups items).
Proof.
  destruct (keys_counter_spec items [] (NoDup_nil_2)) as [Hnd Hin].
  transitivity (length (keys (Counter items))).
  { unfold keys. rewrite length_map. reflexivity. }
  apply Permutation_length, NoDup_Permutation;
    [exact Hnd | apply NoDup_remove_dups |].
  intros x. unfold Counter. rewrite Hin, elem_of_remove_dups, elem_of_nil.
  tauto.
Qed.

(** The pairs of topics at positions [i < j] of one classification, first
    position first. *)
Fixpoint ordered_pairs (classification : list string)
  : list (string * string) :=
  match classification with
  | [] => []
  | topic1 :: rest =>
      (map (fun topic2 => (topic1, topic2)) rest ++ ordered_pairs rest)%list
  end.

Definition pair_key (pair : string * string) : string :=
  fst pair ++ "_" ++ snd pair.

(** Over all papers, the number of position pairs [i < j] whose topics, in
    list order, spell the key. *)
Definition key_count (k : string) (classifications : list (list string))
  : nat :=
  length (List.filter (fun pair => String.eqb (pair_key pair) k)
                      (flat_map ordered_pairs classifications)).

Lemma pair_keys_ordered_pairs c : pair_keys c = map pair_key (ordered_pairs c).
Proof.
  induction c as [|t c IH]; cbn [pair_keys ordered_pairs]; [reflexivity|].
  rewrite map_app, map_map, IH. reflexivity.
Qed.

Lemma occurrences_app k l1 l2 :
  occurrences k (l1 ++ l2) = (occurrences k l1 + occurrences k l2)%nat.
Proof. unfold occurrences. rewrite List.filter_app, length_app. reflexivity. Qed.

Lemma occurrences_map_pair_key k ps :
  occurrences k (map pair_key ps)
  = length (List.filter (fun pair => String.eqb (pair_key pair) k) ps).
Proof.
  unfold occurrences. induction ps as [|p ps IH]; cbn [map List.filter];
    [reflexivity|].
  destruct (String.eqb (pair_key p) k); cbn [length]; rewrite IH; reflexivity.
Qed.

(** The guard [len(classification) > 1] changes nothing: a shorter list
    has no pair. *)
Lemma cooccurrence_is_fold (classifications : list (list string)) : forall d,
  fold_left
    (fun d classification =>
       if Z.of_nat (length classification) >? 1
       then fold_left (fun d' k => dict_incr k d') (pair_keys classification) d
       else d)
    classifications d
  = fold_left (fun d' k => dict_incr k d')
              (flat_map pair_keys classifications) d.
Proof.
  induction classifications as [|c cs IH]; intros d;
    cbn [fold_left flat_map]; [reflexivity|].
  rewrite fold_left_app, IH. f_equal.
  destruct (Z.of_nat (length c) >? 1) eqn:E; [reflexivity|].
  destruct c as [|t [|t' c]]; try reflexivity.
  rewrite Z.gtb_ltb in E. apply Z.ltb_ge in E. cbn [length] in E. lia.
Qed.

Lemma occurrences_pair_keys k (classifications : list (list string)) :
  occurrences k (flat_map pair_keys classifications)
  = key_count k classifications.
Proof.
  unfold key_count.
  induction classifications as [|c cs IH]; cbn [flat_map]; [reflexivity|].
  rewrite occurrences_app, List.filter_app, length_app, IH,
    pair_keys_ordered_pairs, occurrences_map_pair_key.
  reflexivity.
Qed.

(** C9, as the code has it. The co-occurrence table is keyed by the string
    [topic1_topic2] with [topic1] before [topic2] in a paper's list: a key
    is present exactly when some position pair spells it, and its count is
    the number of such position pairs over all papers (the order inside a
    list matters, and a repeated topic counts once per position). The
    value of [total_unique_topics] is the number of distinct topic labels
    across all classifications. *)
Theorem analyze_topics_counts (papers : list ResearchPaper)
  (classifications : list (list string)) :
  let analysis := _analyze_topics papers classifications in
  total_unique_topics analysis
  = Z.of_nat (length (remove_dups (concat classifications)))
  /\ forall k,
       dict_get k (topic_cooccurrence analysis)
       = if (key_count k classifications =? 0)%nat then None
         else Some (Z.of_nat (key_count k classifications)).
Proof.
  unfold _analyze_topics. cbv zeta.
  cbn [total_unique_topics topic_cooccurrence]. split.
  - rewrite counter_length. reflexivity.
  - intros k. rewrite cooccurrence_is_fold, dict_get_incr_all,
      occurrences_pair_keys.
    destruct (key_count k classifications =? 0)%nat; reflexivity.
Qed.

End TopicAnalysisFacts.

(** C9, as stated, fails. Two papers that carry the same two topics in
    opposite orders are counted under two different keys, and one paper that
    lists a topic twice is counted twice under one key. *)
Lemma cooccurrence_depends_on_order :
  let table classifications :=
    SynthesisAgent.topic_cooccurrence
      (SynthesisAgent._analyze_topics [] classifications) in
  table [["ML"; "NLP"]; ["NLP"; "ML"]] = [("ML_NLP", 1); ("NLP_ML", 1)]
  /\ table [["ML"; "NLP"]] <> table [["NLP"; "ML"]]
  /\ table [["ML"; "ML"; "NLP"]] = [("ML_ML", 1); ("ML_NLP", 2)].
Proof. repeat split; try reflexivity. discriminate. Qed.

(** ** Extractor and Narrator *)

(** C7, evaluated. A text file whose reading raises (and, with PyMuPDF, a
    PDF whose reading raises) adds nothing to the list: [process] returns
    the empty list for it, not a fallback paper. *)
Theorem failed_extraction_is_dropped
  (read_pdf read_text : string -> option string)
  (metadata : string -> ExtractionAgent.Metadata) (uuid4 : nat -> string)
  (topics : list string) :
  ExtractionAgent.process false read_pdf (fun _ => None) metadata uuid4
    ["uploads/corrupt.txt"] topics = []
  /\ ExtractionAgent.process true (fun _ => None) read_text metadata uuid4
       ["uploads/corrupt.pdf"] topics = []
  /\ ExtractionAgent.process true (fun _ => None) (fun _ => None) metadata uuid4
       ["uploads/a.pdf"; "uploads/notes.md"; "uploads/b.txt"] topics
     = [ExtractionAgent._create_fallback_paper (uuid4 1%nat)
          "uploads/notes.md" topics].
Proof. repeat split. Qed.

(** A file of another type always yields the fallback paper, whose title
    carries the file name. *)
Lemma unsupported_file_yields_fallback
  (pdf_available : bool) (read_pdf read_text : string -> option string)
  (metadata : string -> ExtractionAgent.Metadata) (uuid4 : nat -> string)
  (idx : nat) (file_path : string) (topics : list string) :
  Py.endswith (Py.lower file_path) ".pdf" = false ->
  Py.endswith (Py.lower file_path) ".txt" = false ->
  ExtractionAgent.process_file pdf_available read_pdf read_text metadata uuid4
    idx file_path topics
  = [ExtractionAgent._create_fallback_paper (uuid4 idx) file_path topics].
Proof.
  intros Hpdf Htxt. unfold ExtractionAgent.process_file.
  rewrite Hpdf, Htxt, andb_false_r. reflexivity.
Qed.

(** C8, evaluated. With a TTS library present, a rendering that raises
    leaves [process] with the empty list: no placeholder is written. Without
    a TTS library the placeholder is written outside any handler, so a
    failing write raises out of [process]. *)
Theorem failed_rendering_returns_no_artifact
  (gtts_save pyttsx3_save : string -> string -> bool)
  (write_file : string -> string -> option string) (uuid4 : string)
  (method : AudioAgent.TtsMethod) :
  AudioAgent.process true AudioAgent.gtts (fun _ _ => false) pyttsx3_save
    write_file uuid4 "Findings." = Ok []
  /\ AudioAgent.process true AudioAgent.pyttsx3 gtts_save (fun _ _ => false)
       write_file uuid4 "Findings." = Ok []
  /\ AudioAgent.process false method gtts_save pyttsx3_save
       (fun _ _ => Some "No such file or directory") uuid4 "Findings."
     = Raise "No such file or directory".
Proof. repeat split. Qed.

(** ** Registry *)

Section RegistryFacts.

Variable now : string.

Lemma create_lookup id status (ws : gmap string Workflow) :
  WorkflowManager.create_workflow now id status ws !! id
  = Some {| wf_id := id; wf_status := status; wf_progress := 0;
            wf_message := "Workflow created"; wf_created_at := now;
            wf_results := None |}.
Proof. unfold WorkflowManager.create_workflow. apply lookup_insert_eq. Qed.

Lemma update_lookup id kwargs (ws : gmap string Workflow) record :
  ws !! id = Some record ->
  WorkflowManager.update_workflow id kwargs ws !! id
  = Some (dict_update record kwargs).
Proof.
  intros H. unfold WorkflowManager.update_workflow. rewrite H.
  apply lookup_insert_eq.
Qed.

Lemma update_unknown id kwargs (ws : gmap string Workflow) :
  ws !! id = None -> WorkflowManager.update_workflow id kwargs ws = ws.
Proof. intros H. unfold WorkflowManager.update_workflow. rewrite H. reflexivity. Qed.

Lemma update_other id id' kwargs (ws : gmap string Workflow) :
  id <> id' ->
  WorkflowManager.update_workflow id kwargs ws !! id' = ws !! id'.
Proof.
  intros Hne. unfold WorkflowManager.update_workflow.
  destruct (ws !! id); [apply lookup_insert_ne; exact Hne | reflexivity].
Qed.

Lemma apply_events_app evs1 evs2 (ws : gmap string Workflow) :
  apply_events now (evs1 ++ evs2) ws
  = apply_events now evs2 (apply_events now evs1 ws).
Proof. unfold apply_events. apply fold_left_app. Qed.

Lemma apply_events_cons ev evs (ws : gmap string Workflow) :
  apply_events now (ev :: evs) ws = apply_events now evs (apply_event now ev ws).
Proof. reflexivity. Qed.

(** No call of the registry removes a record. *)
Lemma apply_event_keeps id ev (ws : gmap string Workflow) :
  is_Some (ws !! id) -> is_Some (apply_event now ev ws !! id).
Proof.
  intros Hs. destruct ev as [| | | | | |id' status|id' kwargs]; cbn;
    try exact Hs.
  - unfold WorkflowManager.create_workflow.
    destruct (decide (id' = id)) as [->|Hne].
    + rewrite lookup_insert_eq. eauto.
    + rewrite lookup_insert_ne by exact Hne. exact Hs.
  - destruct (decide (id' = id)) as [->|Hne].
    + destruct Hs as [record Hr]. rewrite (update_lookup _ _ _ _ Hr). eauto.
    + rewrite update_other by exact Hne. exact Hs.
Qed.

Lemma apply_events_keeps id evs : forall (ws : gmap string Workflow),
  is_Some (ws !! id) -> is_Some (apply_events now evs ws !! id).
Proof.
  induction evs as [|ev evs IH]; intros ws Hs; [exact Hs|].
  rewrite apply_events_cons. apply IH, apply_event_keeps, Hs.
Qed.

End RegistryFacts.

(** ** Background jobs *)

Definition task_id (task : Task) : string :=
  match task with SearchTask id _ | UploadTask id _ => id end.

Definition task_flow (task : Task) : Flow :=
  match task with SearchTask _ _ => search_flow | UploadTask _ _ => upload_flow end.

(** The request as the first agent receives it, the call, and its outcome. *)
Definition task_request (task : Task) : Request :=
  match task with
  | SearchTask _ request => normalize_search request
  | UploadTask _ request => request
  end.

Definition first_stage_event (task : Task) : Event :=
  match task with
  | SearchTask _ _ => EvDiscovery (task_request task)
  | UploadTask _ _ => EvExtraction (task_request task)
  end.

Definition first_stage_outcome (agents : Agents) (task : Task)
  : result (list ResearchPaper) :=
  match task with
  | SearchTask _ _ => discovery agents (task_request task)
  | UploadTask _ _ => extraction agents (task_request task)
  end.

(** The guarded block of the job of a task. *)
Definition task_body (agents : Agents) (task : Task) : M unit :=
  match task with
  | SearchTask id request => background_body agents search_flow id request
  | UploadTask id request => background_body agents upload_flow id request
  end.

(** The agent calls among the events of a run. *)
Definition is_agent_call (ev : Event) : bool :=
  match ev with
  | EvCreate _ _ | EvUpdate _ _ => false
  | _ => true
  end.

Definition agent_calls (evs : list Event) : list Event :=
  List.filter is_agent_call evs.

(** The arguments of the [update_workflow] calls among the events. *)
Definition updates (evs : list Event) : list Kwargs :=
  flat_map (fun ev => match ev with EvUpdate _ kw => [kw] | _ => [] end) evs.

Lemma run_task_unfold agents task :
  run_task agents task
  = try_except (task_body agents task)
               (background_handler (task_flow task) (task_id task)).
Proof. destruct task; reflexivity. Qed.

Lemma first_stage_unfold agents task :
  fl_first_stage (task_flow task) agents (task_request task)
  = call (first_stage_event task) (first_stage_outcome agents task).
Proof. destruct task; reflexivity. Qed.

Lemma task_body_unfold agents task :
  task_body agents task
  = background_body agents (task_flow task) (task_id task)
      match task with SearchTask _ r | UploadTask _ r => r end.
Proof. destruct task; reflexivity. Qed.

Lemma normalize_unfold task :
  fl_normalize (task_flow task)
    match task with SearchTask _ r | UploadTask _ r => r end
  = task_request task.
Proof. destruct task; reflexivity. Qed.

(** Runs one step of coordinator code without touching the strings. *)
Ltac coord_step :=
  cbn [bind ret call create_workflow update_workflow try_except
       background_handler fst snd app].

Lemma fst_bind {A B} (c : M A) (k : A -> M B) :
  fst (bind c k)
  = (fst c ++ match snd c with Ok a => fst (k a) | Raise _ => [] end)%list.
Proof.
  destruct c as [evs [a|e]]; cbn [bind fst snd].
  - destruct (k a); reflexivity.
  - rewrite app_nil_r. reflexivity.
Qed.

Lemma snd_bind {A B} (c : M A) (k : A -> M B) :
  snd (bind c k) = match snd c with Ok a => snd (k a) | Raise e => Raise e end.
Proof.
  destruct c as [evs [a|e]]; cbn [bind fst snd]; [destruct (k a)|]; reflexivity.
Qed.

(** A background job returns normally, whatever its guarded block does. *)
Lemma run_task_returns agents task : snd (run_task agents task) = Ok tt.
Proof.
  rewrite run_task_unfold. unfold try_except, background_handler, update_workflow.
  destruct (task_body agents task) as [evs [[]|e]]; reflexivity.
Qed.


(** The payload stored for an empty batch. *)
Definition empty_results (flow : Flow) : Results :=
  {| res_workflow_id := None;
     res_papers := [];
     res_papers_processed := 0;
     res_summaries := [];
     res_classifications := [];
     res_synthesis :=
       {| syn_synthesis := fl_empty_synthesis flow;
          syn_topic_analysis := TA_absent;
          syn_paper_count := Some 0;
          syn_methodology := None |};
     res_audio_files := [];
     res_status := "completed" |}.

(** The whole run of a job whose first stage yields no paper. *)
Lemma empty_batch_run agents task :
  first_stage_outcome agents task = Ok [] ->
  run_task agents task
  = ([EvCreate (task_id task) "processing";
      EvUpdate (task_id task)
        (kw_progress_message (fst (fl_start (task_flow task)))
                             (snd (fl_start (task_flow task))));
      first_stage_event task;
      EvUpdate (task_id task)
        (kw_progress_message (fl_found_progress (task_flow task))
                             (fl_found_message (task_flow task) 0));
      EvUpdate (task_id task)
        {| kw_status := Some "completed";
           kw_progress := Some 100;
           kw_message := Some (fl_empty_message (task_flow task));
           kw_results := Some (ResultsOk (empty_results (task_flow task))) |}],
     Ok tt).
Proof.
  intros H. rewrite run_task_unfold, task_body_unfold.
  unfold background_body. cbv zeta.
  rewrite normalize_unfold, first_stage_unfold, H.
  coord_step. reflexivity.
Qed.

(** C4. When the first stage (Source or Extractor) yields no paper, the job
    returns normally having called no other agent, and the record is
    [completed] at progress 100 with a payload whose [papers_processed] and
    synthesis [paper_count] are 0 and whose synthesis text is not empty. *)
Theorem empty_batch_short_circuits (agents : Agents) (now : string)
  (task : Task) (ws : gmap string Workflow) :
  first_stage_outcome agents task = Ok [] ->
  let run := run_task agents task in
  snd run = Ok tt
  /\ agent_calls (fst run) = [first_stage_event task]
  /\ exists record results,
       apply_events now (fst run) ws !! task_id task = Some record
       /\ wf_status record = "completed"
       /\ wf_progress record = 100
       /\ wf_results record = Some (ResultsOk results)
       /\ res_papers results = []
       /\ res_papers_processed results = 0
       /\ syn_paper_count (res_synthesis results) = Some 0
       /\ Py.truthy (syn_synthesis (res_synthesis results)) = true.
Proof.
  intros H. cbv zeta. rewrite (empty_batch_run _ _ H). cbn [fst snd].
  destruct task as [id request|id request];
    (split; [reflexivity|]); (split; [reflexivity|]);
    eexists _, (empty_results _);
    (split;
     [ unfold apply_events;
       cbn [fold_left apply_event first_stage_event task_id];
       (erewrite update_lookup; [reflexivity|]);
       (erewrite update_lookup; [reflexivity|]);
       (erewrite update_lookup; [reflexivity|]);
       apply create_lookup
     | repeat split ]).
Qed.

(** *** Stub agents for sample runs *)

(** The summarizer of the source with NLTK missing, a pattern search that
    finds nothing and a constant score. *)
Definition sample_summarizer (paper : ResearchPaper) : Summary :=
  SummarizationAgent.process false None (fun _ => None) (fun _ _ => [])
    (fun _ _ _ => 0%Q) paper.

(** A Source or Extractor with a fixed outcome, a Classifier with a fixed
    answer, and a Synthesizer and a Narrator with fixed outcomes. *)
Definition stub_agents (found : result (list ResearchPaper))
  (topics : list string) (synthesized : result SynthesisDict)
  (narrated : result (list string)) : Agents :=
  {| discovery := fun _ => found;
     extraction := fun _ => found;
     classification := fun _ => Ok topics;
     summarization := fun paper => Ok (sample_summarizer paper);
     synthesis := fun _ => synthesized;
     audio := fun _ => narrated |}.

Definition sample_request : Request :=
  {| req_search_query := None;
     req_query := Some "graph neural networks";
     req_file_paths := [];
     req_topics := [] |}.

(** A paper as the Source makes it: no topics yet. *)
Definition sample_paper (id title : string) : ResearchPaper :=
  {| p_id := id;
     p_title := title;
     p_authors := ["A. Author"];
     p_abstract := "We show that message passing helps.";
     p_content := "We show that message passing helps.";
     p_doi := "arXiv:" ++ id;
     p_url := "http://arxiv.org/abs/" ++ id;
     p_topics := [] |}.

Definition sample_synthesis : SynthesisDict :=
  {| syn_synthesis := "This synthesis analyzes 2 research papers.";
     syn_topic_analysis := TA_empty;
     syn_paper_count := Some 2;
     syn_methodology := Some "enhanced_synthesis" |}.

Definition sample_topics : list string := ["Machine Learning"; "Computer Vision"].

Definition no_paper_agents : Agents :=
  stub_agents (Ok []) sample_topics (Ok sample_synthesis)
    (Ok ["audio/synthesis_1.mp3"]).

Lemma empty_batch_short_circuits_witness :
  first_stage_outcome no_paper_agents (SearchTask "wf-1" sample_request) = Ok []
  /\ let run := run_task no_paper_agents (SearchTask "wf-1" sample_request) in
     snd run = Ok tt
     /\ agent_calls (fst run)
        = [first_stage_event (SearchTask "wf-1" sample_request)]
     /\ exists record results,
          apply_events "2026-01-01T00:00:00" (fst run) ∅ !! "wf-1" = Some record
          /\ wf_status record = "completed"
          /\ wf_progress record = 100
          /\ wf_results record = Some (ResultsOk results)
          /\ res_papers results = []
          /\ res_papers_processed results = 0
          /\ syn_paper_count (res_synthesis results) = Some 0
          /\ Py.truthy (syn_synthesis (res_synthesis results)) = true.
Proof.
  split; [reflexivity|].
  apply (empty_batch_short_circuits no_paper_agents "2026-01-01T00:00:00"
           (SearchTask "wf-1" sample_request) ∅).
  reflexivity.
Defined.

(** *** Failure of the guarded block *)

(** What the handler of the job of a task writes for an exception of text
    [e]. *)
Definition failure_update (task : Task) (e : string) : Kwargs :=
  {| kw_status := Some "failed";
     kw_progress := Some 0;
     kw_message := Some (fl_failed_prefix (task_flow task) ++ e);
     kw_results := Some (ResultsError (task_id task) e "failed") |}.


Definition failing_synthesis_agents : Agents :=
  stub_agents (Ok [sample_paper "1" "Graph Nets"; sample_paper "2" "Deep Sets"])
    sample_topics (Raise "synthesis backend unavailable")
    (Ok ["audio/synthesis_1.mp3"]).


(** *** The writes of a run *)

(** The fractions of the loop are in range and do not decrease, for a batch
    of [total] papers: a check on the binary64 values. *)
Definition scale35_ok (total : nat) : bool :=
  forallb (fun i =>
             (0 <=? scale35 i total) && (scale35 i total <=? 35)
             && (negb (S i <? total)%nat
                 || (scale35 i total <=? scale35 (S i) total)))
          (seq 0 total).


(** Checked by evaluation for every batch of at most 100 papers. *)
Lemma scale35_ok_upto_100 total : (total <= 100)%nat -> scale35_ok total = true.
Proof.
  intros H.
  assert (Hall : forallb scale35_ok (seq 0 101) = true) by (vm_compute; reflexivity).
  rewrite forallb_forall in Hall. apply Hall. rewrite in_seq. lia.
Qed.

Section Shape.

(** The order in which progress values are compared: [Z.le], or the full
    relation when only the statuses matter. *)
Variable le : Z -> Z -> Prop.
Hypothesis le_of_Zle : forall a b, a <= b -> le a b.
Hypothesis le_trans : forall a b c, le a b -> le b c -> le a c.

(** Events that leave the status alone: agent calls, and updates of the
    record [id] that set no status and no result and whose progress values
    go from [lo] up to at most [hi]. *)
Fixpoint quiet (id : string) (lo hi : Z) (evs : list Event) : Prop :=
  match evs with
  | [] => le lo hi
  | EvUpdate id' kw :: evs' =>
      id' = id /\ kw_status kw = None /\ kw_results kw = None
      /\ exists p, kw_progress kw = Some p /\ le lo p /\ quiet id p hi evs'
  | EvCreate _ _ :: _ => False
  | _ :: evs' => quiet id lo hi evs'
  end.


Lemma quiet_weaken id evs : forall lo lo' hi hi',
  le lo' lo -> le hi hi' -> quiet id lo hi evs -> quiet id lo' hi' evs.
Proof.
  induction evs as [|ev evs IH]; intros lo lo' hi hi' Hlo Hhi H.
  - cbn [quiet] in *. eauto.
  - destruct ev; cbn [quiet] in *; try (eapply IH; eassumption);
      [contradiction|].
    destruct H as (Hid & Hs & Hr & p & Hp & Hle & Hq).
    repeat split; try assumption. exists p. repeat split; eauto.
    eapply IH; [| exact Hhi | exact Hq]. apply le_of_Zle. lia.
Qed.

Lemma quiet_app id evs1 : forall evs2 lo mid hi,
  quiet id lo mid evs1 -> quiet id mid hi evs2 -> quiet id lo hi (evs1 ++ evs2).
Proof.
  induction evs1 as [|ev evs1 IH]; intros evs2 lo mid hi H1 H2.
  - cbn [app quiet] in *. eapply quiet_weaken; [exact H1 | | exact H2].
    apply le_of_Zle. lia.
  - destruct ev; cbn [app quiet] in *; try (eapply IH; eassumption);
      [contradiction|].
    destruct H1 as (Hid & Hs & Hr & p & Hp & Hle & Hq).
    repeat split; try assumption. exists p. repeat split; eauto.
Qed.

(** What the loop needs of its fractions, for a batch of [total]. *)
Definition loop_steps (base : Z) (total : nat) : Prop :=
  forall i, (i < total)%nat ->
    le base (base + scale35 i total)
    /\ le (base + scale35 i total) (base + 35)
    /\ ((S i < total)%nat ->
        le (base + scale35 i total) (base + scale35 (S i) total)).

Lemma analysis_loop_quiet agents flow id total :
  loop_steps (fl_loop_base flow) total ->
  forall papers i lo,
    (i + length papers <= total)%nat ->
    le lo (fl_loop_base flow + 35) ->
    (papers <> [] -> le lo (fl_loop_base flow + scale35 i total)) ->
    quiet id lo (fl_loop_base flow + 35)
      (fst (analysis_loop agents flow id total i papers)).
Proof.
  intros Hsteps. induction papers as [|paper rest IH]; intros i lo Hlen Hhi Hlo.
  - exact Hhi.
  - cbn [length] in Hlen.
    destruct (Hsteps i ltac:(lia)) as (Hbase & Htop & Hnext).
    cbn [analysis_loop]. rewrite fst_bind.
    cbn [update_workflow fst snd app quiet kw_progress_message
         kw_status kw_results kw_progress].
    repeat split. eexists. split; [reflexivity|].
    split; [apply Hlo; discriminate|].
    rewrite fst_bind. cbn [call fst snd app quiet].
    destruct (classification agents paper) as [topics|e]; [|exact Htop].
    rewrite fst_bind. cbn [call fst snd app quiet].
    destruct (summarization agents paper) as [summary|e]; [|exact Htop].
    rewrite fst_bind.
    destruct (analysis_loop agents flow id total (S i) rest)
      as [evs [r|e]] eqn:Hloop; cbn [fst snd ret]; rewrite ?app_nil_r;
      specialize (IH (S i) (fl_loop_base flow + scale35 i total));
      rewrite Hloop in IH; cbn [fst] in IH;
      (apply IH; [lia | exact Htop |]);
      intros Hne; apply Hnext; destruct rest as [|paper' rest'];
      try contradiction; cbn [length] in Hlen; lia.
Qed.

(** The terminal write of a successful run. *)
Definition completed_update (message : string) (results : Results) : Kwargs :=
  {| kw_status := Some "completed";
     kw_progress := Some 100;
     kw_message := Some message;
     kw_results := Some (ResultsOk results) |}.

(** Proves [quiet] for a list of events written out. *)
Ltac quiet_step :=
  cbn [quiet app kw_progress_message kw_status kw_results kw_progress
       first_stage_event];
  lazymatch goal with
  | |- _ = _ /\ _ => split; [reflexivity|]
  | |- exists _, _ =>
      eexists; split; [reflexivity|]; split; [apply le_of_Zle; lia|]
  | |- le _ _ => apply le_of_Zle; lia
  end.

Ltac flow_consts :=
  cbn [task_flow task_id search_flow upload_flow fl_start fl_found_progress
       fl_analysis_start fl_loop_base fl_synthesis_start fl_synthesis_done
       fl_audio_start fst snd] in *.

Lemma task_body_shape agents task :
  (forall papers,
      first_stage_outcome agents task = Ok papers ->
      loop_steps (fl_loop_base (task_flow task)) (length papers)) ->
  exists before,
    quiet (task_id task) 0 100 before
    /\ match snd (task_body agents task) with
       | Raise _ =>
           fst (task_body agents task)
           = EvCreate (task_id task) "processing" :: before
       | Ok _ =>
           exists message results,
             fst (task_body agents task)
             = EvCreate (task_id task) "processing"
                 :: (before ++ [EvUpdate (task_id task)
                                  (completed_update message results)])%list
       end.
Proof.
  intros Hsteps. rewrite task_body_unfold.
  unfold background_body. cbv zeta.
  rewrite normalize_unfold, first_stage_unfold.
  destruct (first_stage_outcome agents task) as [[|paper rest]|e] eqn:Hfirst.
  - coord_step. eexists [_; _; _]. split; cycle 1.
    { eexists _, _. reflexivity. }
    destruct task; flow_consts; repeat quiet_step.
  - specialize (Hsteps _ eq_refl).
    assert (Hloop : quiet (task_id task) (fl_loop_base (task_flow task))
                      (fl_loop_base (task_flow task) + 35)
                      (fst (analysis_loop agents (task_flow task)
                              (task_id task) (length (paper :: rest)) 0
                              (paper :: rest)))).
    { apply analysis_loop_quiet; [exact Hsteps | lia | apply le_of_Zle; lia |].
      intros _. apply (Hsteps 0%nat). cbn [length]. lia. }
    coord_step.
    destruct (analysis_loop agents (task_flow task) (task_id task)
                (length (paper :: rest)) 0 (paper :: rest))
      as [evs_loop [r|e]]; cbn [fst] in Hloop; coord_step.
    + destruct (synthesis agents _) as [synthesized|e]; coord_step.
      * destruct (audio agents synthesized) as [audio_files|e]; coord_step.
        -- eexists (_ :: _ :: _ :: _ :: evs_loop ++ [_; _; _; _; _; _; _])%list.
           split; cycle 1.
           { eexists _, _. cbn [app]. rewrite <- app_assoc. reflexivity. }
           destruct task; flow_consts; repeat quiet_step;
             (eapply quiet_app; [exact Hloop|]); repeat quiet_step.
        -- eexists (_ :: _ :: _ :: _ :: evs_loop ++ [_; _; _; _; _])%list.
           split; [|reflexivity].
           destruct task; flow_consts; repeat quiet_step;
             (eapply quiet_app; [exact Hloop|]); repeat quiet_step.
      * eexists (_ :: _ :: _ :: _ :: evs_loop ++ [_; _])%list.
        split; [|reflexivity].
        destruct task; flow_consts; repeat quiet_step;
          (eapply quiet_app; [exact Hloop|]); repeat quiet_step.
    + eexists (_ :: _ :: _ :: _ :: evs_loop)%list.
      split; [|reflexivity].
      destruct task; flow_consts; repeat quiet_step;
        (eapply quiet_weaken; [| |exact Hloop]); apply le_of_Zle; lia.
  - coord_step. eexists [_; _]. split; [|reflexivity].
    destruct task; flow_consts; repeat quiet_step.
Qed.
End Shape.

(** The whole run of a job: the creation, quiet events, and one terminal
    write, which is the last call. *)
Lemma run_task_shape (le : Z -> Z -> Prop)
  (le_of_Zle : forall a b, a <= b -> le a b)
  (le_trans : forall a b c, le a b -> le b c -> le a c) agents task :
  (forall papers,
      first_stage_outcome agents task = Ok papers ->
      loop_steps le (fl_loop_base (task_flow task)) (length papers)) ->
  exists before last,
    fst (run_task agents task)
    = EvCreate (task_id task) "processing"
        :: (before ++ [EvUpdate (task_id task) last])%list
    /\ quiet le (task_id task) 0 100 before
    /\ ((exists message results, last = completed_update message results)
        \/ (exists e, last = failure_update task e)).
Proof.
  intros Hsteps.
  destruct (task_body_shape le le_of_Zle le_trans agents task Hsteps)
    as (before & Hquiet & Hshape).
  rewrite run_task_unfold. unfold try_except.
  destruct (task_body agents task) as [evs [[]|e]]; cbn [fst snd] in *.
  - destruct Hshape as (message & results & ->). eauto 10.
  - subst evs. unfold background_handler, update_workflow. cbn [fst app].
    exists before, (failure_update task e). repeat split; eauto.
Qed.

(** The progress values among the arguments of a sequence of updates. *)
Definition progress_values (kws : list Kwargs) : list Z :=
  flat_map (fun kw => match kw_progress kw with Some p => [p] | None => [] end)
           kws.






Definition two_paper_agents : Agents :=
  stub_agents (Ok [sample_paper "1" "Graph Nets"; sample_paper "2" "Deep Sets"])
    sample_topics (Ok sample_synthesis) (Ok ["audio/synthesis_1.mp3"]).

Example two_paper_progress :
  progress_values
    (updates (fst (run_task two_paper_agents (SearchTask "wf-1" sample_request))))
  = [20; 30; 35; 35; 52; 75; 85; 90; 95; 98; 100].
Proof. vm_compute. reflexivity. Qed.



(** *** Submission and status reads *)



Definition empty_app : App := {| app_workflows := ∅; app_tasks := [] |}.



(** *** Order of Classifier, topics and Summarizer *)

(** In the loop of the two background jobs the Summarizer receives each
    paper as the first stage made it; the classified topics are written to
    the paper afterwards. *)
Lemma analysis_loop_outcome agents flow id total papers : forall i r,
  snd (analysis_loop agents flow id total i papers) = Ok r ->
  Forall2 (fun paper topics => classification agents paper = Ok topics)
          papers (snd (fst r))
  /\ Forall2 (fun paper summary => summarization agents paper = Ok summary)
             papers (snd r)
  /\ fst (fst r) = zip_with set_topics papers (snd (fst r)).
Proof.
  induction papers as [|paper rest IH]; intros i r H.
  - cbn in H. injection H as <-. cbn. repeat split; constructor.
  - cbn [analysis_loop] in H. rewrite !snd_bind in H.
    cbn [update_workflow call snd] in H.
    destruct (classification agents paper) as [topics|e] eqn:Hc;
      [|discriminate].
    rewrite snd_bind in H. cbn [call snd] in H.
    destruct (summarization agents paper) as [summary|e] eqn:Hs;
      [|discriminate].
    rewrite snd_bind in H.
    destruct (analysis_loop agents flow id total (S i) rest)
      as [evs [r'|e]] eqn:Hloop; cbn [snd ret] in H; [|discriminate].
    injection H as <-.
    specialize (IH (S i) r'). rewrite Hloop in IH.
    destruct (IH eq_refl) as (Hcs & Hss & Hps). cbn [fst snd].
    repeat split; try (constructor; assumption).
    cbn [zip_with]. rewrite Hps. reflexivity.
Qed.

(** In the loop of [_process_search_request_direct] the Summarizer receives
    the paper with the classified topics. *)
Lemma direct_loop_outcome agents papers : forall r,
  snd (direct_loop agents papers) = Ok r ->
  Forall2 (fun paper topics => classification agents paper = Ok topics)
          papers (snd (fst r))
  /\ Forall2 (fun paper summary => summarization agents paper = Ok summary)
             (fst (fst r)) (snd r)
  /\ fst (fst r) = zip_with set_topics papers (snd (fst r)).
Proof.
  induction papers as [|paper rest IH]; intros r H.
  - cbn in H. injection H as <-. cbn. repeat split; constructor.
  - cbn [direct_loop] in H. rewrite snd_bind in H. cbn [call snd] in H.
    destruct (classification agents paper) as [topics|e] eqn:Hc;
      [|discriminate].
    cbv zeta in H. rewrite snd_bind in H. cbn [call snd] in H.
    destruct (summarization agents (set_topics paper topics))
      as [summary|e] eqn:Hs; [|discriminate].
    rewrite snd_bind in H.
    destruct (direct_loop agents rest) as [evs [r'|e]] eqn:Hloop;
      cbn [snd ret] in H; [|discriminate].
    injection H as <-. destruct (IH r' eq_refl) as (Hcs & Hss & Hps).
    cbn [fst snd]. repeat split; try (constructor; assumption).
    cbn [zip_with]. rewrite Hps. reflexivity.
Qed.

Definition one_paper_agents : Agents :=
  stub_agents (Ok [sample_paper "1" "Graph Nets"]) sample_topics
    (Ok sample_synthesis) (Ok ["audio/synthesis_1.mp3"]).

(** The topics found in the payload of a finished job: per paper, per
    summary, and the classifications. *)
Definition payload_topics (record : option Workflow)
  : option (list (list string) * list (list string) * list (list string)) :=
  match record with
  | Some {| wf_results := Some (ResultsOk results) |} =>
      Some (map p_topics (res_papers results),
            map sum_topics (res_summaries results),
            res_classifications results)
  | _ => None
  end.

(** C1, evaluated. A search job whose Source returns one paper (no topics
    yet) and whose Classifier answers [sample_topics] calls the Summarizer
    on the paper while its topics are still empty: the stored summary echoes
    no topic, although the stored paper and the classifications carry
    [sample_topics]. The upload job does the same. The loop of
    [_process_search_request_direct] writes the topics first, and its
    summary echoes them. *)
Theorem background_summary_misses_classified_topics :
  let paper := sample_paper "1" "Graph Nets" in
  let search := run_task one_paper_agents (SearchTask "wf-1" sample_request) in
  let upload := run_task one_paper_agents (UploadTask "wf-2" sample_request) in
  let direct := _process_search_request_direct one_paper_agents sample_request in
  List.filter (fun ev => match ev with
                         | EvClassification _ | EvSummarization _ => true
                         | _ => false
                         end) (fst search)
  = [EvClassification paper; EvSummarization paper]
  /\ payload_topics (apply_events "2026-01-01T00:00:00" (fst search) ∅ !! "wf-1")
     = Some ([sample_topics], [[]], [sample_topics])
  /\ payload_topics (apply_events "2026-01-01T00:00:00" (fst upload) ∅ !! "wf-2")
     = Some ([sample_topics], [[]], [sample_topics])
  /\ List.filter (fun ev => match ev with
                            | EvClassification _ | EvSummarization _ => true
                            | _ => false
                            end) (fst direct)
     = [EvClassification paper;
        EvSummarization (set_topics paper sample_topics)]
  /\ match snd direct with
     | Ok results => map sum_topics (res_summaries results) = [sample_topics]
     | Raise _ => False
     end.
Proof. vm_compute. repeat split. Qed.

(** With the summarizer of the source in the Summarizer role, the summaries
    of the loop of a background job echo the topics the papers had before
    classification. *)
Lemma background_summaries_echo_prior_topics
  (model_available : bool) (summarizer : option (string -> option string))
  (sent_tokenize : string -> option (list string))
  (re_findall : string -> string -> list string)
  (final_score : list string -> nat -> string -> Q)
  agents flow id total papers i r :
  summarization agents
  = (fun paper => Ok (SummarizationAgent.process model_available summarizer
                        sent_tokenize re_findall final_score paper)) ->
  snd (analysis_loop agents flow id total i papers) = Ok r ->
  map sum_topics (snd r) = map p_topics papers.
Proof.
  intros Hsum Hloop.
  destruct (analysis_loop_outcome _ _ _ _ _ _ _ Hloop) as (_ & Hss & _).
  rewrite Hsum in Hss. clear Hloop.
  induction Hss as [|paper summary rest summaries H _ IH]; [reflexivity|].
  cbn [map]. injection H as <-. rewrite process_echoes_topics, IH. reflexivity.
Qed.

(** An exception of the first agent is an exception of the guarded block. *)
Lemma first_stage_raise agents task e :
  first_stage_outcome agents task = Raise e ->
  snd (task_body agents task) = Raise e.
Proof.
  intros H. rewrite task_body_unfold. unfold background_body. cbv zeta.
  rewrite normalize_unfold, first_stage_unfold, H. reflexivity.
Qed.

(** * Further properties of the coordinator *)

(** An event of the job of [id] that reaches the registry reaches the record
    [id]. *)
Definition touches_only (id : string) (ev : Event) : Prop :=
  match ev with
  | EvCreate id' _ | EvUpdate id' _ => id' = id
  | _ => True
  end.

Lemma quiet_touches_only (le : Z -> Z -> Prop) id evs : forall lo hi,
  quiet le id lo hi evs -> Forall (touches_only id) evs.
Proof.
  induction evs as [|ev evs IH]; intros lo hi H; [constructor|].
  destruct ev; cbn [quiet] in H; try contradiction;
    try (constructor; [exact I | eapply IH; exact H]).
  destruct H as (-> & _ & _ & p & _ & _ & Hq).
  constructor; [reflexivity | eapply IH; exact Hq].
Qed.

Lemma apply_events_elsewhere now id id' evs : forall (ws : gmap string Workflow),
  id' <> id -> Forall (touches_only id) evs ->
  apply_events now evs ws !! id' = ws !! id'.
Proof.
  induction evs as [|ev evs IH]; intros ws Hne Hall; [reflexivity|].
  inversion Hall as [|? ? Hev Hrest]; subst.
  rewrite apply_events_cons, IH by assumption.
  destruct ev; cbn [apply_event touches_only] in *; try reflexivity; subst.
  - unfold WorkflowManager.create_workflow. apply lookup_insert_ne. congruence.
  - apply update_other. congruence.
Qed.

Lemma run_task_touches_only agents task :
  Forall (touches_only (task_id task)) (fst (run_task agents task)).
Proof.
  destruct (run_task_shape (fun _ _ => True) (fun _ _ _ => I)
              (fun _ _ _ _ _ => I) agents task)
    as (before & last & Hrun & Hquiet & _).
  { intros papers _ i _. repeat split. }
  rewrite Hrun. constructor; [reflexivity|].
  apply Forall_app. split; [eapply quiet_touches_only; exact Hquiet|].
  constructor; [reflexivity | constructor].
Qed.

(** X1. A background job writes to its own record only: the record of any
    other workflow id is, after the run, what it was before. *)
Theorem job_leaves_other_records_alone (agents : Agents) (now : string)
  (task : Task) (ws : gmap string Workflow) (other : string) :
  other <> task_id task ->
  apply_events now (fst (run_task agents task)) ws !! other = ws !! other.
Proof.
  intros Hne. apply (apply_events_elsewhere now (task_id task)); [exact Hne|].
  apply run_task_touches_only.
Qed.

Lemma job_leaves_other_records_alone_witness :
  "wf-2" <> task_id (SearchTask "wf-1" sample_request)
  /\ apply_events "2026-01-01T00:00:00"
       (fst (run_task two_paper_agents (SearchTask "wf-1" sample_request)))
       (WorkflowManager.create_workflow "2025-12-31T00:00:00" "wf-2" "processing" ∅)
     !! "wf-2"
     = WorkflowManager.create_workflow "2025-12-31T00:00:00" "wf-2" "processing" ∅
       !! "wf-2".
Proof.
  split; [discriminate|].
  apply (job_leaves_other_records_alone two_paper_agents "2026-01-01T00:00:00"
           (SearchTask "wf-1" sample_request)).
  discriminate.
Defined.


Lemma analysis_loop_success agents flow id total papers :
  forall topics summaries i,
    Forall2 (fun paper ts => classification agents paper = Ok ts) papers topics ->
    Forall2 (fun paper s => summarization agents paper = Ok s) papers summaries ->
    snd (analysis_loop agents flow id total i papers)
    = Ok (zip_with set_topics papers topics, topics, summaries).
Proof.
  induction papers as [|paper rest IH]; intros topics summaries i Hc Hs.
  - inversion Hc; inversion Hs; subst. reflexivity.
  - inversion Hc as [|? ts ? topics' Hc1 Hc2]; subst.
    inversion Hs as [|? s ? summaries' Hs1 Hs2]; subst.
    cbn [analysis_loop]. rewrite !snd_bind. cbn [update_workflow call snd].
    rewrite Hc1. rewrite snd_bind. cbn [call snd]. rewrite Hs1.
    rewrite snd_bind. rewrite (IH _ _ (S i) Hc2 Hs2). reflexivity.
Qed.











Lemma final_update_lookup now id kwargs evs (ws : gmap string Workflow) :
  is_Some (apply_events now evs ws !! id) ->
  exists record,
    apply_events now evs ws !! id = Some record
    /\ apply_events now (evs ++ [EvUpdate id kwargs]) ws !! id
       = Some (dict_update record kwargs).
Proof.
  intros [record Hr]. exists record. split; [exact Hr|].
  rewrite apply_events_app. unfold apply_events at 1.
  cbn [fold_left apply_event]. apply update_lookup. exact Hr.
Qed.

(** The payload of a run in which no agent raises. *)
Definition success_results (task : Task) (papers : list ResearchPaper)
  (topics : list (list string)) (summaries : list Summary)
  (synthesized : SynthesisDict) (audio_files : list string) : Results :=
  {| res_workflow_id := Some (task_id task);
     res_papers := map paper_dict (zip_with set_topics papers topics);
     res_papers_processed := Z.of_nat (length papers);
     res_summaries := summaries;
     res_classifications := topics;
     res_synthesis := synthesized;
     res_audio_files := map audio_url audio_files;
     res_status := "completed" |}.

(** X3. When the first stage returns a non-empty batch and no agent raises,
    the job ends with the record [completed] at progress 100 and a payload
    that holds, in batch order, one paper dict (with the classified
    topics), one classification and one summary per paper, the count of
    papers, the synthesis as the Synthesizer returned it, and the Narrator's
    artifacts as URLs. *)
Theorem successful_run_payload (agents : Agents) (now : string) (task : Task)
  (ws : gmap string Workflow) (papers : list ResearchPaper)
  (topics : list (list string)) (summaries : list Summary)
  (synthesized : SynthesisDict) (audio_files : list string) :
  first_stage_outcome agents task = Ok papers ->
  papers <> [] ->
  Forall2 (fun paper ts => classification agents paper = Ok ts) papers topics ->
  Forall2 (fun paper s => summarization agents paper = Ok s) papers summaries ->
  synthesis agents {| si_papers := zip_with set_topics papers topics;
                      si_classifications := topics;
                      si_summaries := summaries |} = Ok synthesized ->
  audio agents synthesized = Ok audio_files ->
  snd (run_task agents task) = Ok tt
  /\ exists record,
       apply_events now (fst (run_task agents task)) ws !! task_id task
       = Some record
       /\ wf_status record = "completed"
       /\ wf_progress record = 100
       /\ wf_message record = fl_done_message (task_flow task)
       /\ wf_results record
          = Some (ResultsOk (success_results task papers topics summaries
                               synthesized audio_files))
       /\ length (res_papers (success_results task papers topics summaries
                                synthesized audio_files)) = length papers.
Proof.
  intros Hfirst Hne Hc Hs Hsyn Haudio.
  split; [apply run_task_returns|].
  assert (Hrun : exists evs,
             fst (run_task agents task)
             = (EvCreate (task_id task) "processing" :: evs
                ++ [EvUpdate (task_id task)
                      (completed_update (fl_done_message (task_flow task))
                         (success_results task papers topics summaries
                            synthesized audio_files))])%list).
  { rewrite run_task_unfold, task_body_unfold.
    unfold background_body. cbv zeta.
    rewrite normalize_unfold, first_stage_unfold, Hfirst.
    destruct papers as [|paper rest]; [contradiction|].
    coord_step.
    pose proof (analysis_loop_success agents (task_flow task) (task_id task)
                  (length (paper :: rest)) (paper :: rest) topics summaries
                  0%nat Hc Hs) as Hloop.
    destruct (analysis_loop agents (task_flow task) (task_id task)
                (length (paper :: rest)) 0 (paper :: rest))
      as [evs_loop r]; cbn [snd] in Hloop; subst r.
    coord_step. rewrite Hsyn. coord_step. rewrite Haudio. coord_step.
    eexists (_ :: _ :: _ :: _ :: evs_loop ++ [_; _; _; _; _; _; _])%list.
    cbn [app]. rewrite <- app_assoc. cbn [app].
    unfold completed_update, success_results.
    rewrite length_zip_with_l_eq by (eapply Forall2_length; exact Hc).
    reflexivity. }
  destruct Hrun as [evs Hrun]. rewrite Hrun.
  destruct (final_update_lookup now (task_id task)
              (completed_update (fl_done_message (task_flow task))
                 (success_results task papers topics summaries synthesized
                    audio_files))
              (EvCreate (task_id task) "processing" :: evs) ws)
    as (record & _ & Hfinal).
  { rewrite apply_events_cons. apply apply_events_keeps. cbn [apply_event].
    rewrite create_lookup. eauto. }
  eexists. split; [exact Hfinal|].
  repeat split.
  unfold success_results. cbn [res_papers].
  rewrite length_map, length_zip_with.
  apply Forall2_length in Hc. lia.
Qed.

Lemma successful_run_payload_witness :
  let task := SearchTask "wf-1" sample_request in
  let papers := [sample_paper "1" "Graph Nets"; sample_paper "2" "Deep Sets"] in
  let topics := [sample_topics; sample_topics] in
  let summaries := map sample_summarizer papers in
  snd (run_task two_paper_agents task) = Ok tt
  /\ exists record,
       apply_events "2026-01-01T00:00:00" (fst (run_task two_paper_agents task)) ∅
         !! task_id task = Some record
       /\ wf_status record = "completed"
       /\ wf_progress record = 100
       /\ wf_message record = fl_done_message (task_flow task)
       /\ wf_results record
          = Some (ResultsOk (success_results task papers topics summaries
                               sample_synthesis ["audio/synthesis_1.mp3"]))
       /\ length (res_papers (success_results task papers topics summaries
                                sample_synthesis ["audio/synthesis_1.mp3"]))
          = length papers.
Proof.
  cbv zeta.
  apply (successful_run_payload two_paper_agents "2026-01-01T00:00:00"
           (SearchTask "wf-1" sample_request) ∅
           [sample_paper "1" "Graph Nets"; sample_paper "2" "Deep Sets"]
           [sample_topics; sample_topics]).
  - reflexivity.
  - discriminate.
  - repeat constructor.
  - repeat constructor.
  - reflexivity.
  - reflexivity.
Defined.

(** * Previews of a paper ([truncate_by_words], [paper_dict], [to_dict]) *)

(** ** Data models ([src/models/data_models.py]) *)

Module DataModels.

(** The dict [to_dict] returns and [from_dict] reads: a key may be
    missing. *)
Record PaperDict := mkPaperDict {
  d_id : option string;
  d_title : option string;
  d_authors : option (list string);
  d_abstract : option string;
  d_content : option string;
  d_doi : option string;
  d_url : option string;
  d_topics : option (list string)
}.

(** [ResearchPaper.to_dict]; its nested [truncate_by_words] is the function
    of [routes.py], line for line. *)
Definition to_dict (truncate_for_api : bool) (paper : ResearchPaper)
  : PaperDict :=
  let abstract_preview :=
    if truncate_for_api then truncate_by_words (p_abstract paper) 100
    else p_abstract paper in
  let content_preview :=
    if truncate_for_api
    then if Py.len (p_content paper) >? 150
         then Py.slice_to (p_content paper) 100 ++ "..."
         else p_content paper
    else p_content paper in
  {| d_id := Some (p_id paper);
     d_title := Some (p_title paper);
     d_authors := Some (p_authors paper);
     d_abstract := Some abstract_preview;
     d_content := Some content_preview;
     d_doi := Some (p_doi paper);
     d_url := Some (p_url paper);
     d_topics := Some (p_topics paper) |}.

(** [ResearchPaper.to_full_dict] *)
Definition to_full_dict (paper : ResearchPaper) : PaperDict :=
  to_dict false paper.

(** [ResearchPaper.from_dict]; [uuid] is the [str(uuid.uuid4())] of the
    default of ['id']. *)
Definition from_dict (uuid : string) (data : PaperDict) : ResearchPaper :=
  {| p_id := default uuid (d_id data);
     p_title := default "" (d_title data);
     p_authors := default [] (d_authors data);
     p_abstract := default "" (d_abstract data);
     p_content := default "" (d_content data);
     p_doi := default "" (d_doi data);
     p_url := default "" (d_url data);
     p_topics := default [] (d_topics data) |}.

End DataModels.

(** ** Words of a string *)

(** A word as [str.split()] returns it: not empty, no whitespace. *)
Definition nonspace (l : list ascii) : Prop :=
  forallb (fun c => negb (Py.isspace_char c)) l = true.

Definition wordlike (w : string) : Prop :=
  Py.chars w <> [] /\ nonspace (Py.chars w).

Lemma chars_str l : Py.chars (Py.str l) = l.
Proof. apply list_ascii_of_string_of_list_ascii. Qed.

Lemma str_chars s : Py.str (Py.chars s) = s.
Proof. apply string_of_list_ascii_of_string. Qed.

Lemma chars_app a b : Py.chars (a ++ b) = (Py.chars a ++ Py.chars b)%list.
Proof.
  unfold Py.chars. induction a as [|c a IH]; [reflexivity|].
  change (String c a ++ b) with (String c (a ++ b)).
  cbn [list_ascii_of_string app]. f_equal. exact IH.
Qed.

Lemma append_empty_r (s : string) : s ++ "" = s.
Proof.
  induction s as [|c s IH]; [reflexivity|].
  change (String c s ++ "") with (String c (s ++ "")). rewrite IH.
  reflexivity.
Qed.

Lemma nonspace_app l1 l2 : nonspace l1 -> nonspace l2 -> nonspace (l1 ++ l2).
Proof.
  unfold nonspace. intros H1 H2. rewrite forallb_app, H1, H2. reflexivity.
Qed.

Lemma nonspace_rev l : nonspace l -> nonspace (rev l).
Proof.
  unfold nonspace. intros H. apply forallb_forall. intros c Hc.
  apply in_rev in Hc. exact (proj1 (forallb_forall _ _) H c Hc).
Qed.

Lemma split_ws_aux_words l : forall cur,
  nonspace cur -> Forall wordlike (Py.split_ws_aux cur l).
Proof.
  assert (Hword : forall cur, cur <> [] -> nonspace cur ->
                    wordlike (Py.str (rev cur))).
  { intros cur Hne Hns. unfold wordlike. rewrite chars_str. split.
    - intros E. apply Hne. rewrite <- (rev_involutive cur), E. reflexivity.
    - apply nonspace_rev. exact Hns. }
  induction l as [|c l IH]; intros cur Hcur; cbn [Py.split_ws_aux].
  - destruct cur as [|x cur]; [constructor|].
    constructor; [apply Hword; [discriminate|exact Hcur]|constructor].
  - destruct (Py.isspace_char c) eqn:Hc.
    + destruct cur as [|x cur]; [apply IH; reflexivity|].
      constructor; [apply Hword; [discriminate|exact Hcur]|].
      apply IH. reflexivity.
    + apply IH. unfold nonspace. cbn [forallb]. rewrite Hc. exact Hcur.
Qed.

(** Every word of [s.split()] is non-empty and free of whitespace. *)
Lemma split_words s : Forall wordlike (Py.split s).
Proof. apply split_ws_aux_words. reflexivity. Qed.

Lemma split_ws_aux_read w : forall cur l,
  nonspace w ->
  Py.split_ws_aux cur (w ++ l) = Py.split_ws_aux (rev w ++ cur) l.
Proof.
  induction w as [|c w IH]; intros cur l Hw; [reflexivity|].
  unfold nonspace in Hw. cbn [forallb] in Hw.
  apply andb_prop in Hw as [Hc Hw]. apply negb_true_iff in Hc.
  cbn [app Py.split_ws_aux]. rewrite Hc, IH by exact Hw.
  cbn [rev]. rewrite <- app_assoc. reflexivity.
Qed.

Lemma split_ws_aux_read_all w cur :
  nonspace w -> Py.split_ws_aux cur w = Py.split_ws_aux (rev w ++ cur) [].
Proof.
  intros Hw. rewrite <- (app_nil_r w) at 1. apply split_ws_aux_read.
  exact Hw.
Qed.

Lemma chars_join_cons w w' ws :
  Py.chars (Py.join " " (w :: w' :: ws))
  = (Py.chars w ++ " "%char :: Py.chars (Py.join " " (w' :: ws)))%list.
Proof.
  unfold Py.join. cbn [String.concat]. rewrite !chars_app. reflexivity.
Qed.

(** Reading the join of words followed by more characters of the last
    word. *)
Lemma split_join_suffix ws : forall suffix,
  Forall wordlike ws -> ws <> [] -> nonspace suffix ->
  Py.split_ws_aux [] (Py.chars (Py.join " " ws) ++ suffix)
  = (removelast ws ++ [(List.last ws "" ++ Py.str suffix)%string])%list.
Proof.
  induction ws as [|w ws IH]; intros suffix Hws Hne Hs; [contradiction|].
  inversion Hws as [|? ? [Hw1 Hw2] Hws']; subst.
  destruct ws as [|w' ws].
  - unfold Py.join. cbn [String.concat removelast List.last app].
    rewrite split_ws_aux_read by exact Hw2. rewrite app_nil_r.
    rewrite split_ws_aux_read_all by exact Hs. cbn [Py.split_ws_aux].
    destruct (rev suffix ++ rev (Py.chars w))%list eqn:E.
    + apply app_eq_nil in E as [_ E]. exfalso. apply Hw1.
      rewrite <- (rev_involutive (Py.chars w)), E. reflexivity.
    + rewrite <- E, <- rev_app_distr, rev_involutive.
      f_equal. rewrite <- (str_chars (w ++ Py.str suffix)).
      rewrite chars_app, chars_str. reflexivity.
  - rewrite chars_join_cons, <- app_assoc.
    rewrite split_ws_aux_read by exact Hw2. rewrite app_nil_r.
    cbn [app Py.split_ws_aux].
    change (Py.isspace_char " ") with true. cbv iota.
    destruct (rev (Py.chars w)) eqn:E.
    + exfalso. apply Hw1. rewrite <- (rev_involutive (Py.chars w)), E.
      reflexivity.
    + rewrite <- E, rev_involutive, str_chars.
      rewrite IH by (assumption || discriminate). reflexivity.
Qed.

(** [' '.join(words).split()] gives the words back. *)
Lemma split_join ws :
  Forall wordlike ws -> Py.split (Py.join " " ws) = ws.
Proof.
  intros Hws. destruct ws as [|w ws]; [reflexivity|].
  unfold Py.split.
  rewrite <- (app_nil_r (Py.chars (Py.join " " (w :: ws)))).
  rewrite split_join_suffix by (assumption || discriminate || reflexivity).
  change (Py.str []) with "". rewrite append_empty_r.
  symmetry. apply app_removelast_last. discriminate.
Qed.

Lemma truthy_spec s : Py.truthy s = true <-> s <> "".
Proof.
  unfold Py.truthy. destruct (String.eqb_spec s ""); cbn; split;
    congruence.
Qed.

Lemma length_removelast {A} (l : list A) :
  length (removelast l) = (length l - 1)%nat.
Proof.
  induction l as [|x [|y l] IH]; cbn [removelast length] in *;
    [reflexivity | reflexivity | lia].
Qed.

(** The words of a text cut to [max_words] words. *)
Lemma truncated_words (words : list string) (n : nat) :
  Forall wordlike words -> (0 < n < length words)%nat ->
  length (Py.split (Py.join " " (firstn n words) ++ "...")) = n.
Proof.
  intros Hws Hn. unfold Py.split. rewrite chars_app.
  rewrite split_join_suffix.
  - rewrite length_app, length_removelast, length_firstn. cbn [length]. lia.
  - apply Forall_take. exact Hws.
  - intros E. apply (f_equal (@length string)) in E.
    rewrite length_firstn in E. cbn [length] in E. lia.
  - reflexivity.
Qed.

Lemma append_nonempty (a b : string) : b <> "" -> (a ++ b)%string <> "".
Proof.
  intros Hb E. apply (f_equal Py.len) in E. rewrite append_len in E.
  unfold Py.len in E. destruct b; [contradiction|]. cbn [String.length] in E.
  lia.
Qed.

Lemma truncate_by_words_cases (text : string) (max_words : nat) :
  (Py.truthy text = false /\ truncate_by_words text max_words = "")
  \/ (Py.truthy text = true
      /\ (max_words < length (Py.split text))%nat
      /\ truncate_by_words text max_words
         = Py.join " " (firstn max_words (Py.split text)) ++ "...")
  \/ (Py.truthy text = true
      /\ (length (Py.split text) <= max_words)%nat
      /\ truncate_by_words text max_words = text).
Proof.
  unfold truncate_by_words.
  destruct (Py.truthy text); cbn [negb]; [|left; split; reflexivity].
  cbv zeta. right.
  destruct (Nat.ltb_spec max_words (length (Py.split text)));
    [left|right]; repeat split; assumption.
Qed.

Lemma truncate_by_words_facts (text : string) (max_words : nat) :
  (length (Py.split (truncate_by_words text max_words))
   <= Nat.max max_words 1)%nat
  /\ truncate_by_words (truncate_by_words text max_words) max_words
     = truncate_by_words text max_words.
Proof.
  destruct (truncate_by_words_cases text max_words)
    as [[_ ->] | [(_ & Hlong & ->) | (Htext & Hshort & ->)]].
  - split; [|reflexivity].
    change (Py.split "") with (@nil string). cbn [length]. lia.
  - destruct max_words as [|n].
    { split; [|reflexivity].
      change (Py.split (Py.join " " (firstn 0 (Py.split text)) ++ "..."))
        with ["..."]. cbn [length]. lia. }
    pose proof (truncated_words (Py.split text) (S n) (split_words text))
      as Hcut.
    split; [rewrite Hcut; lia|].
    destruct (truncate_by_words_cases
                (Py.join " " (firstn (S n) (Py.split text)) ++ "...") (S n))
      as [[Hempty _] | [(_ & Hlonger & _) | (_ & _ & ->)]].
    + apply not_true_iff_false in Hempty. exfalso. apply Hempty.
      apply truthy_spec. apply append_nonempty. discriminate.
    + rewrite Hcut in Hlonger by lia. lia.
    + reflexivity.
  - split; [lia|].
    destruct (truncate_by_words_cases text max_words)
      as [[Hempty _] | [(_ & Hlong & _) | (_ & _ & ->)]];
      [congruence | lia | reflexivity].
Qed.

(** X4. [truncate_by_words] keeps at most [max_words] words (one word, the
    dots, when [max_words] is 0), and cutting a text that was already cut
    changes nothing. *)
Theorem truncate_by_words_keeps_max_words (text : string) (max_words : nat) :
  (length (Py.split (truncate_by_words text max_words))
   <= Nat.max max_words 1)%nat
  /\ truncate_by_words (truncate_by_words text max_words) max_words
     = truncate_by_words text max_words.
Proof. apply truncate_by_words_facts. Qed.

(** X5. The paper dict of a finished job is a bounded preview: its content
    has at most 150 characters, its abstract at most 100 words, the other
    fields are the paper's, and making the preview of a preview changes
    nothing. *)
Theorem paper_dict_is_bounded_preview (paper : ResearchPaper) :
  Py.len (p_content (paper_dict paper)) <= 150
  /\ (length (Py.split (p_abstract (paper_dict paper))) <= 100)%nat
  /\ (p_id (paper_dict paper), p_title (paper_dict paper),
      p_authors (paper_dict paper), p_doi (paper_dict paper),
      p_url (paper_dict paper), p_topics (paper_dict paper))
     = (p_id paper, p_title paper, p_authors paper, p_doi paper,
        p_url paper, p_topics paper)
  /\ paper_dict (paper_dict paper) = paper_dict paper.
Proof.
  assert (Hcontent :
            Py.len (if Py.len (p_content paper) >? 150
                    then Py.slice_to (p_content paper) 100 ++ "..."
                    else p_content paper) <= 150).
  { destruct (Z.gtb_spec (Py.len (p_content paper)) 150) as [Hlong|Hshort];
      [|lia].
    rewrite append_len, slice_to_len by lia. change (Py.len "...") with 3.
    lia. }
  destruct (truncate_by_words_facts (p_abstract paper) 100)
    as [Hwords Hagain].
  unfold paper_dict at 1 2 3 4 5 6 7 8 9.
  cbn [p_id p_title p_authors p_abstract p_content p_doi p_url p_topics].
  repeat split; [exact Hcontent | exact Hwords |].
  unfold paper_dict.
  cbn [p_id p_title p_authors p_abstract p_content p_doi p_url p_topics].
  rewrite Hagain. f_equal.
  destruct (Z.gtb_spec
              (Py.len (if Py.len (p_content paper) >? 150
                       then Py.slice_to (p_content paper) 100 ++ "..."
                       else p_content paper)) 150); [lia|reflexivity].
Qed.

(** X6. [from_dict] undoes [to_full_dict]: every field comes back and the
    fresh id of [from_dict] is not used. With truncation, [to_dict] holds
    the same eight values as the [paper_dict] the routes build by hand. *)
Theorem to_full_dict_round_trip (uuid : string) (paper : ResearchPaper) :
  DataModels.from_dict uuid (DataModels.to_full_dict paper) = paper
  /\ DataModels.from_dict uuid (DataModels.to_dict true paper)
     = paper_dict paper.
Proof. destruct paper. split; reflexivity. Qed.

(** * Chunks of a long text ([SummarizationAgent._chunk_text]) *)

Lemma string_append_assoc (a b c : string) :
  (a ++ (b ++ c))%string = ((a ++ b) ++ c)%string.
Proof.
  induction a as [|x a IH]; [reflexivity|].
  change (String x a ++ (b ++ c))%string with (String x (a ++ (b ++ c))).
  change ((String x a ++ b) ++ c)%string with (String x ((a ++ b) ++ c)).
  rewrite IH. reflexivity.
Qed.

Lemma join_snoc (cur : list string) (w : string) :
  cur <> [] ->
  Py.join " " (cur ++ [w]) = (Py.join " " cur ++ " " ++ w)%string.
Proof.
  unfold Py.join. induction cur as [|x cur IH]; intros Hne; [contradiction|].
  destruct cur as [|y cur]; [reflexivity|].
  change (String.concat " " ((x :: y :: cur) ++ [w])%list)
    with (x ++ " " ++ String.concat " " ((y :: cur) ++ [w])%list)%string.
  rewrite IH by discriminate.
  change (String.concat " " (x :: y :: cur))
    with (x ++ " " ++ String.concat " " (y :: cur))%string.
  rewrite <- !string_append_assoc. reflexivity.
Qed.

Lemma len_nonneg s : 0 <= Py.len s.
Proof. unfold Py.len. lia. Qed.

Lemma chunk_words_keeps_words max_len words : forall cur len,
  Forall wordlike words -> Forall wordlike cur ->
  concat (map Py.split (SummarizationAgent.chunk_words max_len words cur len))
  = (cur ++ words)%list.
Proof.
  induction words as [|word rest IH]; intros cur len Hws Hcur;
    cbn [SummarizationAgent.chunk_words].
  - destruct cur as [|x cur]; [reflexivity|].
    cbn [map concat]. rewrite split_join by exact Hcur.
    rewrite !app_nil_r. reflexivity.
  - inversion Hws as [|? ? Hw Hrest]; subst.
    destruct ((len + Py.len word + 1 >? max_len)
              && negb match cur with [] => true | _ :: _ => false end).
    + cbn [map concat]. rewrite split_join by exact Hcur.
      rewrite IH; [reflexivity | exact Hrest |].
      constructor; [exact Hw | constructor].
    + rewrite IH; [rewrite <- app_assoc; reflexivity | assumption |].
      apply Forall_app. split; [assumption|].
      constructor; [exact Hw | constructor].
Qed.

Lemma chunk_words_bound max_len (all : list string) words : forall cur len,
  (forall w, In w words -> In w all) ->
  (forall w, cur = [w] -> In w all) ->
  Py.len (Py.join " " cur) <= len ->
  ((2 <= length cur)%nat -> len <= max_len) ->
  Forall (fun chunk => In chunk all \/ Py.len chunk <= max_len)
         (SummarizationAgent.chunk_words max_len words cur len).
Proof.
  induction words as [|word rest IH]; intros cur len Hall Hone Hlen Hmax;
    cbn [SummarizationAgent.chunk_words].
  - destruct cur as [|x [|y cur]]; [constructor | |].
    + constructor; [left; apply Hone; reflexivity | constructor].
    + constructor; [right | constructor].
      specialize (Hmax ltac:(cbn [length]; lia)). lia.
  - assert (Hrest : forall w, In w rest -> In w all).
    { intros w Hw. apply Hall. right. exact Hw. }
    destruct (Z.gtb_spec (len + Py.len word + 1) max_len) as [Hover|Hfits];
      cbn [andb].
    + destruct cur as [|x cur]; cbn [negb].
      * apply IH; try assumption.
        -- intros w E. cbn [app] in E. injection E as <-. apply Hall.
           left. reflexivity.
        -- cbn [app]. unfold Py.join. cbn [String.concat].
           change (Py.len (Py.join " " [])) with 0 in Hlen. lia.
        -- cbn [app length]. lia.
      * constructor.
        -- destruct cur as [|y cur]; [left; apply Hone; reflexivity|].
           right. specialize (Hmax ltac:(cbn [length]; lia)). lia.
        -- apply IH; try assumption.
           ++ intros w E. injection E as <-. apply Hall. left. reflexivity.
           ++ unfold Py.join. cbn [String.concat]. lia.
           ++ cbn [length]. lia.
    + apply IH; try assumption.
      * intros w E. destruct cur as [|x cur].
        -- cbn [app] in E. injection E as <-. apply Hall. left. reflexivity.
        -- apply (f_equal (@length string)) in E.
           rewrite length_app in E. cbn [length] in E. lia.
      * destruct cur as [|x cur].
        -- cbn [app]. unfold Py.join. cbn [String.concat].
           pose proof (len_nonneg word).
           change (Py.len (Py.join " " [])) with 0 in Hlen. lia.
        -- rewrite join_snoc by discriminate. rewrite !append_len.
           change (Py.len " ") with 1. lia.
      * intros _. destruct cur as [|x cur].
        -- change (Py.len (Py.join " " [])) with 0 in Hlen. lia.
        -- lia.
Qed.

(** X7. [_chunk_text] loses no word and reorders none: the words of its
    chunks, read in order, are the words of the text. Every chunk is at
    most [max_length] characters long, unless it is one single word of the
    text. *)
Theorem chunk_text_keeps_words_within_limit (text : string) (max_len : Z) :
  concat (map Py.split (SummarizationAgent._chunk_text text max_len))
  = Py.split text
  /\ Forall (fun chunk => In chunk (Py.split text) \/ Py.len chunk <= max_len)
            (SummarizationAgent._chunk_text text max_len).
Proof.
  unfold SummarizationAgent._chunk_text. split.
  - rewrite chunk_words_keeps_words by (apply split_words || constructor).
    reflexivity.
  - apply chunk_words_bound.
    + intros w Hw. exact Hw.
    + discriminate.
    + change (Py.len (Py.join " " [])) with 0. lia.
    + cbn [length]. lia.
Qed.

(** * The orchestrator's own pipelines ([src/services/orchestrator.py]) *)

(** The dict returned by the upload and the tracked pipelines. It has no
    ['papers_processed'] and no ['status']; the other keys depend on the
    branch. *)
Record PipelineDict := mkPipelineDict {
  out_workflow_id : option string;
  out_papers : list DataModels.PaperDict;
  out_classifications : option (list (list string));
  out_summaries : option (list Summary);
  out_synthesis : option SynthesisDict;
  out_audio_files : option (list string);
  out_message : option string
}.

(** What [process_research_request] returns: the dict of the search
    pipeline or the dict of the upload pipeline. *)
Inductive DirectResult :=
| SearchResult (r : Results)
| UploadResult (d : PipelineDict).

(** [raise] *)
Definition raise {A} (e : string) : M A := ([], Raise e).

Definition invalid_request : string :=
  "Invalid request: must contain either 'search_query' or 'file_paths'".

(** [request.get('search_query')] and [request.get('file_paths')] as
    conditions. *)
Definition has_search_query (request : Request) : bool :=
  match req_search_query request with
  | Some q => Py.truthy q
  | None => false
  end.

Definition has_file_paths (request : Request) : bool :=
  match req_file_paths request with
  | [] => false
  | _ => true
  end.

Section Orchestrator.

Variable agents : Agents.

(** The classification loop: [paper.topics = classification] changes the
    paper the later loops read. *)
Fixpoint classify_all (papers : list ResearchPaper)
  : M (list ResearchPaper * list (list string)) :=
  match papers with
  | [] => ret ([], [])
  | paper :: rest =>
      (classification <- call (EvClassification paper)
                              (classification agents paper) ;;
       r <- classify_all rest ;;
       ret (set_topics paper classification :: fst r,
            classification :: snd r))%coord
  end.

(** The summarization loop. *)
Fixpoint summarize_all (papers : list ResearchPaper) : M (list Summary) :=
  match papers with
  | [] => ret []
  | paper :: rest =>
      (summary <- call (EvSummarization paper) (summarization agents paper) ;;
       summaries <- summarize_all rest ;;
       ret (summary :: summaries))%coord
  end.

(** [_continue_processing_pipeline_direct] *)
Definition _continue_processing_pipeline_direct (papers : list ResearchPaper)
  : M PipelineDict :=
  (r <- classify_all papers ;;
   let papers := fst r in
   let classifications := snd r in
   summaries <- summarize_all papers ;;
   let synthesis_input :=
     {| si_papers := papers;
        si_classifications := classifications;
        si_summaries := summaries |} in
   synthesis <- call (EvSynthesis synthesis_input)
                     (synthesis agents synthesis_input) ;;
   audio_files <- call (EvAudio synthesis) (audio agents synthesis) ;;
   ret {| out_workflow_id := None;
          out_papers := map (DataModels.to_dict true) papers;
          out_classifications := Some classifications;
          out_summaries := Some summaries;
          out_synthesis := Some synthesis;
          out_audio_files := Some audio_files;
          out_message := None |})%coord.

(** [_process_upload_request_direct] *)
Definition _process_upload_request_direct (request : Request)
  : M PipelineDict :=
  (papers <- call (EvExtraction request) (extraction agents request) ;;
   match papers with
   | [] =>
       ret {| out_workflow_id := None;
              out_papers := [];
              out_classifications := Some [];
              out_summaries := Some [];
              out_synthesis :=
                Some {| syn_synthesis := "No content extracted from files";
                        syn_topic_analysis := TA_absent;
                        syn_paper_count := None;
                        syn_methodology := None |};
              out_audio_files := Some [];
              out_message := None |}
   | _ => _continue_processing_pipeline_direct papers
   end)%coord.

(** [process_research_request]; its handler prints and raises again. *)
Definition process_research_request (request : Request) : M DirectResult :=
  try_except
    (if has_search_query request
     then (r <- _process_search_request_direct agents request ;;
           ret (SearchResult r))%coord
     else if has_file_paths request
     then (d <- _process_upload_request_direct request ;;
           ret (UploadResult d))%coord
     else raise invalid_request)
    (fun e => raise e).

(** [_continue_processing_pipeline] *)
Definition _continue_processing_pipeline (workflow_id : string)
  (papers : list ResearchPaper) : M PipelineDict :=
  (update_workflow workflow_id
     (kw_progress_message 30 "Classifying papers...") ;;;
   r <- classify_all papers ;;
   let papers := fst r in
   let classifications := snd r in
   update_workflow workflow_id
     (kw_progress_message 60 "Generating summaries...") ;;;
   summaries <- summarize_all papers ;;
   update_workflow workflow_id
     (kw_progress_message 80 "Synthesizing findings...") ;;;
   let synthesis_input :=
     {| si_papers := papers;
        si_classifications := classifications;
        si_summaries := summaries |} in
   synthesis <- call (EvSynthesis synthesis_input)
                     (synthesis agents synthesis_input) ;;
   update_workflow workflow_id
     (kw_progress_message 90 "Generating audio...") ;;;
   audio_files <- call (EvAudio synthesis) (audio agents synthesis) ;;
   ret {| out_workflow_id := Some workflow_id;
          out_papers := map (DataModels.to_dict true) papers;
          out_classifications := Some classifications;
          out_summaries := Some summaries;
          out_synthesis := Some synthesis;
          out_audio_files := Some audio_files;
          out_message := None |})%coord.

(** [_process_search_request]: after the discovery step its text is that
    of [_continue_processing_pipeline]. *)
Definition _process_search_request (workflow_id : string) (request : Request)
  : M PipelineDict :=
  (update_workflow workflow_id
     (kw_progress_message 10 "Searching for papers...") ;;;
   papers <- call (EvDiscovery request) (discovery agents request) ;;
   match papers with
   | [] =>
       ret {| out_workflow_id := Some workflow_id;
              out_papers := [];
              out_classifications := None;
              out_summaries := None;
              out_synthesis := None;
              out_audio_files := None;
              out_message := Some "No papers found" |}
   | _ =>
       update_workflow workflow_id
         (kw_progress_message 30 "Classifying papers...") ;;;
       r <- classify_all papers ;;
       let papers := fst r in
       let classifications := snd r in
       update_workflow workflow_id
         (kw_progress_message 60 "Generating summaries...") ;;;
       summaries <- summarize_all papers ;;
       update_workflow workflow_id
         (kw_progress_message 80 "Synthesizing findings...") ;;;
       let synthesis_input :=
         {| si_papers := papers;
            si_classifications := classifications;
            si_summaries := summaries |} in
       synthesis <- call (EvSynthesis synthesis_input)
                         (synthesis agents synthesis_input) ;;
       update_workflow workflow_id
         (kw_progress_message 90 "Generating audio...") ;;;
       audio_files <- call (EvAudio synthesis) (audio agents synthesis) ;;
       ret {| out_workflow_id := Some workflow_id;
              out_papers := map (DataModels.to_dict true) papers;
              out_classifications := Some classifications;
              out_summaries := Some summaries;
              out_synthesis := Some synthesis;
              out_audio_files := Some audio_files;
              out_message := None |}
   end)%coord.

(** [_process_upload_request] *)
Definition _process_upload_request (workflow_id : string) (request : Request)
  : M PipelineDict :=
  (update_workflow workflow_id
     (kw_progress_message 10 "Extracting content from files...") ;;;
   papers <- call (EvExtraction request) (extraction agents request) ;;
   match papers with
   | [] =>
       ret {| out_workflow_id := Some workflow_id;
              out_papers := [];
              out_classifications := None;
              out_summaries := None;
              out_synthesis := None;
              out_audio_files := None;
              out_message := Some "No content extracted from files" |}
   | _ => _continue_processing_pipeline workflow_id papers
   end)%coord.

(** What the handler of [process_research_request_with_workflow] writes. *)
Definition tracked_failure_update (e : string) : Kwargs :=
  {| kw_status := Some "failed";
     kw_progress := Some 0;
     kw_message := Some ("Processing failed: " ++ e);
     kw_results := None |}.

(** The guarded block of [process_research_request_with_workflow]. *)
Definition tracked_dispatch (workflow_id : string) (request : Request)
  : M PipelineDict :=
  if has_search_query request
  then _process_search_request workflow_id request
  else if has_file_paths request
  then _process_upload_request workflow_id request
  else raise invalid_request.

(** [process_research_request_with_workflow]: the handler marks the
    workflow and raises again. *)
Definition process_research_request_with_workflow (workflow_id : string)
  (request : Request) : M PipelineDict :=
  try_except
    (tracked_dispatch workflow_id request)
    (fun e =>
       (update_workflow workflow_id (tracked_failure_update e) ;;;
        raise e)%coord).

End Orchestrator.

(** ** Runs of the orchestrator's pipelines *)

Lemma classify_all_success agents papers : forall topics,
  Forall2 (fun paper ts => classification agents paper = Ok ts) papers topics ->
  classify_all agents papers
  = (map EvClassification papers,
     Ok (zip_with set_topics papers topics, topics)).
Proof.
  induction papers as [|paper rest IH]; intros topics H.
  - inversion H; subst. reflexivity.
  - inversion H as [|? ts ? topics' H1 H2]; subst.
    cbn [classify_all call]. rewrite H1. cbn [bind]. rewrite (IH _ H2).
    cbn [bind ret app fst snd map]. rewrite app_nil_r. reflexivity.
Qed.

Lemma summarize_all_success agents papers : forall summaries,
  Forall2 (fun paper s => summarization agents paper = Ok s) papers summaries ->
  summarize_all agents papers = (map EvSummarization papers, Ok summaries).
Proof.
  induction papers as [|paper rest IH]; intros summaries H.
  - inversion H; subst. reflexivity.
  - inversion H as [|? s ? summaries' H1 H2]; subst.
    cbn [summarize_all call]. rewrite H1. cbn [bind]. rewrite (IH _ H2).
    cbn [bind ret app fst snd map]. rewrite app_nil_r. reflexivity.
Qed.

(** X8. In the orchestrator's upload pipeline, when no agent raises, every
    paper is classified before the first one is summarized, the Summarizer
    and the Synthesizer receive the papers with their classified topics,
    and the Narrator's paths are returned as they are. *)
Theorem upload_pipeline_classifies_then_summarizes (agents : Agents)
  (papers : list ResearchPaper) (topics : list (list string))
  (summaries : list Summary) (synthesized : SynthesisDict)
  (audio_files : list string) :
  let classified := zip_with set_topics papers topics in
  let input := {| si_papers := classified;
                  si_classifications := topics;
                  si_summaries := summaries |} in
  Forall2 (fun paper ts => classification agents paper = Ok ts) papers topics ->
  Forall2 (fun paper s => summarization agents paper = Ok s)
          classified summaries ->
  synthesis agents input = Ok synthesized ->
  audio agents synthesized = Ok audio_files ->
  _continue_processing_pipeline_direct agents papers
  = ((map EvClassification papers ++ map EvSummarization classified
      ++ [EvSynthesis input; EvAudio synthesized])%list,
     Ok {| out_workflow_id := None;
           out_papers := map (DataModels.to_dict true) classified;
           out_classifications := Some topics;
           out_summaries := Some summaries;
           out_synthesis := Some synthesized;
           out_audio_files := Some audio_files;
           out_message := None |})
  /\ forall workflow_id,
       agent_calls (fst (_continue_processing_pipeline agents workflow_id
                           papers))
       = fst (_continue_processing_pipeline_direct agents papers).
Proof.
  cbv zeta. intros Hc Hs Hsyn Haudio.
  assert (Hdirect :
            _continue_processing_pipeline_direct agents papers
            = ((map EvClassification papers
                ++ map EvSummarization (zip_with set_topics papers topics)
                ++ [EvSynthesis
                      {| si_papers := zip_with set_topics papers topics;
                         si_classifications := topics;
                         si_summaries := summaries |};
                    EvAudio synthesized])%list,
               Ok {| out_workflow_id := None;
                     out_papers :=
                       map (DataModels.to_dict true)
                           (zip_with set_topics papers topics);
                     out_classifications := Some topics;
                     out_summaries := Some summaries;
                     out_synthesis := Some synthesized;
                     out_audio_files := Some audio_files;
                     out_message := None |})).
  { unfold _continue_processing_pipeline_direct.
    rewrite (classify_all_success _ _ _ Hc). cbn [bind fst snd].
    rewrite (summarize_all_success _ _ _ Hs). cbn [bind call fst snd].
    rewrite Hsyn. cbn [bind call]. rewrite Haudio. cbn [ret app].
    rewrite ?app_nil_r, <- ?app_assoc. reflexivity. }
  split; [exact Hdirect|].
  intros workflow_id. rewrite Hdirect. cbn [fst].
  unfold _continue_processing_pipeline.
  cbn [bind update_workflow]. rewrite (classify_all_success _ _ _ Hc).
  cbn [bind fst snd update_workflow].
  rewrite (summarize_all_success _ _ _ Hs).
  cbn [bind call fst snd update_workflow].
  rewrite Hsyn. cbn [bind call update_workflow]. rewrite Haudio.
  cbn [ret app fst]. rewrite ?app_nil_r.
  assert (Hcalls : forall (A : Type) (ev : A -> Event) (l : list A),
             (forall a, is_agent_call (ev a) = true) ->
             List.filter is_agent_call (map ev l) = map ev l).
  { intros A ev l Hev. induction l as [|a l IH]; [reflexivity|].
    cbn [map List.filter]. rewrite Hev, IH. reflexivity. }
  unfold agent_calls.
  repeat first [ rewrite List.filter_app
               | rewrite Hcalls by reflexivity
               | progress cbn [List.filter is_agent_call app] ].
  rewrite <- ?app_assoc. reflexivity.
Qed.

Definition sample_batch : list ResearchPaper :=
  [sample_paper "1" "Graph Nets"; sample_paper "2" "Deep Sets"].

Lemma upload_pipeline_classifies_then_summarizes_witness :
  let classified := zip_with set_topics sample_batch [sample_topics; sample_topics] in
  let summaries := map sample_summarizer classified in
  let input := {| si_papers := classified;
                  si_classifications := [sample_topics; sample_topics];
                  si_summaries := summaries |} in
  _continue_processing_pipeline_direct two_paper_agents sample_batch
  = ((map EvClassification sample_batch ++ map EvSummarization classified
      ++ [EvSynthesis input; EvAudio sample_synthesis])%list,
     Ok {| out_workflow_id := None;
           out_papers := map (DataModels.to_dict true) classified;
           out_classifications := Some [sample_topics; sample_topics];
           out_summaries := Some summaries;
           out_synthesis := Some sample_synthesis;
           out_audio_files := Some ["audio/synthesis_1.mp3"];
           out_message := None |})
  /\ forall workflow_id,
       agent_calls (fst (_continue_processing_pipeline two_paper_agents
                           workflow_id sample_batch))
       = fst (_continue_processing_pipeline_direct two_paper_agents
                sample_batch).
Proof.
  cbv zeta.
  apply (upload_pipeline_classifies_then_summarizes two_paper_agents
           sample_batch [sample_topics; sample_topics]).
  - repeat constructor.
  - repeat constructor.
  - reflexivity.
  - reflexivity.
Defined.

(** ** The tracked pipelines and the registry *)

(** A call that leaves the status and the payload of every record as they
    are: an agent call, or an update that names neither. *)
Definition keeps_status (ev : Event) : Prop :=
  match ev with
  | EvCreate _ _ => False
  | EvUpdate _ kwargs => kw_status kwargs = None /\ kw_results kwargs = None
  | _ => True
  end.

Lemma keeps_status_apply now evs : forall (ws : gmap string Workflow) id w,
  Forall keeps_status evs ->
  ws !! id = Some w ->
  exists w',
    apply_events now evs ws !! id = Some w'
    /\ wf_status w' = wf_status w
    /\ wf_results w' = wf_results w.
Proof.
  induction evs as [|ev evs IH]; intros ws id w Hevs Hw.
  - exists w. repeat split. exact Hw.
  - inversion Hevs as [|? ? Hev Hrest]; subst. rewrite apply_events_cons.
    assert (Hstep : exists w1, apply_event now ev ws !! id = Some w1
                               /\ wf_status w1 = wf_status w
                               /\ wf_results w1 = wf_results w).
    { destruct ev; cbn [apply_event keeps_status] in *;
        try (exists w; repeat split; exact Hw); [contradiction|].
      destruct Hev as [Hst Hres].
      destruct (String.eqb_spec workflow_id id) as [->|Hne].
      - rewrite (update_lookup _ _ _ _ Hw). eexists. split; [reflexivity|].
        unfold dict_update. cbn [wf_status wf_results].
        rewrite Hst, Hres. split; reflexivity.
      - rewrite update_other by exact Hne. exists w. repeat split. exact Hw. }
    destruct Hstep as (w1 & Hw1 & Hs1 & Hr1).
    destruct (IH _ id w1 Hrest Hw1) as (w' & Hw' & Hs' & Hr').
    exists w'. repeat split; congruence.
Qed.

Lemma classify_all_keeps_status agents papers :
  Forall keeps_status (fst (classify_all agents papers)).
Proof.
  induction papers as [|paper rest IH]; [constructor|].
  cbn [classify_all]. rewrite fst_bind. cbn [call fst snd].
  apply Forall_app. split; [repeat constructor|].
  destruct (classification agents paper); [|constructor].
  rewrite fst_bind. apply Forall_app. split; [exact IH|].
  destruct (snd (classify_all agents rest)); constructor.
Qed.

Lemma summarize_all_keeps_status agents papers :
  Forall keeps_status (fst (summarize_all agents papers)).
Proof.
  induction papers as [|paper rest IH]; [constructor|].
  cbn [summarize_all]. rewrite fst_bind. cbn [call fst snd].
  apply Forall_app. split; [repeat constructor|].
  destruct (summarization agents paper); [|constructor].
  rewrite fst_bind. apply Forall_app. split; [exact IH|].
  destruct (snd (summarize_all agents rest)); constructor.
Qed.

(** The calls of a tracked pipeline: none names a status or a payload, and
    a run that returns ends with the update to 90 and the Narrator's
    call. *)
Lemma continue_pipeline_shape agents workflow_id papers :
  Forall keeps_status
         (fst (_continue_processing_pipeline agents workflow_id papers))
  /\ forall d,
       snd (_continue_processing_pipeline agents workflow_id papers) = Ok d ->
       exists pre synthesized,
         fst (_continue_processing_pipeline agents workflow_id papers)
         = (pre ++ [EvUpdate workflow_id
                      (kw_progress_message 90 "Generating audio...");
                    EvAudio synthesized])%list.
Proof.
  unfold _continue_processing_pipeline.
  pose proof (classify_all_keeps_status agents papers) as Hc.
  destruct (classify_all agents papers) as [evs_c [r|e]]; cbn [fst] in Hc;
    cbn [bind update_workflow fst snd app];
    [|split; [constructor; [split; reflexivity | exact Hc] | discriminate]].
  pose proof (summarize_all_keeps_status agents (fst r)) as Hs.
  destruct (summarize_all agents (fst r)) as [evs_s [summaries|e]];
    cbn [fst] in Hs; cbn [bind update_workflow call fst snd app].
  2: { split; [|discriminate]. constructor; [split; reflexivity|].
       apply Forall_app. split; [exact Hc|].
       constructor; [split; reflexivity | exact Hs]. }
  destruct (synthesis agents _) as [synthesized|e];
    cbn [bind update_workflow call fst snd app].
  2: { split; [|discriminate]. constructor; [split; reflexivity|].
       apply Forall_app. split; [exact Hc|].
       constructor; [split; reflexivity|].
       apply Forall_app. split; [exact Hs|].
       repeat constructor. }
  assert (Hall : forall tail, Forall keeps_status tail ->
            Forall keeps_status
              (EvUpdate workflow_id (kw_progress_message 30 "Classifying papers...")
               :: evs_c
               ++ EvUpdate workflow_id
                    (kw_progress_message 60 "Generating summaries...")
               :: evs_s
               ++ EvUpdate workflow_id
                    (kw_progress_message 80 "Synthesizing findings...")
               :: EvSynthesis
                    {| si_papers := fst r;
                       si_classifications := snd r;
                       si_summaries := summaries |}
               :: EvUpdate workflow_id
                    (kw_progress_message 90 "Generating audio...")
               :: tail)%list).
  { intros tail Htail. constructor; [split; reflexivity|].
    apply Forall_app. split; [exact Hc|].
    constructor; [split; reflexivity|].
    apply Forall_app. split; [exact Hs|].
    constructor; [split; reflexivity|]. constructor; [exact I|].
    constructor; [split; reflexivity | exact Htail]. }
  destruct (audio agents synthesized) as [audio_files|e];
    cbn [ret fst snd app]; rewrite ?app_nil_r.
  - split; [apply Hall; repeat constructor|].
    intros d _.
    exists (EvUpdate workflow_id (kw_progress_message 30 "Classifying papers...")
            :: evs_c
            ++ EvUpdate workflow_id
                 (kw_progress_message 60 "Generating summaries...")
            :: evs_s
            ++ [EvUpdate workflow_id
                  (kw_progress_message 80 "Synthesizing findings...");
                EvSynthesis
                  {| si_papers := fst r;
                     si_classifications := snd r;
                     si_summaries := summaries |}])%list, synthesized.
    cbn [app]. rewrite <- !app_assoc. cbn [app]. rewrite <- !app_assoc.
    reflexivity.
  - split; [apply Hall; repeat constructor | discriminate].
Qed.

Lemma process_search_request_unfold agents workflow_id request :
  _process_search_request agents workflow_id request
  = (update_workflow workflow_id
       (kw_progress_message 10 "Searching for papers...") ;;;
     papers <- call (EvDiscovery request) (discovery agents request) ;;
     match papers with
     | [] =>
         ret {| out_workflow_id := Some workflow_id;
                out_papers := [];
                out_classifications := None;
                out_summaries := None;
                out_synthesis := None;
                out_audio_files := None;
                out_message := Some "No papers found" |}
     | _ => _continue_processing_pipeline agents workflow_id papers
     end)%coord.
Proof.
  unfold _process_search_request, _continue_processing_pipeline.
  destruct (discovery agents request) as [[|paper rest]|e]; reflexivity.
Qed.

(** The same for the guarded block of the tracked entry point: a run that
    returns ends with an update to 10 or to 90 and one agent call. *)
Lemma tracked_dispatch_shape agents workflow_id request :
  Forall keeps_status (fst (tracked_dispatch agents workflow_id request))
  /\ forall d,
       snd (tracked_dispatch agents workflow_id request) = Ok d ->
       exists pre progress message ev,
         fst (tracked_dispatch agents workflow_id request)
         = (pre ++ [EvUpdate workflow_id (kw_progress_message progress message);
                    ev])%list
         /\ (progress = 10 \/ progress = 90)
         /\ is_agent_call ev = true.
Proof.
  assert (Hstage : forall ev (found : result (list ResearchPaper)) message empty,
            is_agent_call ev = true ->
            let run :=
              (update_workflow workflow_id (kw_progress_message 10 message) ;;;
               papers <- call ev found ;;
               match papers with
               | [] => ret empty
               | _ => _continue_processing_pipeline agents workflow_id papers
               end)%coord in
            Forall keeps_status (fst run)
            /\ forall d, snd run = Ok d ->
                 exists pre progress message ev,
                   fst run
                   = (pre ++ [EvUpdate workflow_id
                                (kw_progress_message progress message);
                              ev])%list
                   /\ (progress = 10 \/ progress = 90)
                   /\ is_agent_call ev = true).
  { intros ev found message empty Hev. cbv zeta.
    assert (Hk : keeps_status ev) by (destruct ev; try exact I; discriminate).
    destruct found as [[|paper rest]|e];
      cbn [bind update_workflow call ret fst snd app].
    - split; [repeat constructor; exact Hk|].
      intros d _. exists [], 10, message, ev. repeat split; auto.
    - destruct (continue_pipeline_shape agents workflow_id (paper :: rest))
        as [Hkeeps Hshape].
      destruct (_continue_processing_pipeline agents workflow_id
                  (paper :: rest)) as [evs [d'|e]]; cbn [fst snd] in *.
      + split; [repeat constructor; [exact Hk | exact Hkeeps]|].
        intros d _. destruct (Hshape d' eq_refl) as (pre & synthesized & ->).
        exists (EvUpdate workflow_id (kw_progress_message 10 message)
                :: ev :: pre)%list, 90, "Generating audio...",
               (EvAudio synthesized).
        repeat split; auto.
      + split; [repeat constructor; [exact Hk | exact Hkeeps] | discriminate].
    - split; [repeat constructor; exact Hk | discriminate]. }
  unfold tracked_dispatch.
  destruct (has_search_query request).
  - rewrite process_search_request_unfold. apply Hstage. reflexivity.
  - destruct (has_file_paths request).
    + unfold _process_upload_request. apply Hstage. reflexivity.
    + split; [constructor | discriminate].
Qed.

(** X9. A run of [process_research_request_with_workflow] that returns
    never marks the workflow as finished: the record keeps the status and
    the payload it had before, at a progress of 10 (nothing found) or 90;
    the results are only returned to the caller. *)
Theorem tracked_run_never_marks_completion (agents : Agents) (now : string)
  (workflow_id : string) (request : Request) (ws : gmap string Workflow)
  (w : Workflow) (d : PipelineDict) :
  ws !! workflow_id = Some w ->
  snd (process_research_request_with_workflow agents workflow_id request)
  = Ok d ->
  exists w',
    apply_events now
      (fst (process_research_request_with_workflow agents workflow_id request))
      ws !! workflow_id = Some w'
    /\ wf_status w' = wf_status w
    /\ wf_results w' = wf_results w
    /\ (wf_progress w' = 10 \/ wf_progress w' = 90).
Proof.
  intros Hw Hok. unfold process_research_request_with_workflow in *.
  destruct (tracked_dispatch_shape agents workflow_id request)
    as [Hkeeps Hshape].
  destruct (tracked_dispatch agents workflow_id request) as [evs [d'|e]];
    cbn [try_except bind update_workflow raise fst snd] in *;
    [|discriminate].
  destruct (Hshape d' eq_refl) as (pre & progress & message & ev & -> & Hp & Hev).
  apply Forall_app in Hkeeps as [Hpre _].
  destruct (keeps_status_apply now pre ws workflow_id w Hpre Hw)
    as (w1 & Hw1 & Hs1 & Hr1).
  exists (dict_update w1 (kw_progress_message progress message)).
  rewrite apply_events_app. unfold apply_events at 1.
  cbn [fold_left apply_event].
  assert (Hcall : forall ws', apply_event now ev ws' = ws').
  { intros ws'. destruct ev; try reflexivity; discriminate. }
  rewrite Hcall, (update_lookup _ _ _ _ Hw1).
  unfold dict_update, kw_progress_message.
  cbn [wf_status wf_results wf_progress kw_status kw_results kw_progress
       default from_option]. unfold id.
  repeat split; assumption.
Qed.

Definition sample_search_request : Request :=
  {| req_search_query := Some "graph neural networks";
     req_query := None;
     req_file_paths := ["uploads/notes.txt"];
     req_topics := [] |}.

Definition sample_pending_record : Workflow :=
  {| wf_id := "wf-1";
     wf_status := "pending";
     wf_progress := 0;
     wf_message := "Workflow created";
     wf_created_at := "2026-01-01T00:00:00";
     wf_results := None |}.

Lemma tracked_run_never_marks_completion_witness :
  let ws := WorkflowManager.create_workflow "2026-01-01T00:00:00" "wf-1"
              "pending" ∅ in
  exists w',
    apply_events "2026-01-01T00:00:05"
      (fst (process_research_request_with_workflow two_paper_agents "wf-1"
              sample_search_request))
      ws !! "wf-1" = Some w'
    /\ wf_status w' = "pending"
    /\ wf_results w' = None
    /\ (wf_progress w' = 10 \/ wf_progress w' = 90).
Proof.
  cbv zeta.
  eapply (tracked_run_never_marks_completion two_paper_agents
            "2026-01-01T00:00:05" "wf-1" sample_search_request
            (WorkflowManager.create_workflow "2026-01-01T00:00:00" "wf-1"
               "pending" ∅) sample_pending_record).
  - apply create_lookup.
  - reflexivity.
Defined.

(** X10. When the guarded block of
    [process_research_request_with_workflow] raises, the method writes the
    failure to the record (status [failed], progress 0, the text of the
    exception in the message, the payload untouched) and then raises the
    same exception to its caller. *)
Theorem tracked_failure_is_marked_and_raised (agents : Agents) (now : string)
  (workflow_id : string) (request : Request) (ws : gmap string Workflow)
  (w : Workflow) (e : string) :
  ws !! workflow_id = Some w ->
  snd (tracked_dispatch agents workflow_id request) = Raise e ->
  process_research_request_with_workflow agents workflow_id request
  = ((fst (tracked_dispatch agents workflow_id request)
      ++ [EvUpdate workflow_id (tracked_failure_update e)])%list, Raise e)
  /\ exists w',
       apply_events now
         (fst (process_research_request_with_workflow agents workflow_id
                 request))
         ws !! workflow_id = Some w'
       /\ wf_status w' = "failed"
       /\ wf_progress w' = 0
       /\ wf_message w' = "Processing failed: " ++ e
       /\ wf_results w' = wf_results w.
Proof.
  intros Hw Hraise. unfold process_research_request_with_workflow.
  destruct (tracked_dispatch_shape agents workflow_id request) as [Hkeeps _].
  destruct (tracked_dispatch agents workflow_id request) as [evs [d|e']];
    cbn [fst snd] in *; [discriminate|].
  injection Hraise as ->.
  cbn [try_except bind update_workflow raise fst snd app].
  split; [reflexivity|].
  destruct (keeps_status_apply now evs ws workflow_id w Hkeeps Hw)
    as (w1 & Hw1 & _ & Hr1).
  exists (dict_update w1 (tracked_failure_update e)).
  rewrite apply_events_app. unfold apply_events at 1.
  cbn [fold_left apply_event]. rewrite (update_lookup _ _ _ _ Hw1).
  repeat split. exact Hr1.
Qed.

Lemma tracked_failure_is_marked_and_raised_witness :
  let ws := WorkflowManager.create_workflow "2026-01-01T00:00:00" "wf-1"
              "pending" ∅ in
  let run := process_research_request_with_workflow failing_synthesis_agents
               "wf-1" sample_search_request in
  exists e,
    snd run = Raise e
    /\ exists w',
         apply_events "2026-01-01T00:00:05" (fst run) ws !! "wf-1" = Some w'
         /\ wf_status w' = "failed"
         /\ wf_progress w' = 0
         /\ wf_message w' = "Processing failed: " ++ e
         /\ wf_results w' = None.
Proof.
  cbv zeta.
  destruct (tracked_dispatch failing_synthesis_agents "wf-1"
              sample_search_request) as [evs [d|e]] eqn:Hrun;
    [vm_compute in Hrun; discriminate|].
  exists e.
  destruct (tracked_failure_is_marked_and_raised failing_synthesis_agents
              "2026-01-01T00:00:05" "wf-1" sample_search_request
              (WorkflowManager.create_workflow "2026-01-01T00:00:00" "wf-1"
                 "pending" ∅)
              sample_pending_record e)
    as [Hrun' Hrecord].
  - apply create_lookup.
  - rewrite Hrun. reflexivity.
  - split; [rewrite Hrun'; reflexivity | exact Hrecord].
Defined.

(** ** Dispatch of a request *)

Definition is_extraction (ev : Event) : bool :=
  match ev with EvExtraction _ => true | _ => false end.

Definition is_discovery (ev : Event) : bool :=
  match ev with EvDiscovery _ => true | _ => false end.

Lemma classify_all_events agents papers :
  Forall (fun ev => is_extraction ev = false /\ is_discovery ev = false)
         (fst (classify_all agents papers)).
Proof.
  induction papers as [|paper rest IH]; [constructor|].
  cbn [classify_all]. rewrite fst_bind. cbn [call fst snd].
  apply Forall_app. split; [repeat constructor|].
  destruct (classification agents paper); [|constructor].
  rewrite fst_bind. apply Forall_app. split; [exact IH|].
  destruct (snd (classify_all agents rest)); constructor.
Qed.

Lemma summarize_all_events agents papers :
  Forall (fun ev => is_extraction ev = false /\ is_discovery ev = false)
         (fst (summarize_all agents papers)).
Proof.
  induction papers as [|paper rest IH]; [constructor|].
  cbn [summarize_all]. rewrite fst_bind. cbn [call fst snd].
  apply Forall_app. split; [repeat constructor|].
  destruct (summarization agents paper); [|constructor].
  rewrite fst_bind. apply Forall_app. split; [exact IH|].
  destruct (snd (summarize_all agents rest)); constructor.
Qed.

Lemma direct_loop_events agents papers :
  Forall (fun ev => is_extraction ev = false /\ is_discovery ev = false)
         (fst (direct_loop agents papers)).
Proof.
  induction papers as [|paper rest IH]; [constructor|].
  cbn [direct_loop]. rewrite fst_bind. cbn [call fst snd].
  apply Forall_app. split; [repeat constructor|].
  destruct (classification agents paper) as [topics|e]; [|constructor].
  cbv zeta. rewrite fst_bind. cbn [call fst snd].
  apply Forall_app. split; [repeat constructor|].
  destruct (summarization agents (set_topics paper topics)); [|constructor].
  rewrite fst_bind. apply Forall_app. split; [exact IH|].
  destruct (snd (direct_loop agents rest)); constructor.
Qed.

Lemma continue_direct_events agents papers :
  Forall (fun ev => is_extraction ev = false /\ is_discovery ev = false)
         (fst (_continue_processing_pipeline_direct agents papers)).
Proof.
  unfold _continue_processing_pipeline_direct.
  pose proof (classify_all_events agents papers) as Hc.
  destruct (classify_all agents papers) as [evs_c [r|e]]; cbn [fst] in Hc;
    cbn [bind fst snd]; [|exact Hc].
  pose proof (summarize_all_events agents (fst r)) as Hs.
  destruct (summarize_all agents (fst r)) as [evs_s [summaries|e]];
    cbn [fst] in Hs; cbn [bind call fst snd];
    [|apply Forall_app; split; assumption].
  destruct (synthesis agents _) as [synthesized|e]; cbn [bind call fst snd].
  - destruct (audio agents synthesized); cbn [ret fst app];
      repeat (apply Forall_app; split; try assumption);
      repeat constructor.
  - repeat (apply Forall_app; split; try assumption); repeat constructor.
Qed.

Lemma try_except_reraise {A} (body : M A) :
  try_except body (fun e => raise e) = body.
Proof.
  destruct body as [evs [a|e]]; cbn [try_except raise]; [reflexivity|].
  rewrite app_nil_r. reflexivity.
Qed.

(** X11. [process_research_request] decides by the request alone. With a
    non-empty ['search_query'] it runs the search pipeline and the
    Extractor is never called, whatever ['file_paths'] holds. Without one
    and with files it runs the upload pipeline and the Source is never
    called. With neither it raises the error of an invalid request having
    called no agent. *)
Theorem request_dispatch (agents : Agents) (request : Request) :
  let run := process_research_request agents request in
  (has_search_query request = true ->
   fst run = fst (_process_search_request_direct agents request)
   /\ Forall (fun ev => is_extraction ev = false) (fst run))
  /\ (has_search_query request = false -> has_file_paths request = true ->
      fst run = fst (_process_upload_request_direct agents request)
      /\ Forall (fun ev => is_discovery ev = false) (fst run))
  /\ (has_search_query request = false -> has_file_paths request = false ->
      run = ([], Raise invalid_request)).
Proof.
  cbv zeta. unfold process_research_request. rewrite try_except_reraise.
  split; [intros H; split | split; [intros H H0; split | intros H H0]].
  - rewrite H. rewrite fst_bind.
    destruct (snd (_process_search_request_direct agents request));
      cbn [ret fst]; rewrite app_nil_r; reflexivity.
  - rewrite H. rewrite fst_bind.
    assert (Hsearch : Forall (fun ev => is_extraction ev = false)
                        (fst (_process_search_request_direct agents request))).
    { unfold _process_search_request_direct. rewrite fst_bind.
      cbn [call fst snd]. apply Forall_app. split; [repeat constructor|].
      destruct (discovery agents request) as [[|paper rest]|e];
        [constructor | | constructor].
      rewrite fst_bind. 
      pose proof (direct_loop_events agents (paper :: rest)) as Hloop.
      apply Forall_app. split.
      - eapply Forall_impl; [exact Hloop|]. intros ev [Hev _]. exact Hev.
      - destruct (snd (direct_loop agents (paper :: rest))) as [r|e];
          [|constructor].
        cbv zeta. rewrite fst_bind. cbn [call fst snd].
        apply Forall_app. split; [repeat constructor|].
        destruct (synthesis agents _) as [synthesized|e]; [|constructor].
        rewrite fst_bind. cbn [call fst snd]. apply Forall_app.
        split; [repeat constructor|].
        destruct (audio agents synthesized); constructor. }
    apply Forall_app. split; [exact Hsearch|].
    destruct (snd (_process_search_request_direct agents request));
      constructor.
  - rewrite H, H0. rewrite fst_bind.
    destruct (snd (_process_upload_request_direct agents request));
      cbn [ret fst]; rewrite app_nil_r; reflexivity.
  - rewrite H, H0. rewrite fst_bind.
    assert (Hupload : Forall (fun ev => is_discovery ev = false)
                        (fst (_process_upload_request_direct agents request))).
    { unfold _process_upload_request_direct. rewrite fst_bind.
      cbn [call fst snd]. apply Forall_app. split; [repeat constructor|].
      destruct (extraction agents request) as [[|paper rest]|e];
        [constructor | | constructor].
      eapply Forall_impl; [apply continue_direct_events|].
      intros ev [_ Hev]. exact Hev. }
    apply Forall_app. split; [exact Hupload|].
    destruct (snd (_process_upload_request_direct agents request));
      constructor.
  - rewrite H, H0. reflexivity.
Qed.

(** * Sorting ([sorted], [list.sort], [Counter.most_common]) *)

Lemma insert_by_perm {A} (precedes : A -> A -> bool) (x : A) (l : list A) :
  Permutation (Py.insert_by precedes x l) (x :: l).
Proof.
  induction l as [|y l IH]; cbn [Py.insert_by]; [reflexivity|].
  destruct (precedes y x); [|reflexivity].
  rewrite IH. apply perm_swap.
Qed.

(** A sort keeps the elements. *)
Lemma sort_by_perm {A} (precedes : A -> A -> bool) (l : list A) :
  Permutation (Py.sort_by precedes l) l.
Proof.
  unfold Py.sort_by. induction l as [|x l IH]; cbn [fold_right];
    [reflexivity|].
  rewrite insert_by_perm, IH. reflexivity.
Qed.

Lemma sort_by_length {A} (precedes : A -> A -> bool) (l : list A) :
  length (Py.sort_by precedes l) = length l.
Proof. apply Permutation_length, sort_by_perm. Qed.

(** Sorted by a key in [Z], largest first. *)
Fixpoint descending {A} (key : A -> Z) (l : list A) : Prop :=
  match l with
  | [] => True
  | x :: l' => Forall (fun y => key y <= key x) l' /\ descending key l'
  end.

Lemma insert_by_descending {A} (key : A -> Z) (x : A) (l : list A) :
  descending key l ->
  descending key (Py.insert_by (fun y x => key x <? key y) x l).
Proof.
  induction l as [|y l IH]; intros Hl; cbn [Py.insert_by].
  - cbn [descending]. split; [constructor | exact I].
  - destruct Hl as [Hy Hl].
    destruct (Z.ltb_spec (key x) (key y)) as [Hlt|Hge].
    + cbn [descending]. split; [|apply IH; exact Hl].
      rewrite insert_by_perm. constructor; [lia | exact Hy].
    + cbn [descending]. repeat split; try assumption.
      constructor; [exact Hge|].
      eapply Forall_impl; [exact Hy|]. cbn. intros z Hz. lia.
Qed.

Lemma sort_by_descending {A} (key : A -> Z) (l : list A) :
  descending key (Py.sort_by (fun y x => key x <? key y) l).
Proof.
  unfold Py.sort_by. induction l as [|x l IH]; cbn [fold_right];
    [exact I|].
  apply insert_by_descending. exact IH.
Qed.

(** The first element of a descending sort has the largest key. *)
Lemma sort_by_head_max {A} (key : A -> Z) (l : list A) (x : A) (rest : list A) :
  Py.sort_by (fun y x => key x <? key y) l = x :: rest ->
  Forall (fun y => key y <= key x) l.
Proof.
  intros E. pose proof (sort_by_descending key l) as Hd.
  rewrite E in Hd. destruct Hd as [Hrest _].
  rewrite <- (sort_by_perm (fun y x => key x <? key y) l), E.
  constructor; [lia | exact Hrest].
Qed.

(** * Classifier ([src/agents/classification_agent.py]) *)

(** [needle in haystack] *)
Fixpoint contains_chars (needle l : list ascii) : bool :=
  Py.prefix_chars needle l
  || match l with
     | [] => false
     | _ :: l' => contains_chars needle l'
     end.

Definition contains (needle haystack : string) : bool :=
  contains_chars (Py.chars needle) (Py.chars haystack).

Module ClassificationAgent.

(** [self.topic_definitions], in the order the dict is written. *)
Definition topic_definitions : list (string * list string) :=
  [ ("Artificial Intelligence",
     ["artificial intelligence"; "AI"; "machine intelligence";
      "cognitive computing"; "intelligent systems"; "AI algorithms";
      "artificial neural networks"]);
    ("Machine Learning",
     ["machine learning"; "ML"; "deep learning"; "neural networks";
      "supervised learning"; "unsupervised learning";
      "reinforcement learning"; "gradient descent"; "backpropagation";
      "random forest"; "support vector machine"; "clustering";
      "classification algorithms"]);
    ("Natural Language Processing",
     ["natural language processing"; "NLP"; "text mining";
      "language models"; "text classification"; "sentiment analysis";
      "named entity recognition"; "machine translation";
      "text generation"; "language understanding"]);
    ("Computer Vision",
     ["computer vision"; "image processing"; "image recognition";
      "object detection"; "image classification";
      "convolutional neural networks"; "CNN"; "visual recognition";
      "image segmentation"; "face recognition"]);
    ("Data Science",
     ["data science"; "data analysis"; "data mining"; "big data";
      "analytics"; "statistical analysis"; "data visualization";
      "predictive modeling"; "business intelligence"; "data engineering"]);
    ("Robotics",
     ["robotics"; "autonomous systems"; "robot control";
      "robot navigation"; "robotic systems"; "automation"; "mechatronics";
      "robot learning"]);
    ("Cybersecurity",
     ["cybersecurity"; "information security"; "network security";
      "encryption"; "malware detection"; "intrusion detection";
      "security protocols"; "cyber threats"]);
    ("Blockchain",
     ["blockchain"; "cryptocurrency"; "distributed ledger";
      "smart contracts"; "bitcoin"; "ethereum"; "decentralized systems";
      "consensus algorithms"]);
    ("Quantum Computing",
     ["quantum computing"; "quantum algorithms"; "quantum mechanics";
      "qubits"; "quantum entanglement"; "quantum cryptography";
      "quantum simulation"]);
    ("Software Engineering",
     ["software engineering"; "software development"; "programming";
      "software architecture"; "code quality"; "software testing";
      "agile development"; "DevOps"]);
    ("Human-Computer Interaction",
     ["human-computer interaction"; "HCI"; "user interface";
      "user experience"; "usability"; "interface design";
      "interaction design"; "UX research"]);
    ("Bioinformatics",
     ["bioinformatics"; "computational biology"; "genomics"; "proteomics";
      "biological data analysis"; "sequence analysis";
      "molecular biology"]) ].

(** [sum(1 for keyword in keywords if keyword.lower() in text)] *)
Definition count_matches (text : string) (keywords : list string) : Z :=
  Z.of_nat (length (List.filter
                      (fun keyword => contains (Py.lower keyword) text)
                      keywords)).

(** The dict [topic_matches] after the loop over the topics. *)
Definition topic_matches (text : string) : list (string * Z) :=
  flat_map (fun definition =>
              let matches := count_matches text (snd definition) in
              if matches >? 0 then [(fst definition, matches)] else [])
           topic_definitions.

(** [_fallback_classification] *)
Definition _fallback_classification (paper : ResearchPaper) : list string :=
  let text := Py.lower (p_title paper ++ " " ++ p_abstract paper) in
  match topic_matches text with
  | [] => ["Computer Science"; "Research"]
  | matches =>
      let sorted_matches := Py.sort_by (fun y x => snd x <? snd y) matches in
      map fst (firstn 2 sorted_matches)
  end.

(** [__init__]: both branches leave [self.model_available] false; the
    second does so inside [_initialize_ml_classification]. *)
Definition _initialize_ml_classification : bool := false.

Definition init_model_available (use_extractive_summarization
  disable_heavy_models : bool) : bool :=
  if use_extractive_summarization || disable_heavy_models
  then false
  else _initialize_ml_classification.

Section Agent.

(** The embedding branch of [process] (lines 115-170): [None] when it
    raises. *)
Variable semantic_classification : ResearchPaper -> option (list string).

(** [process] *)
Definition process (model_available : bool) (paper : ResearchPaper)
  : list string :=
  if negb model_available then _fallback_classification paper
  else match semantic_classification paper with
       | Some selected_topics => selected_topics
       | None => _fallback_classification paper
       end.

End Agent.

End ClassificationAgent.

Example fallback_classification_ex :
  ClassificationAgent._fallback_classification
    (sample_paper "1" "Deep learning for object detection")
  = ["Machine Learning"; "Computer Vision"].
Proof. vm_compute. reflexivity. Qed.

(** The keywords are matched as substrings: [AI], lowered, is found inside
    [training]. *)
Example fallback_classification_substring :
  ClassificationAgent._fallback_classification
    (sample_paper "1" "Training a parser")
  = ["Artificial Intelligence"].
Proof. vm_compute. reflexivity. Qed.

(** ** What the keyword classifier returns *)

Lemma count_matches_nonneg text keywords :
  0 <= ClassificationAgent.count_matches text keywords.
Proof. unfold ClassificationAgent.count_matches. lia. Qed.

(** The entries of [topic_matches], for any table of definitions. *)
Lemma topic_matches_entries (text : string)
  (definitions : list (string * list string)) :
  let matches :=
    flat_map (fun definition =>
                let n := ClassificationAgent.count_matches text (snd definition) in
                if n >? 0 then [(fst definition, n)] else [])
             definitions in
  Forall (fun entry =>
            exists keywords,
              In (fst entry, keywords) definitions
              /\ snd entry = ClassificationAgent.count_matches text keywords
              /\ 0 < snd entry) matches
  /\ (forall topic keywords,
        In (topic, keywords) definitions ->
        0 < ClassificationAgent.count_matches text keywords ->
        In (topic, ClassificationAgent.count_matches text keywords) matches)
  /\ sublist (map fst matches) (map fst definitions).
Proof.
  cbv zeta. induction definitions as [|[topic keywords] rest IH].
  - repeat split; [constructor | intros ? ? [] | constructor].
  - destruct IH as (Hentries & Hall & Hsub). cbn [flat_map fst snd].
    assert (Hentries' :
              Forall (fun entry =>
                        exists keywords0,
                          In (fst entry, keywords0) ((topic, keywords) :: rest)
                          /\ snd entry
                             = ClassificationAgent.count_matches text keywords0
                          /\ 0 < snd entry)
                     (flat_map
                        (fun definition =>
                           if ClassificationAgent.count_matches text
                                (snd definition) >? 0
                           then [(fst definition,
                                  ClassificationAgent.count_matches text
                                    (snd definition))]
                           else []) rest)).
    { eapply Forall_impl; [exact Hentries|]. cbn.
      intros entry (keywords0 & Hin & Hcount & Hpos).
      exists keywords0. repeat split; try assumption. right. exact Hin. }
    destruct (Z.gtb_spec (ClassificationAgent.count_matches text keywords) 0)
      as [Hpos|Hzero]; cbn [app map fst].
    + repeat split.
      * constructor; [|exact Hentries'].
        exists keywords. cbn [fst snd]. repeat split; [left; reflexivity | lia].
      * intros topic' keywords' [E|Hin] Hpos'.
        -- injection E as <- <-. left. reflexivity.
        -- right. apply Hall; assumption.
      * apply sublist_skip. exact Hsub.
    + repeat split.
      * exact Hentries'.
      * intros topic' keywords' [E|Hin] Hpos'.
        -- injection E as <- <-. lia.
        -- apply Hall; assumption.
      * apply sublist_cons. exact Hsub.
Qed.

Lemma topic_names_distinct :
  NoDup (map fst ClassificationAgent.topic_definitions).
Proof.
  apply (bool_decide_unpack _). vm_compute. exact I.
Qed.

Lemma fallback_classification_facts (paper : ResearchPaper) :
  let text := Py.lower (p_title paper ++ " " ++ p_abstract paper) in
  let topics := ClassificationAgent._fallback_classification paper in
  (1 <= length topics <= 2)%nat
  /\ NoDup topics
  /\ ((topics = ["Computer Science"; "Research"]
       /\ forall topic keywords,
            In (topic, keywords) ClassificationAgent.topic_definitions ->
            ClassificationAgent.count_matches text keywords = 0)
      \/ (Forall (fun topic =>
                    exists keywords,
                      In (topic, keywords) ClassificationAgent.topic_definitions
                      /\ 0 < ClassificationAgent.count_matches text keywords)
                 topics
          /\ exists first keywords,
               head topics = Some first
               /\ In (first, keywords) ClassificationAgent.topic_definitions
               /\ forall topic' keywords',
                    In (topic', keywords') ClassificationAgent.topic_definitions ->
                    ClassificationAgent.count_matches text keywords'
                    <= ClassificationAgent.count_matches text keywords)).
Proof.
  cbv zeta. unfold ClassificationAgent._fallback_classification. cbv zeta.
  set (text := Py.lower (p_title paper ++ " " ++ p_abstract paper)).
  assert (Hfacts :
            Forall (fun entry =>
                      exists keywords,
                        In (fst entry, keywords)
                           ClassificationAgent.topic_definitions
                        /\ snd entry
                           = ClassificationAgent.count_matches text keywords
                        /\ 0 < snd entry)
                   (ClassificationAgent.topic_matches text)
            /\ (forall topic keywords,
                  In (topic, keywords) ClassificationAgent.topic_definitions ->
                  0 < ClassificationAgent.count_matches text keywords ->
                  In (topic, ClassificationAgent.count_matches text keywords)
                     (ClassificationAgent.topic_matches text))
            /\ sublist (map fst (ClassificationAgent.topic_matches text))
                       (map fst ClassificationAgent.topic_definitions))
    by exact (topic_matches_entries text ClassificationAgent.topic_definitions).
  destruct Hfacts as (Hentries & Hall & Hsub).
  destruct (ClassificationAgent.topic_matches text) as [|entry matches] eqn:E.
  - split; [cbn [length]; lia|]. split.
    + apply (bool_decide_unpack _). vm_compute. exact I.
    + left. split; [reflexivity|]. intros topic keywords Hin.
      pose proof (count_matches_nonneg text keywords) as Hn.
      destruct (Z.eq_dec (ClassificationAgent.count_matches text keywords) 0)
        as [Hz|Hnz]; [exact Hz|].
      destruct (Hall topic keywords Hin ltac:(lia)).
  - assert (Hne : (1 <= length (ClassificationAgent.topic_matches text))%nat)
      by (rewrite E; cbn [length]; lia).
    rewrite <- E in Hentries, Hall, Hsub |- *. clear E.
    set (sorted := Py.sort_by (fun y x => snd x <? snd y)
                     (ClassificationAgent.topic_matches text)).
    assert (Hperm : Permutation sorted (ClassificationAgent.topic_matches text))
      by apply sort_by_perm.
    assert (Hlen : (1 <= length sorted)%nat).
    { rewrite (Permutation_length Hperm). exact Hne. }
    split.
    { rewrite length_map, length_firstn. lia. }
    split.
    { rewrite <- firstn_map. apply (sublist_NoDup _ (map fst sorted)).
      - assert (Hnames : Permutation
                           (map fst sorted)
                           (map fst (ClassificationAgent.topic_matches text)))
          by (apply Permutation_map; exact Hperm).
        rewrite Hnames.
        exact (sublist_NoDup _ _ topic_names_distinct Hsub).
      - apply sublist_take. }
    right.
    assert (Hsorted :
              Forall (fun entry =>
                        exists keywords,
                          In (fst entry, keywords)
                             ClassificationAgent.topic_definitions
                          /\ snd entry
                             = ClassificationAgent.count_matches text keywords
                          /\ 0 < snd entry) sorted).
    { rewrite Hperm. exact Hentries. }
    split.
    + apply List.Forall_forall. intros topic Hin. apply in_map_iff in Hin.
      destruct Hin as (entry' & <- & Hin).
      assert (Hin' : In entry' sorted).
      { rewrite <- (firstn_skipn 2 sorted). apply in_or_app. left. exact Hin. }
      destruct (proj1 (List.Forall_forall _ _) Hsorted entry' Hin')
        as (keywords & Hk & Hcount & Hpos).
      exists keywords. split; [exact Hk | lia].
    + destruct sorted as [|first rest] eqn:Es; [cbn [length] in Hlen; lia|].
      inversion Hsorted as [|? ? (keywords & Hk & Hcount & Hpos) _]; subst.
      exists (fst first), keywords. split; [reflexivity|].
      split; [exact Hk|]. intros topic' keywords' Hin'.
      pose proof (sort_by_head_max snd _ _ _ Es) as Hmax.
      pose proof (count_matches_nonneg text keywords') as Hn.
      destruct (Z.eq_dec (ClassificationAgent.count_matches text keywords') 0)
        as [Hz|Hnz]; [lia|].
      pose proof (Hall topic' keywords' Hin' ltac:(lia)) as Hmember.
      pose proof (proj1 (List.Forall_forall _ _) Hmax _ Hmember) as Hle.
      cbn [snd] in Hle. lia.
Qed.

(** X12. The Classifier, built with any settings, answers with the keyword
    classification: one or two topics without repetition. Either no
    keyword of any topic occurs in the lowered title and abstract and the
    answer is [Computer Science, Research]; or every topic returned is a
    topic of the table with a keyword in the text, and the first one has
    the most matching keywords of all topics. *)
Theorem classifier_returns_best_keyword_topics
  (semantic_classification : ResearchPaper -> option (list string))
  (use_extractive_summarization disable_heavy_models : bool)
  (paper : ResearchPaper) :
  let text := Py.lower (p_title paper ++ " " ++ p_abstract paper) in
  let topics :=
    ClassificationAgent.process semantic_classification
      (ClassificationAgent.init_model_available use_extractive_summarization
         disable_heavy_models) paper in
  (1 <= length topics <= 2)%nat
  /\ NoDup topics
  /\ ((topics = ["Computer Science"; "Research"]
       /\ forall topic keywords,
            In (topic, keywords) ClassificationAgent.topic_definitions ->
            ClassificationAgent.count_matches text keywords = 0)
      \/ (Forall (fun topic =>
                    exists keywords,
                      In (topic, keywords) ClassificationAgent.topic_definitions
                      /\ 0 < ClassificationAgent.count_matches text keywords)
                 topics
          /\ exists first keywords,
               head topics = Some first
               /\ In (first, keywords) ClassificationAgent.topic_definitions
               /\ forall topic' keywords',
                    In (topic', keywords') ClassificationAgent.topic_definitions ->
                    ClassificationAgent.count_matches text keywords'
                    <= ClassificationAgent.count_matches text keywords)).
Proof.
  assert (Hinit : ClassificationAgent.init_model_available
                    use_extractive_summarization disable_heavy_models = false).
  { destruct use_extractive_summarization, disable_heavy_models; reflexivity. }
  cbv zeta. rewrite Hinit. unfold ClassificationAgent.process. cbn [negb].
  apply fallback_classification_facts.
Qed.

(** * Topic distribution and the most common topics *)

Lemma descending_app {A} (key : A -> Z) (l1 l2 : list A) :
  descending key (l1 ++ l2) ->
  descending key l1
  /\ forall x y, In x l1 -> In y l2 -> key y <= key x.
Proof.
  induction l1 as [|a l1 IH]; cbn [app descending].
  - intros _. split; [exact I | intros x y []].
  - intros [Ha Hrest]. destruct (IH Hrest) as [Hl1 Hcross].
    apply Forall_app in Ha as [Ha1 Ha2].
    repeat split; try assumption.
    intros x y [<-|Hx] Hy.
    + exact (proj1 (List.Forall_forall _ _) Ha2 y Hy).
    + apply Hcross; assumption.
Qed.

(** X13. In the topic analysis, the distribution holds for each label the
    number of times it occurs in the classifications (and no entry for a
    label that does not occur). The most common topics are at most five
    entries of the distribution, largest count first, and no entry left
    out has a larger count than one that was kept. *)
Theorem topic_distribution_and_most_common (papers : list ResearchPaper)
  (classifications : list (list string)) :
  let analysis := SynthesisAgent._analyze_topics papers classifications in
  let distribution := SynthesisAgent.topic_distribution analysis in
  let top := SynthesisAgent.most_common_topics analysis in
  (forall label,
     SynthesisAgent.dict_get label distribution
     = if (occurrences label (concat classifications) =? 0)%nat then None
       else Some (Z.of_nat (occurrences label (concat classifications))))
  /\ length top = Nat.min 5 (length distribution)
  /\ descending snd top
  /\ (forall entry, In entry top -> In entry distribution)
  /\ (forall entry kept,
        In entry distribution -> In kept top ->
        In entry top \/ snd entry <= snd kept).
Proof.
  cbv zeta. unfold SynthesisAgent._analyze_topics. cbv zeta.
  cbn [SynthesisAgent.topic_distribution SynthesisAgent.most_common_topics].
  set (distribution := SynthesisAgent.Counter (concat classifications)).
  unfold SynthesisAgent.most_common.
  set (sorted := Py.sort_by (fun y x => snd x <? snd y) distribution).
  assert (Hperm : Permutation sorted distribution) by apply sort_by_perm.
  assert (Hdesc : descending snd sorted) by apply sort_by_descending.
  rewrite <- (firstn_skipn 5 sorted) in Hdesc.
  destruct (descending_app _ _ _ Hdesc) as [Htop Hcross].
  split.
  { intros label. unfold distribution, SynthesisAgent.Counter.
    rewrite dict_get_incr_all. unfold count_of. cbn.
    destruct (occurrences label (concat classifications) =? 0)%nat;
      reflexivity. }
  split.
  { rewrite length_firstn, (Permutation_length Hperm). reflexivity. }
  split; [exact Htop|]. split.
  - intros entry Hin. apply (Permutation_in _ Hperm).
    rewrite <- (firstn_skipn 5 sorted). apply in_or_app. left. exact Hin.
  - intros entry kept Hentry Hkept.
    apply (Permutation_in _ (Permutation_sym Hperm)) in Hentry.
    rewrite <- (firstn_skipn 5 sorted) in Hentry.
    apply in_app_or in Hentry as [Hin|Hout]; [left; exact Hin|].
    right. apply Hcross; assumption.
Qed.

(** * Synthesizer: the synthesis text ([SynthesisAgent.process]) *)

Module SynthesisProcess.

Section Agent.

(** [str.capitalize]. *)
Variable capitalize : string -> string.

(** The loop that keeps a finding unless its lowered text occurs in the
    lowered text of a finding already kept. *)
Fixpoint unique_findings_loop (findings : list string)
  (unique_findings : list string) : list string :=
  match findings with
  | [] => unique_findings
  | finding :: rest =>
      if existsb (fun existing =>
                    contains (Py.lower finding) (Py.lower existing))
                 unique_findings
      then unique_findings_loop rest unique_findings
      else unique_findings_loop rest (unique_findings ++ [finding])%list
  end.

(** The overview sentence about the most common topics. *)
Definition prevalent_areas (most_common_topics : list (string * Z))
  : string :=
  match most_common_topics with
  | [] => ""
  | _ =>
      let top_topics := map fst (firstn 3 most_common_topics) in
      "The most prevalent research areas include "
      ++ Py.join ", " (removelast top_topics)
      ++ (if (1 <? length top_topics)%nat
          then " and " ++ List.last top_topics "" ++ ". "
          else ". ")
  end.

(** [_generate_synthesis] *)
Definition _generate_synthesis (papers : list ResearchPaper)
  (summaries : list Summary) (topic_analysis : SynthesisAgent.TopicAnalysis)
  : string :=
  let paper_count := length papers in
  let topic_count := SynthesisAgent.total_unique_topics topic_analysis in
  let most_common_topics :=
    SynthesisAgent.most_common_topics topic_analysis in
  let overview :=
    "This synthesis analyzes " ++ Py.str_of_nat paper_count
    ++ " research papers covering " ++ Py.str_of_nat (Z.to_nat topic_count)
    ++ " distinct research areas. "
    ++ prevalent_areas most_common_topics in
  let findings_part :=
    match summaries with
    | [] => []
    | _ =>
        let findings :=
          flat_map (fun summary => firstn 2 (sum_key_insights summary))
                   summaries in
        [ "Key findings across the analyzed papers reveal several important insights: "
          ++ match findings with
             | [] =>
                 "The papers collectively advance our understanding in their respective domains."
             | _ =>
                 let unique_findings :=
                   unique_findings_loop (firstn 5 findings) [] in
                 Py.join " "
                   (imap (fun i finding =>
                            "(" ++ Py.str_of_nat (i + 1) ++ ") "
                            ++ capitalize finding ++ ".")
                         (firstn 3 unique_findings))
             end ]
    end in
  let conclusion :=
    "The collective findings underscore the rapid advancement in these research areas and point toward significant potential for real-world applications and continued innovation." in
  Py.join " " ([overview] ++ findings_part ++ [conclusion])%list.

(** [process] *)
Definition process (classified_papers : SynthesisInput) : SynthesisDict :=
  let papers := si_papers classified_papers in
  let classifications := si_classifications classified_papers in
  let summaries := si_summaries classified_papers in
  match papers with
  | [] =>
      {| syn_synthesis := "No papers available for synthesis.";
         syn_topic_analysis := TA_empty;
         syn_paper_count := Some 0;
         syn_methodology := None |}
  | _ =>
      let topic_analysis :=
        SynthesisAgent._analyze_topics papers classifications in
      let synthesis_text :=
        _generate_synthesis papers summaries topic_analysis in
      {| syn_synthesis := synthesis_text;
         syn_topic_analysis := TA_full topic_analysis;
         syn_paper_count := Some (Z.of_nat (length papers));
         syn_methodology := Some "enhanced_synthesis" |}
  end.

End Agent.

End SynthesisProcess.

Example generate_synthesis_ex :
  SynthesisProcess._generate_synthesis (fun s => s)
    [sample_paper "1" "Graph Nets"; sample_paper "2" "Deep Sets"] []
    (SynthesisAgent._analyze_topics [] [["ML"; "NLP"]; ["ML"]])
  = "This synthesis analyzes 2 research papers covering 2 distinct research areas. The most prevalent research areas include ML and NLP.  The collective findings underscore the rapid advancement in these research areas and point toward significant potential for real-world applications and continued innovation.".
Proof. vm_compute. reflexivity. Qed.

Lemma nonempty_len (s : string) : s <> "" <-> 0 < Py.len s.
Proof.
  unfold Py.len. destruct s; cbn [String.length]; split; intros H;
    try lia; try congruence.
Qed.

Lemma append_nonempty_l (a b : string) : a <> "" -> (a ++ b)%string <> "".
Proof.
  rewrite !nonempty_len, append_len. pose proof (len_nonneg b). lia.
Qed.

Lemma join_head_nonempty (sep x : string) (rest : list string) :
  x <> "" -> Py.join sep (x :: rest) <> "".
Proof.
  intros Hx. unfold Py.join. destruct rest as [|y rest];
    cbn [String.concat]; [exact Hx|].
  apply append_nonempty_l. exact Hx.
Qed.

Lemma generate_synthesis_nonempty capitalize papers summaries analysis :
  SynthesisProcess._generate_synthesis capitalize papers summaries analysis
  <> "".
Proof.
  unfold SynthesisProcess._generate_synthesis. cbv zeta. cbn [app].
  apply join_head_nonempty. apply append_nonempty_l. discriminate.
Qed.

(** X14. The Synthesizer reports the number of papers it was given, and
    its text is never empty. Hence the Narrator, when a TTS library is
    present, never takes its branch for an empty text on a Synthesizer
    answer: it always attempts a rendering. *)
Theorem synthesizer_text_reaches_narrator (capitalize : string -> string)
  (input : SynthesisInput) (method : AudioAgent.TtsMethod)
  (gtts_save pyttsx3_save : string -> string -> bool)
  (write_file : string -> string -> option string) (uuid4 : string) :
  let answer := SynthesisProcess.process capitalize input in
  let filename := "audio/synthesis_" ++ uuid4 ++ ".mp3" in
  syn_paper_count answer = Some (Z.of_nat (length (si_papers input)))
  /\ Py.truthy (syn_synthesis answer) = true
  /\ AudioAgent.process true method gtts_save pyttsx3_save write_file uuid4
       (syn_synthesis answer)
     = Ok match method with
          | AudioAgent.gtts =>
              AudioAgent._generate_gtts_audio gtts_save
                (syn_synthesis answer) filename
          | AudioAgent.pyttsx3 =>
              AudioAgent._generate_pyttsx3_audio pyttsx3_save
                (syn_synthesis answer) filename
          end.
Proof.
  cbv zeta.
  assert (Htext : Py.truthy (syn_synthesis
                               (SynthesisProcess.process capitalize input))
                  = true).
  { apply truthy_spec. unfold SynthesisProcess.process. cbv zeta.
    destruct (si_papers input); cbn [syn_synthesis];
      [discriminate | apply generate_synthesis_nonempty]. }
  split; [|split; [exact Htext|]].
  - unfold SynthesisProcess.process. cbv zeta.
    destruct (si_papers input); reflexivity.
  - unfold AudioAgent.process. cbn [negb]. rewrite Htext.
    destruct method; reflexivity.
Qed.

(** X15. When all classifications together hold one single label, the
    sentence of the synthesis about the most prevalent areas names no
    area: the only label is dropped by [top_topics[:-1]] and the branch
    for the last label is not taken. *)
Theorem single_label_is_not_named (papers : list ResearchPaper)
  (classifications : list (list string)) :
  length (remove_dups (concat classifications)) = 1%nat ->
  SynthesisProcess.prevalent_areas
    (SynthesisAgent.most_common_topics
       (SynthesisAgent._analyze_topics papers classifications))
  = "The most prevalent research areas include . ".
Proof.
  intros Hone. unfold SynthesisAgent._analyze_topics. cbv zeta.
  cbn [SynthesisAgent.most_common_topics]. unfold SynthesisAgent.most_common.
  pose proof (sort_by_length (fun y x : string * Z => snd x <? snd y)
                (SynthesisAgent.Counter (concat classifications))) as Hlen.
  rewrite counter_length, Hone in Hlen.
  destruct (Py.sort_by _ _) as [|entry [|entry' rest]];
    cbn [length] in Hlen; try lia.
  reflexivity.
Qed.

Lemma single_label_is_not_named_witness :
  length (remove_dups (concat [["ML"]; ["ML"]])) = 1%nat
  /\ SynthesisProcess.prevalent_areas
       (SynthesisAgent.most_common_topics
          (SynthesisAgent._analyze_topics [] [["ML"]; ["ML"]]))
     = "The most prevalent research areas include . ".
Proof.
  split; [vm_compute; reflexivity|].
  apply (single_label_is_not_named [] [["ML"]; ["ML"]]).
  vm_compute. reflexivity.
Defined.

(** * Extractor: the papers of a batch of files *)

Section ExtractorFacts.

Variable pdf_available : bool.
Variable read_pdf read_text : string -> option string.
Variable metadata : string -> ExtractionAgent.Metadata.
Variable uuid4 : nat -> string.

Lemma process_file_cases (idx : nat) (file_path : string)
  (topics : list string) :
  let papers := ExtractionAgent.process_file pdf_available read_pdf read_text
                  metadata uuid4 idx file_path topics in
  (papers = [] /\ (read_pdf file_path = None \/ read_text file_path = None))
  \/ exists paper,
       papers = [paper]
       /\ p_id paper = uuid4 idx
       /\ p_topics paper = topics
       /\ p_url paper = "".
Proof.
  cbv zeta. unfold ExtractionAgent.process_file,
    ExtractionAgent._extract_from_pdf, ExtractionAgent._extract_from_text_file.
  destruct (pdf_available && Py.endswith (Py.lower file_path) ".pdf").
  - destruct (read_pdf file_path) as [full_text|] eqn:E.
    + right. eexists. split; [reflexivity|]. repeat split.
    + left. split; [reflexivity | left; reflexivity].
  - destruct (Py.endswith (Py.lower file_path) ".txt").
    + destruct (read_text file_path) as [full_text|] eqn:E.
      * right. eexists. split; [reflexivity|]. repeat split.
      * left. split; [reflexivity | right; reflexivity].
    + right. eexists. split; [reflexivity|]. repeat split.
Qed.

Lemma process_from (topics : list string) (file_paths : list string) :
  forall k,
    let papers :=
      concat (imap (fun idx file_path =>
                      ExtractionAgent.process_file pdf_available read_pdf
                        read_text metadata uuid4 (k + idx) file_path topics)
                   file_paths) in
    Forall (fun paper => p_topics paper = topics /\ p_url paper = "") papers
    /\ sublist (map p_id papers) (map uuid4 (seq k (length file_paths)))
    /\ ((forall path, In path file_paths ->
           read_pdf path <> None /\ read_text path <> None) ->
        map p_id papers = map uuid4 (seq k (length file_paths))).
Proof.
  induction file_paths as [|file_path rest IH]; intros k; cbv zeta.
  - repeat split; constructor.
  - rewrite imap_cons. cbn [concat length seq map].
    assert (Hshift :
              imap ((fun idx path =>
                       ExtractionAgent.process_file pdf_available read_pdf
                         read_text metadata uuid4 (k + idx) path topics) ∘ S)
                   rest
              = imap (fun idx path =>
                        ExtractionAgent.process_file pdf_available read_pdf
                          read_text metadata uuid4 (S k + idx) path topics)
                     rest).
    { apply imap_ext. intros i path _. cbn. f_equal. lia. }
    rewrite Hshift. destruct (IH (S k)) as (Htopics & Hids & Hall).
    rewrite Nat.add_0_r.
    destruct (process_file_cases k file_path topics)
      as [[-> Hfail] | (paper & -> & Hid & Ht & Hu)]; cbn [app map].
    + repeat split.
      * exact Htopics.
      * apply sublist_cons. exact Hids.
      * intros Hreads. exfalso.
        destruct (Hreads file_path (or_introl eq_refl)) as [Hp Htx].
        destruct Hfail; contradiction.
    + repeat split.
      * constructor; [split; assumption | exact Htopics].
      * rewrite Hid. apply sublist_skip. exact Hids.
      * intros Hreads. rewrite Hid. f_equal. apply Hall.
        intros path Hin. apply Hreads. right. exact Hin.
Qed.

End ExtractorFacts.

(** X16. Every paper the Extractor returns carries the topics of the
    request and no URL. The ids of the papers are, in order, ids drawn for
    some of the files: a file yields at most one paper and the order of the
    files is kept, so distinct draws give distinct ids. When every read
    succeeds there is exactly one paper per file. *)
Theorem extractor_keeps_topics_and_order (pdf_available : bool)
  (read_pdf read_text : string -> option string)
  (metadata : string -> ExtractionAgent.Metadata) (uuid4 : nat -> string)
  (file_paths : list string) (topics : list string) :
  let papers := ExtractionAgent.process pdf_available read_pdf read_text
                  metadata uuid4 file_paths topics in
  Forall (fun paper => p_topics paper = topics /\ p_url paper = "") papers
  /\ sublist (map p_id papers) (map uuid4 (seq 0 (length file_paths)))
  /\ (length papers <= length file_paths)%nat
  /\ ((forall i j, uuid4 i = uuid4 j -> i = j) -> NoDup (map p_id papers))
  /\ ((forall path, In path file_paths ->
         read_pdf path <> None /\ read_text path <> None) ->
      map p_id papers = map uuid4 (seq 0 (length file_paths))).
Proof.
  cbv zeta. unfold ExtractionAgent.process.
  destruct (process_from pdf_available read_pdf read_text metadata uuid4
              topics file_paths 0) as (Htopics & Hids & Hall).
  cbn [Nat.add] in Htopics, Hids, Hall.
  repeat split; try assumption.
  - apply sublist_length in Hids. rewrite !length_map, length_seq in Hids.
    exact Hids.
  - intros Hinj.
    refine (sublist_NoDup _ (map uuid4 (seq 0 (length file_paths))) _ Hids).
    assert (Huuid : Inj eq eq uuid4) by (intros i j; apply Hinj).
    apply (NoDup_fmap_2 uuid4). apply NoDup_ListNoDup, seq_NoDup.
Qed.

(** * Narrator: the artifacts and their URLs *)

Lemma substring_whole (s : string) : String.substring 0 (String.length s) s = s.
Proof. induction s as [|c s IH]; cbn; [reflexivity | rewrite IH; reflexivity]. Qed.

Lemma prefix_append (p s : string) : String.prefix p (p ++ s) = true.
Proof.
  induction p as [|c p IH]; [destruct s; reflexivity|].
  change (String c p ++ s)%string with (String c (p ++ s)).
  cbn [String.prefix]. destruct (ascii_dec c c); [exact IH | contradiction].
Qed.

Lemma substring_after (p s : string) :
  String.substring (String.length p) (String.length (p ++ s) - String.length p)
    (p ++ s) = s.
Proof.
  induction p as [|c p IH]; cbn [String.length].
  - change ("" ++ s)%string with s. rewrite Nat.sub_0_r.
    apply substring_whole.
  - change (String c p ++ s)%string with (String c (p ++ s)).
    cbn [String.length String.substring Nat.sub]. exact IH.
Qed.

(** A path under [audio/] becomes the same path with a leading slash. *)
Lemma audio_url_under_audio (tail : string) :
  audio_url ("audio/" ++ tail) = ("/" ++ "audio/" ++ tail)%string.
Proof.
  unfold audio_url, Py.startswith. rewrite prefix_append.
  change 6%nat with (String.length "audio/"). rewrite substring_after.
  reflexivity.
Qed.

Lemma replace_after_prefix (rest new : string) :
  Py.replace ("audio/synthesis_" ++ rest) ".mp3" new
  = ("audio/synthesis_" ++ Py.replace rest ".mp3" new)%string.
Proof.
  unfold Py.replace. rewrite chars_app.
  change (Py.chars "audio/synthesis_")
    with ["a"; "u"; "d"; "i"; "o"; "/"; "s"; "y"; "n"; "t"; "h"; "e"; "s";
          "i"; "s"; "_"]%char.
  change (Py.chars ".mp3") with ["."; "m"; "p"; "3"]%char.
  cbn [app Py.replace_aux Py.prefix_chars Ascii.eqb Bool.eqb andb].
  reflexivity.
Qed.

Section NarratorFacts.

Variable tts_available : bool.
Variable tts_method : AudioAgent.TtsMethod.
Variable gtts_save pyttsx3_save : string -> string -> bool.
Variable write_file : string -> string -> option string.
Variable uuid4 : string.

Definition under_audio (file : string) : Prop :=
  exists tail, file = ("audio/synthesis_" ++ tail)%string.

Lemma save_chunks_names (base : string) (chunks : list string) :
  forall i files,
    AudioAgent.save_chunks gtts_save base i chunks = Some files ->
    files = map (fun k => Py.replace base ".mp3"
                            ("_part" ++ Py.str_of_nat (k + 1) ++ ".mp3"))
                (seq i (length chunks)).
Proof.
  induction chunks as [|chunk rest IH]; intros i files H;
    cbn [AudioAgent.save_chunks] in H.
  - injection H as <-. reflexivity.
  - cbv zeta in H. destruct (gtts_save chunk _); [|discriminate].
    destruct (AudioAgent.save_chunks gtts_save base (i + 1) rest)
      as [files'|] eqn:E; [|discriminate].
    injection H as <-. cbn [length seq map]. f_equal.
    rewrite (IH _ _ E). replace (i + 1)%nat with (S i) by lia. reflexivity.
Qed.

(** The files of the chunked rendering: none, or one per chunk, numbered
    from 1. *)
Lemma chunked_files (text base : string) :
  let chunks := AudioAgent.chunks_of (length (Py.split text)) 100
                  (Py.split text) in
  let files := AudioAgent._generate_chunked_gtts_audio gtts_save text base in
  files = []
  \/ files = map (fun k => Py.replace base ".mp3"
                             ("_part" ++ Py.str_of_nat (k + 1) ++ ".mp3"))
                 (seq 0 (length chunks)).
Proof.
  cbv zeta. unfold AudioAgent._generate_chunked_gtts_audio. cbv zeta.
  destruct (AudioAgent.save_chunks gtts_save base 0 _) as [files|] eqn:E;
    [|left; reflexivity].
  right. rewrite (save_chunks_names _ _ _ _ E), length_map. reflexivity.
Qed.

Lemma narrator_files_under_audio (text : string) (files : list string) :
  AudioAgent.process tts_available tts_method gtts_save pyttsx3_save
    write_file uuid4 text = Ok files ->
  Forall under_audio files.
Proof.
  unfold AudioAgent.process. destruct tts_available; cbn [negb].
  - destruct (Py.truthy text); [|intros [= <-]; constructor].
    cbv zeta. destruct tts_method; intros [= <-].
    + unfold AudioAgent._generate_gtts_audio.
      destruct (Py.len text >? 5000).
      * destruct (chunked_files text ("audio/synthesis_" ++ uuid4 ++ ".mp3"))
          as [-> | ->]; [constructor|].
        apply Forall_forall. intros file Hin.
        apply list_elem_of_fmap in Hin as (k & -> & _).
        rewrite replace_after_prefix. eexists. reflexivity.
      * destruct (gtts_save text _); repeat constructor.
        eexists. reflexivity.
    + unfold AudioAgent._generate_pyttsx3_audio.
      destruct (pyttsx3_save text _); repeat constructor.
      eexists. reflexivity.
  - cbv zeta. destruct (write_file _ _); [discriminate|].
    intros [= <-]. repeat constructor. eexists. reflexivity.
Qed.

End NarratorFacts.

(** X17. Every artifact the Narrator returns lies under [audio/] with a
    name that starts with [synthesis_]; so the URL the routes store for it
    is the path with a leading slash, which is where the application
    serves the audio directory. *)
Theorem narrator_artifacts_are_served (tts_available : bool)
  (tts_method : AudioAgent.TtsMethod)
  (gtts_save pyttsx3_save : string -> string -> bool)
  (write_file : string -> string -> option string) (uuid4 text : string)
  (files : list string) :
  AudioAgent.process tts_available tts_method gtts_save pyttsx3_save
    write_file uuid4 text = Ok files ->
  Forall (fun file => Py.startswith file "audio/synthesis_" = true) files
  /\ map audio_url files = map (fun file => "/" ++ file)%string files.
Proof.
  intros H.
  pose proof (narrator_files_under_audio _ _ _ _ _ _ _ _ H) as Hunder.
  split.
  - eapply Forall_impl; [exact Hunder|]. cbn. intros file [tail ->].
    unfold Py.startswith. apply prefix_append.
  - clear H. induction Hunder as [|file files' [tail ->] _ IH]; [reflexivity|].
    cbn [map]. f_equal; [|exact IH].
    change ("audio/synthesis_" ++ tail)%string
      with ("audio/" ++ ("synthesis_" ++ tail))%string.
    apply audio_url_under_audio.
Qed.

Lemma narrator_artifacts_are_served_witness :
  AudioAgent.process true AudioAgent.gtts (fun _ _ => true) (fun _ _ => true)
    (fun _ _ => None) "7f3a" "Findings." = Ok ["audio/synthesis_7f3a.mp3"]
  /\ Forall (fun file => Py.startswith file "audio/synthesis_" = true)
            ["audio/synthesis_7f3a.mp3"]
  /\ map audio_url ["audio/synthesis_7f3a.mp3"]
     = map (fun file => "/" ++ file)%string ["audio/synthesis_7f3a.mp3"].
Proof.
  split; [reflexivity|].
  apply (narrator_artifacts_are_served true AudioAgent.gtts (fun _ _ => true)
           (fun _ _ => true) (fun _ _ => None) "7f3a" "Findings.").
  reflexivity.
Defined.




(** * Invariants of the registry *)

(** Every record is stored under its own id. *)
Definition keyed_by_id (ws : gmap string Workflow) : Prop :=
  forall id w, ws !! id = Some w -> wf_id w = id.

Definition creates (id : string) (ev : Event) : bool :=
  match ev with
  | EvCreate id' _ => String.eqb id' id
  | _ => false
  end.

Lemma apply_event_keyed now ev (ws : gmap string Workflow) :
  keyed_by_id ws -> keyed_by_id (apply_event now ev ws).
Proof.
  intros Hws id w. destruct ev as [| | | | | |id' status|id' kwargs];
    cbn [apply_event]; try apply Hws.
  - unfold WorkflowManager.create_workflow.
    destruct (decide (id' = id)) as [->|Hne].
    + rewrite lookup_insert_eq. intros [= <-]. reflexivity.
    + rewrite lookup_insert_ne by exact Hne. apply Hws.
  - destruct (decide (id' = id)) as [->|Hne].
    + destruct (ws !! id) as [w0|] eqn:E.
      * rewrite (update_lookup _ _ _ _ E). intros [= <-].
        cbn [dict_update wf_id]. apply Hws. exact E.
      * rewrite update_unknown by exact E. rewrite E. discriminate.
    + rewrite update_other by exact Hne. apply Hws.
Qed.

Lemma apply_event_created_at now ev (ws : gmap string Workflow) id w :
  creates id ev = false ->
  ws !! id = Some w ->
  exists w', apply_event now ev ws !! id = Some w'
             /\ wf_created_at w' = wf_created_at w.
Proof.
  intros Hev Hw. destruct ev as [| | | | | |id' status|id' kwargs];
    cbn [apply_event creates] in *; try (exists w; split; [exact Hw|reflexivity]).
  - apply String.eqb_neq in Hev. unfold WorkflowManager.create_workflow.
    rewrite lookup_insert_ne by exact Hev. exists w. split; [exact Hw|reflexivity].
  - destruct (decide (id' = id)) as [->|Hne].
    + rewrite (update_lookup _ _ _ _ Hw). eexists. split; reflexivity.
    + rewrite update_other by exact Hne. exists w. split; [exact Hw|reflexivity].
Qed.

(** X19. Whatever sequence of calls reaches the registry: every record
    stays stored under its own id, no record ever disappears, and the
    creation time of a record changes only when the same id is created
    again. *)
Theorem registry_invariants (now : string) (evs : list Event)
  (ws : gmap string Workflow) :
  keyed_by_id ws ->
  keyed_by_id (apply_events now evs ws)
  /\ (forall id, is_Some (ws !! id) ->
                 is_Some (apply_events now evs ws !! id))
  /\ (forall id w,
        ws !! id = Some w ->
        existsb (creates id) evs = false ->
        exists w', apply_events now evs ws !! id = Some w'
                   /\ wf_created_at w' = wf_created_at w).
Proof.
  intros Hws. split; [|split].
  - revert ws Hws. induction evs as [|ev evs IH]; intros ws Hws; [exact Hws|].
    rewrite apply_events_cons. apply IH, apply_event_keyed, Hws.
  - intros id. apply apply_events_keeps.
  - clear Hws. revert ws. induction evs as [|ev evs IH]; intros ws id w Hw Hev.
    + exists w. split; [exact Hw | reflexivity].
    + cbn [existsb] in Hev. apply orb_false_elim in Hev as [Hev Hrest].
      destruct (apply_event_created_at now ev ws id w Hev Hw)
        as (w1 & Hw1 & Ht1).
      rewrite apply_events_cons.
      destruct (IH _ id w1 Hw1 Hrest) as (w' & Hw' & Ht').
      exists w'. split; [exact Hw' | congruence].
Qed.

Lemma registry_invariants_witness :
  let ws := WorkflowManager.create_workflow "2025-12-31T00:00:00" "wf-2"
              "processing" ∅ in
  let evs := fst (run_task two_paper_agents (SearchTask "wf-1" sample_request)) in
  keyed_by_id (apply_events "2026-01-01T00:00:00" evs ws)
  /\ (forall id, is_Some (ws !! id) ->
                 is_Some (apply_events "2026-01-01T00:00:00" evs ws !! id))
  /\ (forall id w,
        ws !! id = Some w ->
        existsb (creates id) evs = false ->
        exists w', apply_events "2026-01-01T00:00:00" evs ws !! id = Some w'
                   /\ wf_created_at w' = wf_created_at w).
Proof.
  cbv zeta. apply registry_invariants.
  intros id w. unfold WorkflowManager.create_workflow.
  destruct (decide ("wf-2" = id)) as [<-|Hne].
  - rewrite lookup_insert_eq. intros [= <-]. reflexivity.
  - rewrite lookup_insert_ne by exact Hne. rewrite lookup_empty. discriminate.
Defined.

(** * Summarizer: which summaries can exceed the cap *)

(** X20. A summary longer than 153 characters (the cap of 150 and the dots)
    can only come from the extractive branch for one or two sentences: it
    is then the plain join of the sentences of the prepared text. Every
    other branch shortens its text. *)
Theorem only_short_joins_exceed_cap (model_available : bool)
  (summarizer : option (string -> option string))
  (sent_tokenize : string -> option (list string))
  (re_findall : string -> string -> list string)
  (final_score : list string -> nat -> string -> Q)
  (paper : ResearchPaper) :
  let s := SummarizationAgent.process model_available summarizer
             sent_tokenize re_findall final_score paper in
  let sentences :=
    SummarizationAgent._tokenize_sentences sent_tokenize
      (SummarizationAgent._prepare_text_for_summarization paper) in
  153 < Py.len (sum_summary s) ->
  sum_method s = "extractive"
  /\ (1 <= length sentences <= 2)%nat
  /\ sum_summary s = Py.join " " sentences.
Proof.
  cbv zeta. unfold SummarizationAgent.process.
  assert (Hextractive :
            153 < Py.len (sum_summary
                            (SummarizationAgent._generate_extractive_summary
                               sent_tokenize re_findall final_score paper)) ->
            sum_method (SummarizationAgent._generate_extractive_summary
                          sent_tokenize re_findall final_score paper)
            = "extractive"
            /\ (1 <= length (SummarizationAgent._tokenize_sentences
                               sent_tokenize
                               (SummarizationAgent._prepare_text_for_summarization
                                  paper)) <= 2)%nat
            /\ sum_summary (SummarizationAgent._generate_extractive_summary
                              sent_tokenize re_findall final_score paper)
               = Py.join " "
                   (SummarizationAgent._tokenize_sentences sent_tokenize
                      (SummarizationAgent._prepare_text_for_summarization
                         paper))).
  { unfold SummarizationAgent._generate_extractive_summary. cbv zeta.
    pose proof (fallback_length_bound paper) as Hfallback.
    destruct (_ <? 100); [lia|].
    destruct (Z.eqb_spec
                (Z.of_nat
                   (length (SummarizationAgent._tokenize_sentences
                              sent_tokenize
                              (SummarizationAgent._prepare_text_for_summarization
                                 paper)))) 0) as [Hzero|Hsome]; [lia|].
    summary_fields.
    destruct (Z.leb_spec
                (Z.of_nat
                   (length (SummarizationAgent._tokenize_sentences
                              sent_tokenize
                              (SummarizationAgent._prepare_text_for_summarization
                                 paper)))) 2) as [Hfew|Hmany].
    - intros _. repeat split; lia.
    - intros Hlong. exfalso.
      pose proof (shorten_for_ui_bound
                    (Py.join " "
                       (map (fun sent => fst (fst sent))
                          (Py.sort_by SummarizationAgent.index_asc
                             (firstn
                                (Z.to_nat
                                   (SummarizationAgent.num_sentences
                                      (Z.of_nat
                                         (length
                                            (SummarizationAgent._tokenize_sentences
                                               sent_tokenize
                                               (SummarizationAgent._prepare_text_for_summarization
                                                  paper))))))
                                (Py.sort_by SummarizationAgent.score_desc
                                   (SummarizationAgent._score_sentences
                                      final_score
                                      (SummarizationAgent._tokenize_sentences
                                         sent_tokenize
                                         (SummarizationAgent._prepare_text_for_summarization
                                            paper))))))))) as Hb.
      lia. }
  destruct model_available, summarizer as [run|]; try exact Hextractive.
  intros Hlong. exfalso.
  pose proof (abstractive_length_bound re_findall run paper). lia.
Qed.

Lemma only_short_joins_exceed_cap_witness :
  let s := SummarizationAgent.process false None (fun _ => None)
             (fun _ _ => []) (fun _ _ _ => 0%Q) one_sentence_paper in
  let sentences :=
    SummarizationAgent._tokenize_sentences (fun _ => None)
      (SummarizationAgent._prepare_text_for_summarization one_sentence_paper) in
  153 < Py.len (sum_summary s)
  /\ sum_method s = "extractive"
  /\ (1 <= length sentences <= 2)%nat
  /\ sum_summary s = Py.join " " sentences.
Proof.
  cbv zeta. split; [vm_compute; reflexivity|].
  apply (only_short_joins_exceed_cap false None (fun _ => None)
           (fun _ _ => []) (fun _ _ _ => 0%Q) one_sentence_paper).
  vm_compute. reflexivity.
Defined.

(** * Summarizer: the sentences of an extractive summary *)

(** Triples in strictly increasing order of their index. *)
Fixpoint increasing_index (l : list (string * Q * nat)) : Prop :=
  match l with
  | [] => True
  | x :: l' => Forall (fun y => (snd x < snd y)%nat) l' /\ increasing_index l'
  end.

Lemma increasing_index_NoDup l : increasing_index l -> NoDup (map snd l).
Proof.
  induction l as [|x l IH]; cbn [increasing_index map]; [constructor|].
  intros [Hx Hl]. constructor; [|apply IH; exact Hl].
  intros Hin. apply list_elem_of_fmap in Hin as (y & Hy & Hin).
  apply list_elem_of_In in Hin.
  pose proof (proj1 (List.Forall_forall _ _) Hx y Hin) as Hlt. cbn in Hlt. lia.
Qed.

Lemma score_sentences_spec (final_score : list string -> nat -> string -> Q)
  (all : list string) (sentences : list string) : forall k,
  let scored := imap (fun idx s => (s, final_score all (k + idx)%nat s,
                                     (k + idx)%nat)) sentences in
  map (fun sent => fst (fst sent)) scored = sentences
  /\ increasing_index scored
  /\ Forall (fun sent => (k <= snd sent)%nat) scored.
Proof.
  induction sentences as [|s rest IH]; intros k; cbv zeta.
  - repeat split; constructor.
  - rewrite imap_cons.
    assert (Hshift :
              imap ((fun idx s0 => (s0, final_score all (k + idx)%nat s0,
                                    (k + idx)%nat)) ∘ S) rest
              = imap (fun idx s0 => (s0, final_score all (S k + idx)%nat s0,
                                     (S k + idx)%nat)) rest).
    { apply imap_ext. intros i x _. cbn.
      replace (k + S i)%nat with (S (k + i)) by lia. reflexivity. }
    rewrite Hshift. destruct (IH (S k)) as (Hmap & Hinc & Hlow).
    cbn [map fst snd increasing_index]. rewrite Nat.add_0_r.
    repeat split.
    + f_equal. exact Hmap.
    + eapply Forall_impl; [exact Hlow|]. cbn. intros y Hy. lia.
    + exact Hinc.
    + constructor; [cbn; lia|].
      eapply Forall_impl; [exact Hlow|]. cbn. intros y Hy. lia.
Qed.

Lemma insert_by_index_increasing x l :
  increasing_index l ->
  ~ In (snd x) (map snd l) ->
  increasing_index (Py.insert_by SummarizationAgent.index_asc x l).
Proof.
  induction l as [|y l IH]; intros Hl Hx; cbn [Py.insert_by].
  - cbn [increasing_index]. split; [constructor | exact I].
  - destruct Hl as [Hy Hl]. cbn [map] in Hx.
    unfold SummarizationAgent.index_asc at 1.
    destruct (Nat.ltb_spec (snd y) (snd x)) as [Hlt|Hge].
    + cbn [increasing_index]. split.
      * rewrite insert_by_perm. constructor; [exact Hlt | exact Hy].
      * apply IH; [exact Hl|]. intros Hin. apply Hx. right. exact Hin.
    + assert (Hxy : (snd x < snd y)%nat).
      { destruct (Nat.eq_dec (snd x) (snd y)) as [E|Hne]; [|lia].
        exfalso. apply Hx. left. symmetry. exact E. }
      cbn [increasing_index]. repeat split; try assumption.
      constructor; [exact Hxy|].
      eapply Forall_impl; [exact Hy|]. cbn. intros z Hz. lia.
Qed.

Lemma sort_by_index_increasing l :
  NoDup (map snd l) ->
  increasing_index (Py.sort_by SummarizationAgent.index_asc l).
Proof.
  unfold Py.sort_by. induction l as [|x l IH]; cbn [map fold_right];
    intros Hnd; [exact I|].
  apply NoDup_cons in Hnd as [Hx Hl].
  apply insert_by_index_increasing; [apply IH; exact Hl|].
  intros Hin. apply Hx. apply list_elem_of_In.
  apply (Permutation_in _ (Permutation_map snd
                             (sort_by_perm SummarizationAgent.index_asc l))).
  exact Hin.
Qed.

(** A list in increasing order of index whose elements all belong to
    another such list is a sublist of it. *)
Lemma increasing_sublist (all : list (string * Q * nat)) :
  increasing_index all ->
  forall part,
    increasing_index part ->
    (forall x, In x part -> In x all) ->
    sublist part all.
Proof.
  induction all as [|a all IH]; intros Hall part Hpart Hin.
  - destruct part as [|x part]; [constructor|].
    destruct (Hin x (or_introl eq_refl)).
  - destruct Hall as [Ha Hall]. destruct part as [|x part];
      [apply sublist_nil_l|].
    destruct Hpart as [Hx Hpart].
    assert (Hrest : forall y, In y part -> In y all).
    { intros y Hy. destruct (Hin y (or_intror Hy)) as [<-|Hy']; [|exact Hy'].
      exfalso.
      pose proof (proj1 (List.Forall_forall _ _) Hx a Hy) as Hlt.
      destruct (Hin x (or_introl eq_refl)) as [<-|Hx']; [cbn in Hlt; lia|].
      pose proof (proj1 (List.Forall_forall _ _) Ha x Hx') as Hlt'.
      cbn in Hlt, Hlt'. lia. }
    destruct (Hin x (or_introl eq_refl)) as [<-|Hx'].
    + apply sublist_skip. apply IH; assumption.
    + apply sublist_cons. apply IH; [exact Hall | split; assumption |].
      intros y [<-|Hy]; [exact Hx' | apply Hrest; exact Hy].
Qed.

Lemma num_sentences_range (total : Z) :
  3 <= total ->
  2 <= SummarizationAgent.num_sentences total <= 5
  /\ SummarizationAgent.num_sentences total <= total.
Proof.
  intros Htotal. unfold SummarizationAgent.num_sentences.
  destruct (Z.leb_spec total 5); [lia|].
  destruct (Z.leb_spec total 10); [lia|].
  pose proof (Z.div_le_upper_bound total 4 total ltac:(lia) ltac:(lia)).
  lia.
Qed.

(** The sentences chosen for a text of three sentences or more. *)
Definition chosen_sentences (final_score : list string -> nat -> string -> Q)
  (sentences : list string) : list string :=
  map (fun sent => fst (fst sent))
    (Py.sort_by SummarizationAgent.index_asc
       (firstn (Z.to_nat (SummarizationAgent.num_sentences
                            (Z.of_nat (length sentences))))
               (Py.sort_by SummarizationAgent.score_desc
                  (SummarizationAgent._score_sentences final_score
                     sentences)))).

Lemma chosen_sentences_spec final_score sentences :
  (3 <= length sentences)%nat ->
  sublist (chosen_sentences final_score sentences) sentences
  /\ Z.of_nat (length (chosen_sentences final_score sentences))
     = SummarizationAgent.num_sentences (Z.of_nat (length sentences)).
Proof.
  intros Hn. unfold chosen_sentences.
  set (k := Z.to_nat (SummarizationAgent.num_sentences
                        (Z.of_nat (length sentences)))).
  set (scored := SummarizationAgent._score_sentences final_score sentences).
  set (ranked := Py.sort_by SummarizationAgent.score_desc scored).
  destruct (score_sentences_spec final_score sentences sentences 0)
    as (Hmap & Hinc & _).
  cbn [Nat.add] in Hmap, Hinc.
  change (imap _ sentences) with scored in Hmap, Hinc.
  assert (Hranked : Permutation ranked scored) by apply sort_by_perm.
  assert (Htop : NoDup (map snd (firstn k ranked))).
  { rewrite <- firstn_map.
    apply (sublist_NoDup _ (map snd ranked)); [|apply sublist_take].
    rewrite (Permutation_map snd Hranked).
    apply increasing_index_NoDup. exact Hinc. }
  pose proof (sort_by_perm SummarizationAgent.index_asc (firstn k ranked))
    as Hfinal.
  split.
  - assert (Hsub : sublist (Py.sort_by SummarizationAgent.index_asc
                              (firstn k ranked)) scored).
    { apply increasing_sublist; [exact Hinc | |].
      - apply sort_by_index_increasing. exact Htop.
      - intros x Hx. apply (Permutation_in _ Hranked).
        apply (Permutation_in _ Hfinal) in Hx.
        rewrite <- (firstn_skipn k ranked). apply in_or_app. left. exact Hx. }
    apply (fmap_sublist (fun sent => fst (fst sent))) in Hsub.
    change (@fmap list _ _ _ (fun sent : string * Q * nat => fst (fst sent)))
      with (@map (string * Q * nat) string (fun sent => fst (fst sent)))
      in Hsub.
    rewrite Hmap in Hsub. exact Hsub.
  - rewrite length_map, (Permutation_length Hfinal), length_firstn.
    rewrite (Permutation_length Hranked).
    assert (Hscored : length scored = length sentences).
    { apply (f_equal (@length string)) in Hmap.
      rewrite length_map in Hmap. exact Hmap. }
    rewrite Hscored.
    pose proof (num_sentences_range (Z.of_nat (length sentences))
                  ltac:(lia)) as [Hrange Hle].
    unfold k. lia.
Qed.

(** X21. For a prepared text of at least 100 characters with three
    sentences or more, the extractive summary is the shortened join of
    between two and five sentences of the text, kept in the order in which
    they occur in the text, whatever the scores are. *)
Theorem extractive_summary_keeps_text_order
  (sent_tokenize : string -> option (list string))
  (re_findall : string -> string -> list string)
  (final_score : list string -> nat -> string -> Q)
  (paper : ResearchPaper) :
  let text := SummarizationAgent._prepare_text_for_summarization paper in
  let sentences := SummarizationAgent._tokenize_sentences sent_tokenize text in
  let s := SummarizationAgent._generate_extractive_summary sent_tokenize
             re_findall final_score paper in
  100 <= Py.len (Py.strip text) ->
  (3 <= length sentences)%nat ->
  exists chosen,
    sublist chosen sentences
    /\ (2 <= length chosen <= 5)%nat
    /\ sum_summary s = SummarizationAgent.shorten_for_ui (Py.join " " chosen)
    /\ sum_method s = "extractive".
Proof.
  cbv zeta. intros Hlong Hn.
  set (sentences := SummarizationAgent._tokenize_sentences sent_tokenize
                      (SummarizationAgent._prepare_text_for_summarization
                         paper)) in *.
  exists (chosen_sentences final_score sentences).
  destruct (chosen_sentences_spec final_score sentences Hn) as [Hsub Hlen].
  pose proof (num_sentences_range (Z.of_nat (length sentences)) ltac:(lia))
    as [Hrange _].
  split; [exact Hsub|]. split; [lia|].
  unfold SummarizationAgent._generate_extractive_summary. cbv zeta.
  fold sentences.
  destruct (Z.ltb_spec
              (Py.len (Py.strip
                         (SummarizationAgent._prepare_text_for_summarization
                            paper))) 100); [lia|].
  destruct (Z.eqb_spec (Z.of_nat (length sentences)) 0); [lia|].
  summary_fields.
  destruct (Z.leb_spec (Z.of_nat (length sentences)) 2); [lia|].
  split; reflexivity.
Qed.

(** A paper whose abstract has three sentences. *)
Definition three_sentence_paper : ResearchPaper :=
  {| p_id := "p-3";
     p_title := "Graph Nets";
     p_authors := ["A. Author"];
     p_abstract := "We study message passing on sparse graphs in depth. The method keeps the spectral structure of the input. It also reduces memory traffic on commodity accelerators.";
     p_content := "";
     p_doi := "";
     p_url := "";
     p_topics := [] |}.

Example three_sentence_tokens :
  SummarizationAgent._tokenize_sentences (fun _ => None)
    (SummarizationAgent._prepare_text_for_summarization three_sentence_paper)
  = ["We study message passing on sparse graphs in depth.";
     "The method keeps the spectral structure of the input.";
     "It also reduces memory traffic on commodity accelerators."].
Proof. vm_compute. reflexivity. Qed.

Lemma extractive_summary_keeps_text_order_witness :
  let text :=
    SummarizationAgent._prepare_text_for_summarization three_sentence_paper in
  let sentences :=
    SummarizationAgent._tokenize_sentences (fun _ => None) text in
  let s := SummarizationAgent._generate_extractive_summary (fun _ => None)
             (fun _ _ => []) (fun _ idx _ => inject_Z (Z.of_nat idx))
             three_sentence_paper in
  exists chosen,
    sublist chosen sentences
    /\ (2 <= length chosen <= 5)%nat
    /\ sum_summary s = SummarizationAgent.shorten_for_ui (Py.join " " chosen)
    /\ sum_method s = "extractive".
Proof.
  cbv zeta.
  apply (extractive_summary_keeps_text_order (fun _ => None) (fun _ _ => [])
           (fun _ idx _ => inject_Z (Z.of_nat idx)) three_sentence_paper).
  - vm_compute. discriminate.
  - vm_compute. lia.
Defined.

(** * Status stream ([websocket_status], [src/api/app.py]) *)






(** * Source ([src/agents/discovery_agent.py]) *)

Module DiscoveryAgent.

(** The keys of the query dict that only the Source reads. *)
Record SearchOptions := mkSearchOptions {
  max_papers : option nat;
  from_year : option nat;
  to_year : option nat;
  publication_type : option string;
  min_citations : option nat;
  must_include : list string;
  must_exclude : list string
}.

(** [settings.max_papers_default] *)
Definition max_papers_default : nat := 10.

(** A year as a condition: [None] and 0 are false. *)
Definition year_given (year : option nat) : option nat :=
  match year with
  | Some (S y) => Some (S y)
  | _ => None
  end.

Definition type_mapping : list (string * string) :=
  [ ("cs", "cat:cs.*"); ("physics", "cat:physics.*"); ("math", "cat:math.*");
    ("stat", "cat:stat.*"); ("econ", "cat:econ.*"); ("bio", "cat:q-bio.*");
    ("finance", "cat:q-fin.*") ].

Fixpoint mapping_get (key : string) (mapping : list (string * string))
  (default : string) : string :=
  match mapping with
  | [] => default
  | (k, v) :: rest => if String.eqb k key then v else mapping_get key rest default
  end.

(** The query string [search_arxiv] sends; [current_year] is
    [datetime.datetime.now().year]. *)
Definition arxiv_search_query (query : string) (options : SearchOptions)
  (current_year : nat) : string :=
  let base_terms := ["all:" ++ query] in
  let include_terms := map (fun term => "all:" ++ term) (must_include options) in
  let exclude_terms :=
    map (fun term => "ANDNOT all:" ++ term) (must_exclude options) in
  let search_terms := (base_terms ++ include_terms ++ exclude_terms)%list in
  let search_query := Py.join " AND " search_terms in
  let search_query :=
    match year_given (from_year options), year_given (to_year options) with
    | Some from, Some to =>
        search_query ++ " AND " ++ "submittedDate:[" ++ Py.str_of_nat from
        ++ "0101000000 TO " ++ Py.str_of_nat to ++ "1231235959]"
    | Some from, None =>
        search_query ++ " AND " ++ "submittedDate:[" ++ Py.str_of_nat from
        ++ "0101000000 TO " ++ Py.str_of_nat current_year ++ "1231235959]"
    | None, Some to =>
        search_query ++ " AND " ++ "submittedDate:[19900101000000 TO "
        ++ Py.str_of_nat to ++ "1231235959]"
    | None, None => search_query
    end in
  match publication_type options with
  | Some publication_type =>
      if Py.truthy publication_type
      then search_query ++ " AND "
           ++ mapping_get (Py.lower publication_type) type_mapping
                ("cat:" ++ publication_type ++ "*")
      else search_query
  | None => search_query
  end.

Section Agent.

(** [client.get(self.arxiv_base_url, params=params)] for a query string and
    a [max_results]: the status code and the body, or [None] when the call
    raises (a timeout among others). *)
Variable http_get : string -> nat -> option (Z * string).

(** [_parse_arxiv_response]: the papers of the entries, or [None] when it
    raises something else than the [ParseError] it handles. *)
Variable _parse_arxiv_response : string -> option (list ResearchPaper).

Variable current_year : nat.

(** [search_arxiv]: every failure of the call gives the empty list. *)
Definition search_arxiv (query : string) (max_results : nat)
  (options : SearchOptions) : list ResearchPaper :=
  match http_get (arxiv_search_query query options current_year)
                 max_results with
  | Some (status_code, xml_content) =>
      if status_code =? 200
      then match _parse_arxiv_response xml_content with
           | Some papers => papers
           | None => []
           end
      else []
  | None => []
  end.

(** [process]. [search_arxiv] handles its own failures, so the handler of
    [process] (which returns one made-up fallback paper) is not entered. *)
Definition process (query : Request) (options : SearchOptions)
  : list ResearchPaper :=
  match req_search_query query with
  | Some search_query =>
      if Py.truthy search_query
      then search_arxiv search_query
             (default max_papers_default (max_papers options)) options
      else []
  | None => []
  end.

End Agent.

End DiscoveryAgent.

Example arxiv_search_query_ex :
  DiscoveryAgent.arxiv_search_query "graph networks"
    {| DiscoveryAgent.max_papers := None;
       DiscoveryAgent.from_year := Some 2020%nat;
       DiscoveryAgent.to_year := None;
       DiscoveryAgent.publication_type := Some "CS";
       DiscoveryAgent.min_citations := None;
       DiscoveryAgent.must_include := ["attention"];
       DiscoveryAgent.must_exclude := ["survey"] |} 2026
  = "all:graph networks AND all:attention AND ANDNOT all:survey AND submittedDate:[20200101000000 TO 20261231235959] AND cat:cs.*".
Proof. vm_compute. reflexivity. Qed.

(** ** A search that cannot reach ArXiv *)

(** The agents of the application with the Source of the code in the
    discovery role. *)
Definition with_source (agents : Agents)
  (http_get : string -> nat -> option (Z * string))
  (parse : string -> option (list ResearchPaper)) (current_year : nat)
  (options : DiscoveryAgent.SearchOptions) : Agents :=
  {| discovery := fun request =>
                    Ok (DiscoveryAgent.process http_get parse current_year
                          request options);
     extraction := extraction agents;
     classification := classification agents;
     summarization := summarization agents;
     synthesis := synthesis agents;
     audio := audio agents |}.

(** The call fails: it raises, or answers with another status than 200. *)
Definition unreachable (http_get : string -> nat -> option (Z * string))
  : Prop :=
  forall query max_results,
    match http_get query max_results with
    | Some (status_code, _) => status_code <> 200
    | None => True
    end.

Lemma source_unreachable http_get parse current_year request options :
  unreachable http_get ->
  DiscoveryAgent.process http_get parse current_year request options = [].
Proof.
  intros Hdown. unfold DiscoveryAgent.process, DiscoveryAgent.search_arxiv.
  destruct (req_search_query request) as [q|]; [|reflexivity].
  destruct (Py.truthy q); [|reflexivity].
  specialize (Hdown (DiscoveryAgent.arxiv_search_query q options current_year)
                    (default DiscoveryAgent.max_papers_default
                       (DiscoveryAgent.max_papers options))).
  destruct (http_get _ _) as [[status_code xml]|]; [|reflexivity].
  destruct (Z.eqb_spec status_code 200); [contradiction | reflexivity].
Qed.

(** What a search job leaves in the registry when it found nothing. *)
Definition no_papers_record (now workflow_id : string) : Workflow :=
  {| wf_id := workflow_id;
     wf_status := "completed";
     wf_progress := 100;
     wf_message := "No papers found";
     wf_created_at := now;
     wf_results := Some (ResultsOk (empty_results search_flow)) |}.

Lemma empty_search_record agents now workflow_id request
  (ws : gmap string Workflow) :
  discovery agents (normalize_search request) = Ok [] ->
  apply_events now
    (fst (run_task agents (SearchTask workflow_id request))) ws !! workflow_id
  = Some (no_papers_record now workflow_id)
  /\ agent_calls (fst (run_task agents (SearchTask workflow_id request)))
     = [EvDiscovery (normalize_search request)].
Proof.
  intros Hempty.
  rewrite (empty_batch_run agents (SearchTask workflow_id request) Hempty).
  cbn [fst task_id task_flow first_stage_event task_request]. split.
  - unfold apply_events. cbn [fold_left apply_event].
    rewrite (update_lookup _ _ _ _
               (update_lookup _ _ _ _
                  (update_lookup _ _ _ _
                     (create_lookup now workflow_id "processing" ws)))).
    reflexivity.
  - reflexivity.
Qed.

(** X23. When ArXiv cannot be reached (the call raises, times out or
    answers with another status than 200), the Source returns no paper and
    not its fallback paper; a search job then ends as [completed] with the
    message [No papers found], having called no other agent: the outage is
    not reported as a failure. *)
Theorem search_outage_is_reported_as_no_papers (agents : Agents)
  (http_get : string -> nat -> option (Z * string))
  (parse : string -> option (list ResearchPaper)) (current_year : nat)
  (options : DiscoveryAgent.SearchOptions) (now workflow_id : string)
  (request : Request) (ws : gmap string Workflow) :
  unreachable http_get ->
  let agents' := with_source agents http_get parse current_year options in
  let run := run_task agents' (SearchTask workflow_id request) in
  DiscoveryAgent.process http_get parse current_year request options = []
  /\ snd run = Ok tt
  /\ agent_calls (fst run) = [EvDiscovery (normalize_search request)]
  /\ apply_events now (fst run) ws !! workflow_id
     = Some (no_papers_record now workflow_id).
Proof.
  intros Hdown. cbv zeta.
  split; [apply source_unreachable; exact Hdown|].
  split; [apply run_task_returns|].
  destruct (empty_search_record
              (with_source agents http_get parse current_year options)
              now workflow_id request ws) as [Hrecord Hcalls].
  { cbn [with_source discovery]. f_equal. apply source_unreachable.
    exact Hdown. }
  split; assumption.
Qed.

Lemma search_outage_is_reported_as_no_papers_witness :
  let options :=
    {| DiscoveryAgent.max_papers := None;
       DiscoveryAgent.from_year := None;
       DiscoveryAgent.to_year := None;
       DiscoveryAgent.publication_type := None;
       DiscoveryAgent.min_citations := None;
       DiscoveryAgent.must_include := [];
       DiscoveryAgent.must_exclude := [] |} in
  let agents' := with_source two_paper_agents (fun _ _ => Some (503, ""))
                   (fun _ => Some []) 2026 options in
  let run := run_task agents' (SearchTask "wf-1" sample_search_request) in
  DiscoveryAgent.process (fun _ _ => Some (503, "")) (fun _ => Some []) 2026
    sample_search_request options = []
  /\ snd run = Ok tt
  /\ agent_calls (fst run)
     = [EvDiscovery (normalize_search sample_search_request)]
  /\ apply_events "2026-01-01T00:00:00" (fst run) ∅ !! "wf-1"
     = Some (no_papers_record "2026-01-01T00:00:00" "wf-1").
Proof.
  cbv zeta.
  apply (search_outage_is_reported_as_no_papers two_paper_agents
           (fun _ _ => Some (503, "")) (fun _ => Some []) 2026).
  intros query max_results. discriminate.
Defined.

(** X24. A request that carries an empty ['search_query'] next to a
    non-empty ['query'] is accepted by the route (which reads either key),
    but the job copies ['query'] only when ['search_query'] is missing: the
    Source receives the empty query, asks ArXiv nothing and returns no
    paper, and the job ends with [No papers found]. *)
Theorem query_beside_empty_search_query_is_not_searched (agents : Agents)
  (http_get : string -> nat -> option (Z * string))
  (parse : string -> option (list ResearchPaper)) (current_year : nat)
  (options : DiscoveryAgent.SearchOptions) (now uuid : string)
  (request : Request) (app : App) (q : string) :
  req_search_query request = Some "" ->
  req_query request = Some q ->
  Py.truthy q = true ->
  let agents' := with_source agents http_get parse current_year options in
  let run := run_task agents' (SearchTask uuid request) in
  fst (process_search_request uuid request app)
  = Accepted uuid "processing" "Search request submitted for processing"
  /\ req_search_query (normalize_search request) = Some ""
  /\ agent_calls (fst run) = [EvDiscovery request]
  /\ apply_events now (fst run) (app_workflows app) !! uuid
     = Some (no_papers_record now uuid).
Proof.
  intros Hsearch Hquery Hq. cbv zeta.
  assert (Hnorm : normalize_search request = request).
  { unfold normalize_search. rewrite Hsearch, Hquery. reflexivity. }
  split.
  { unfold process_search_request, submitted_query.
    rewrite Hsearch, Hquery. cbn [Py.truthy String.eqb negb]. rewrite Hq.
    reflexivity. }
  split; [rewrite Hnorm; exact Hsearch|].
  destruct (empty_search_record
              (with_source agents http_get parse current_year options)
              now uuid request (app_workflows app)) as [Hrecord Hcalls].
  { cbn [with_source discovery]. rewrite Hnorm.
    unfold DiscoveryAgent.process. rewrite Hsearch. reflexivity. }
  rewrite Hnorm in Hcalls. split; assumption.
Qed.

Lemma query_beside_empty_search_query_is_not_searched_witness :
  let request := {| req_search_query := Some "";
                    req_query := Some "graph neural networks";
                    req_file_paths := [];
                    req_topics := [] |} in
  let options :=
    {| DiscoveryAgent.max_papers := None;
       DiscoveryAgent.from_year := None;
       DiscoveryAgent.to_year := None;
       DiscoveryAgent.publication_type := None;
       DiscoveryAgent.min_citations := None;
       DiscoveryAgent.must_include := [];
       DiscoveryAgent.must_exclude := [] |} in
  let agents' := with_source two_paper_agents
                   (fun _ _ => Some (200, "<feed/>"))
                   (fun _ => Some sample_batch) 2026 options in
  let run := run_task agents' (SearchTask "wf-1" request) in
  fst (process_search_request "wf-1" request empty_app)
  = Accepted "wf-1" "processing" "Search request submitted for processing"
  /\ req_search_query (normalize_search request) = Some ""
  /\ agent_calls (fst run) = [EvDiscovery request]
  /\ apply_events "2026-01-01T00:00:00" (fst run) (app_workflows empty_app)
       !! "wf-1"
     = Some (no_papers_record "2026-01-01T00:00:00" "wf-1").
Proof.
  cbv zeta.
  apply (query_beside_empty_search_query_is_not_searched two_paper_agents
           (fun _ _ => Some (200, "<feed/>")) (fun _ => Some sample_batch)
           2026 _ "2026-01-01T00:00:00" "wf-1" _ empty_app
           "graph neural networks"); reflexivity.
Defined.

(** * Upload submission ([process_upload_request], [src/api/routes.py]) *)

(** An uploaded file: its name and its bytes. *)
Record UploadFile := mkUploadFile {
  filename : string;
  content : list Byte.byte
}.

Inductive UploadResponse :=
| UploadAccepted (workflow_id status message : string)
    (uploaded_files topics : list string)
| UploadHttpError (status_code : Z) (detail : string).

(** [[topic.strip() for topic in topics if topic.strip()]] *)
Definition clean_topics (topics : list string) : list string :=
  map Py.strip (List.filter (fun topic => Py.truthy (Py.strip topic)) topics).

Section Upload.

(** [str(settings.uploads_dir / name)] *)
Variable upload_path : string -> string.

(** Writing the bytes to a path: [Some e] when [open] or [write] raises,
    with [e] the text of the exception. *)
Variable save : string -> list Byte.byte -> option string.

(** The loop that saves the files: the paths, or the first exception. *)
Fixpoint save_files (files : list UploadFile) : result (list string) :=
  match files with
  | [] => Ok []
  | file :: rest =>
      let file_path := upload_path (filename file) in
      match save file_path (content file) with
      | Some e => Raise e
      | None =>
          match save_files rest with
          | Ok file_paths => Ok (file_path :: file_paths)
          | Raise e => Raise e
          end
      end
  end.

(** [process_upload_request]; [uuid] is [str(uuid.uuid4())]. *)
Definition process_upload_request (uuid : string) (files : list UploadFile)
  (topics : list string) (app : App) : UploadResponse * App :=
  match save_files files with
  | Raise e => (UploadHttpError 500 e, app)
  | Ok file_paths =>
      let topics_list := clean_topics topics in
      let request := {| req_search_query := None;
                        req_query := None;
                        req_file_paths := file_paths;
                        req_topics := topics_list |} in
      (UploadAccepted uuid "processing"
         "Upload request submitted for processing"
         (map filename files) topics_list,
       {| app_workflows := app_workflows app;
          app_tasks := (app_tasks app ++ [UploadTask uuid request])%list |})
  end.

End Upload.

(** ** Stripped strings *)

Lemma lstrip_chars_twice l :
  Py.lstrip_chars (Py.lstrip_chars l) = Py.lstrip_chars l.
Proof.
  induction l as [|c l IH]; [reflexivity|]. cbn [Py.lstrip_chars].
  destruct (Py.isspace_char c) eqn:E; [exact IH|].
  cbn [Py.lstrip_chars]. rewrite E. reflexivity.
Qed.

Lemma lstrip_chars_snoc l c :
  Py.isspace_char c = false ->
  Py.lstrip_chars (l ++ [c]) = (Py.lstrip_chars l ++ [c])%list.
Proof.
  intros Hc. induction l as [|x l IH]; cbn [app Py.lstrip_chars].
  - rewrite Hc. reflexivity.
  - destruct (Py.isspace_char x); [exact IH | reflexivity].
Qed.

(** What is left of a list without leading whitespace, once its trailing
    whitespace is removed, has no leading whitespace. *)
Lemma lstrip_rstrip l :
  Py.lstrip_chars l = l ->
  Py.lstrip_chars (Py.rstrip_chars l) = Py.rstrip_chars l.
Proof.
  intros Hl. unfold Py.rstrip_chars. destruct l as [|c l]; [reflexivity|].
  cbn [Py.lstrip_chars] in Hl.
  destruct (Py.isspace_char c) eqn:Hc.
  - exfalso. clear -Hl.
    assert (Hlen : forall l', (length (Py.lstrip_chars l') <= length l')%nat).
    { induction l' as [|x l' IH]; cbn [Py.lstrip_chars length]; [lia|].
      destruct (Py.isspace_char x); cbn [length]; lia. }
    specialize (Hlen l). rewrite Hl in Hlen. cbn [length] in Hlen. lia.
  - cbn [rev]. rewrite lstrip_chars_snoc by exact Hc.
    rewrite rev_app_distr. cbn [rev app Py.lstrip_chars]. rewrite Hc.
    reflexivity.
Qed.

(** Stripping a stripped string changes nothing. *)
Lemma strip_twice s : Py.strip (Py.strip s) = Py.strip s.
Proof.
  unfold Py.strip. rewrite chars_str. f_equal.
  rewrite lstrip_rstrip by apply lstrip_chars_twice.
  unfold Py.rstrip_chars. rewrite rev_involutive, lstrip_chars_twice.
  reflexivity.
Qed.

Lemma save_files_length upload_path save files : forall file_paths,
  save_files upload_path save files = Ok file_paths ->
  file_paths = map (fun file => upload_path (filename file)) files.
Proof.
  induction files as [|file rest IH]; intros file_paths H;
    cbn [save_files] in H.
  - injection H as <-. reflexivity.
  - cbv zeta in H. destruct (save _ _); [discriminate|].
    destruct (save_files upload_path save rest) as [paths|e];
      [|discriminate].
    injection H as <-. cbn [map]. f_equal. apply IH. reflexivity.
Qed.

(** X25. An upload submission either fails with a 500 carrying the text of
    the error, queues nothing and leaves the registry alone; or it queues
    exactly one upload task, does not touch the registry, and the task's
    request holds one path per uploaded file, in order, and topics that are
    all non-empty and free of surrounding whitespace (the same list the
    response shows). *)
Theorem upload_submission_cleans_topics (upload_path : string -> string)
  (save : string -> list Byte.byte -> option string) (uuid : string)
  (files : list UploadFile) (topics : list string) (app : App) :
  let response := fst (process_upload_request upload_path save uuid files
                         topics app) in
  let app' := snd (process_upload_request upload_path save uuid files
                     topics app) in
  app_workflows app' = app_workflows app
  /\ ((exists detail, response = UploadHttpError 500 detail /\ app' = app)
      \/ exists request,
           response = UploadAccepted uuid "processing"
                        "Upload request submitted for processing"
                        (map filename files) (req_topics request)
           /\ app_tasks app' = (app_tasks app ++ [UploadTask uuid request])%list
           /\ req_file_paths request
              = map (fun file => upload_path (filename file)) files
           /\ Forall (fun topic => topic <> "" /\ Py.strip topic = topic)
                     (req_topics request)
           /\ req_topics request = clean_topics topics).
Proof.
  cbv zeta. unfold process_upload_request.
  destruct (save_files upload_path save files) as [file_paths|e] eqn:Hsave;
    cbn [fst snd app_workflows].
  2: { split; [reflexivity|]. left. exists e. split; reflexivity. }
  split; [reflexivity|]. right.
  exists {| req_search_query := None;
            req_query := None;
            req_file_paths := file_paths;
            req_topics := clean_topics topics |}.
  split; [reflexivity|].
  cbn [app_tasks req_file_paths req_topics].
  split; [reflexivity|].
  split; [exact (save_files_length upload_path save files _ Hsave)|].
  split; [|reflexivity].
  unfold clean_topics. apply Forall_forall. intros topic Hin.
  apply list_elem_of_fmap in Hin as (raw & -> & Hraw).
  apply list_elem_of_In, filter_In in Hraw as [_ Hkeep].
  split; [apply truthy_spec; exact Hkeep | apply strip_twice].
Qed.

(** * The Summarizer as it is constructed *)

(** [_initialize_summarizer]: what it leaves in [self.model_available] and
    whether [self.summarizer] is set. With either flag of the settings on,
    it returns early; otherwise the guarded block sets the flag to false
    (the loading of the models is commented out), and [transformers] is not
    imported, so the handler for [ImportError] is not entered. *)
Definition _initialize_summarizer (use_extractive_summarization
  disable_heavy_models : bool) : bool * option (string -> option string) :=
  if use_extractive_summarization || disable_heavy_models
  then (false, None)
  else (false, None).

(** X26. Whatever the two flags of the settings are, the Summarizer that
    [__init__] builds never takes the abstractive branch: every answer is
    the one of [_generate_extractive_summary], with the method
    [extractive] or [fallback]. *)
Theorem constructed_summarizer_is_extractive
  (use_extractive_summarization disable_heavy_models : bool)
  (sent_tokenize : string -> option (list string))
  (re_findall : string -> string -> list string)
  (final_score : list string -> nat -> string -> Q)
  (paper : ResearchPaper) :
  let built := _initialize_summarizer use_extractive_summarization
                 disable_heavy_models in
  let s := SummarizationAgent.process (fst built) (snd built) sent_tokenize
             re_findall final_score paper in
  s = SummarizationAgent._generate_extractive_summary sent_tokenize
        re_findall final_score paper
  /\ (sum_method s = "extractive" \/ sum_method s = "fallback")
  /\ sum_method s <> "abstractive".
Proof.
  cbv zeta.
  assert (Hbuilt : _initialize_summarizer use_extractive_summarization
                     disable_heavy_models = (false, None)).
  { unfold _initialize_summarizer.
    destruct (use_extractive_summarization || disable_heavy_models);
      reflexivity. }
  rewrite Hbuilt. cbn [fst snd SummarizationAgent.process].
  split; [reflexivity|].
  pose proof (extractive_method sent_tokenize re_findall final_score paper)
    as Hmethod.
  cbv zeta in Hmethod. split; [exact Hmethod|].
  destruct Hmethod as [-> | ->]; discriminate.
Qed.
